(** * uTLGBotLib: bounded buffers, JSON token navigation, envelope unwrapping

    A shallow embedding of [src/utlgbotlib.cpp] (uTLGBotLib 1.0.3) and the
    properties of its buffer toolkit, JSON navigator, response unwrapper and
    update reader.

    Conventions of the embedding:
    - a C [char] array is an [obj]: the list of its bytes, whose length is the
      size of the array.  A [char*] into it is the object with an offset.
    - an access outside the object is undefined behaviour in C; here it is the
      outcome [Fault].
    - machine integers are [Z] with the wrap-around of each C type written
      out ([size_t], [uint32], [int32], [uint64]).
    - the debug prints ([_print], [_println], [_printf]) and [_yield()] do not
      touch the data and are left out. *)

From Stdlib Require Import ZArith Lia List Ascii String DecimalString.
From stdpp Require Import base tactics option list numbers strings.

Local Open Scope Z_scope.

(** ** Outcomes of a C computation *)

Inductive result (A : Type) : Type :=
| Ok (a : A)
| Fault        (* an access outside the bounds of an object *)
| OutOfFuel.   (* a loop ran past the iteration bound given to it *)
Arguments Ok {A} a.
Arguments Fault {A}.
Arguments OutOfFuel {A}.

Global Instance result_ret : MRet result := fun A a => Ok a.
Global Instance result_bind : MBind result := fun A B f m =>
  match m with
  | Ok a => f a
  | Fault => Fault
  | OutOfFuel => OutOfFuel
  end.

Global Instance result_fmap : FMap result := fun A B f m =>
  match m with
  | Ok a => Ok (f a)
  | Fault => Fault
  | OutOfFuel => OutOfFuel
  end.

Definition of_option {A} (o : option A) : result A :=
  match o with Some a => Ok a | None => Fault end.

(** ** Machine integers *)

Definition wrap (w z : Z) : Z := z mod 2 ^ w.

Definition to_signed (w z : Z) : Z :=
  let u := wrap w z in if decide (u < 2 ^ (w - 1)) then u else u - 2 ^ w.

(** The width of [size_t] depends on the target (32 bits on the ESP32, 64 bits
    on a desktop build); the fixed-width types do not. *)
Class Platform := {
  size_bits : Z;
  size_bits_min : 32 <= size_bits
}.

Definition size_t `{Platform} (z : Z) : Z := wrap size_bits z.
Definition uint32 (z : Z) : Z := wrap 32 z.
Definition uint64 (z : Z) : Z := wrap 64 z.
Definition int32 (z : Z) : Z := to_signed 32 z.

Definition UINT64_MAX : Z := 2 ^ 64 - 1.

#[export] Instance esp32 : Platform := {| size_bits := 32; size_bits_min := Z.le_refl 32 |}.

(** ** Objects: char arrays *)

Abbreviation obj := (list ascii).

Definition NUL : ascii := Ascii.zero.

Definition load (o : obj) (i : Z) : result ascii :=
  if decide (0 <= i) then of_option (o !! Z.to_nat i) else Fault.

Definition store (o : obj) (i : Z) (c : ascii) : result obj :=
  if decide (0 <= i < Z.of_nat (length o)) then Ok (<[Z.to_nat i := c]> o) else Fault.

(** ** The C library functions the source calls *)

Fixpoint strlen_list (l : list ascii) : result Z :=
  match l with
  | [] => Fault
  | c :: l' => if decide (c = NUL) then Ok 0 else n ← strlen_list l'; Ok (n + 1)
  end.

(** [strlen(o + p)] *)
Definition strlen (o : obj) (p : Z) : result Z :=
  if decide (0 <= p) then strlen_list (drop (Z.to_nat p) o) else Fault.

(** [strncmp(o1 + p1, o2 + p2, n)]: the difference of the first differing
    bytes (as unsigned char), 0 if none differs before a terminator or [n]. *)
Fixpoint strncmp_aux (n : nat) (o1 : obj) (p1 : Z) (o2 : obj) (p2 : Z) : result Z :=
  match n with
  | O => Ok 0
  | S n' =>
    c1 ← load o1 p1;
    c2 ← load o2 p2;
    if decide (c1 = c2) then
      if decide (c1 = NUL) then Ok 0
      else strncmp_aux n' o1 (p1 + 1) o2 (p2 + 1)
    else Ok (Z.of_nat (nat_of_ascii c1) - Z.of_nat (nat_of_ascii c2))
  end.

Definition strncmp (o1 : obj) (p1 : Z) (o2 : obj) (p2 : Z) (n : Z) : result Z :=
  strncmp_aux (Z.to_nat n) o1 p1 o2 p2.

(** [strcmp(o1 + p1, o2 + p2)]: the comparison ends at a terminator, at a
    difference, or with a read past the end of [o1]. *)
Definition strcmp (o1 : obj) (p1 : Z) (o2 : obj) (p2 : Z) : result Z :=
  strncmp_aux (S (length o1)) o1 p1 o2 p2.

(** [memset(o + p, c, n)] *)
Definition memset (o : obj) (p : Z) (c : ascii) (n : Z) : result obj :=
  if decide (0 <= p /\ 0 <= n /\ p + n <= Z.of_nat (length o)) then
    Ok (take (Z.to_nat p) o ++ replicate (Z.to_nat n) c ++ drop (Z.to_nat (p + n)) o)
  else Fault.

(** [memcpy(dst + dp, src + sp, n)] between two distinct objects *)
Definition memcpy (dst : obj) (dp : Z) (src : obj) (sp : Z) (n : Z) : result obj :=
  if decide (0 <= dp /\ 0 <= sp /\ 0 <= n /\ dp + n <= Z.of_nat (length dst)
             /\ sp + n <= Z.of_nat (length src)) then
    Ok (take (Z.to_nat dp) dst ++ take (Z.to_nat n) (drop (Z.to_nat sp) src)
        ++ drop (Z.to_nat (dp + n)) dst)
  else Fault.

(** [strncpy(dst, src, n)]: copies up to the terminator of [src] and pads with
    zero bytes up to [n]; writes no terminator when [src] has [n] or more
    characters. *)
Fixpoint strncpy_aux (n : nat) (dst : obj) (dp : Z) (src : obj) (sp : Z) : result obj :=
  match n with
  | O => Ok dst
  | S n' =>
    c ← load src sp;
    dst' ← store dst dp c;
    if decide (c = NUL) then memset dst' (dp + 1) NUL (Z.of_nat n')
    else strncpy_aux n' dst' (dp + 1) src (sp + 1)
  end.

Definition strncpy (dst : obj) (src : obj) (n : Z) : result obj :=
  strncpy_aux (Z.to_nat n) dst 0 src 0.

(** [snprintf(dst, n, "%s", src)]: at most [n - 1] characters and a
    terminator; the whole of [src] is read (for the return value). *)
Definition snprintf_s (dst : obj) (n : Z) (src : obj) : result obj :=
  len ← strlen src 0;
  if decide (n <= 0) then Ok dst
  else
    let k := Z.min len (n - 1) in
    dst' ← memcpy dst 0 src 0 k;
    store dst' k NUL.

(** ** String literals of the source *)

Definition DQ : ascii := "034"%char.   (* the double quote *)
Definition CR : ascii := "013"%char.
Definition LF : ascii := "010"%char.

Definition chars (s : string) : list ascii := list_ascii_of_string s.

(** A quoted JSON string: the characters of [s] between double quotes. *)
Definition quoted (s : string) : list ascii := DQ :: chars s ++ [DQ].

(** A C string literal: its characters and the terminator. *)
Definition cstr (l : list ascii) : obj := l ++ [NUL].

(** The literals of [tlg_get] and [tlg_post]: the separator [\r\n\r\n], the
    markers ["ok":] and ["result":] with their quotes, and [true]. *)
Definition lit_crlfcrlf : list ascii := [CR; LF; CR; LF].
Definition lit_ok : list ascii := quoted "ok" ++ chars ":".
Definition lit_result : list ascii := quoted "result" ++ chars ":".
Definition lit_true : list ascii := chars "true".

(** ** Buffer toolkit (private auxiliary methods) *)

Section Toolkit.
Context `{Platform}.

(** The [for] loop of [cstr_strncat]: [n] iterations remain ([src_len - i]);
    the result is [(rc, i, dest)] at the exit of the loop. *)
Fixpoint cstr_strncat_loop (n : nat) (dest : obj) (dest_max_size dest_len : Z)
    (src : obj) (i : Z) : result (bool * Z * obj) :=
  match n with
  | O => Ok (true, i, dest)
  | S n' =>
    if decide (size_t (dest_len + i) > size_t (dest_max_size - 1)) then
      dest' ← store dest (size_t (dest_max_size - 1)) NUL;
      Ok (false, i, dest')
    else
      c ← load src i;
      dest' ← store dest (size_t (dest_len + i)) c;
      cstr_strncat_loop n' dest' dest_max_size dest_len src (size_t (i + 1))
  end.

(** [bool cstr_strncat(char* dest, size_t dest_max_size, const char* src,
    size_t src_len)] *)
Definition cstr_strncat (dest : obj) (dest_max_size : Z) (src : obj) (src_len : Z)
    : result (bool * obj) :=
  dest_len ← strlen dest 0;
  '(rc, i, dest1) ← cstr_strncat_loop (Z.to_nat src_len) dest dest_max_size dest_len src 0;
  dest2 ← (if decide (size_t (dest_len + i) >= size_t (dest_max_size - 1))
           then store dest1 (size_t (dest_max_size - 1)) NUL
           else store dest1 (size_t (dest_len + i)) NUL);
  Ok (rc, dest2).

(** The [for] loop of [cstr_rm_char]: [n] iterations remain ([str_len - b]). *)
Fixpoint cstr_rm_char_loop (n : nat) (o : obj) (str : Z) (c_remove : ascii) (a b : Z)
    : result (Z * obj) :=
  match n with
  | O => Ok (a, o)
  | S n' =>
    cb ← load o (str + b);
    if decide (cb <> c_remove) then
      o' ← store o (str + a) cb;
      cstr_rm_char_loop n' o' str c_remove (size_t (a + 1)) (size_t (b + 1))
    else cstr_rm_char_loop n' o str c_remove a (size_t (b + 1))
  end.

(** [void cstr_rm_char(char* str, size_t str_len, char c_remove)], with [str]
    the pointer [o + str]. *)
Definition cstr_rm_char (o : obj) (str : Z) (str_len : Z) (c_remove : ascii) : result obj :=
  '(a, o') ← cstr_rm_char_loop (Z.to_nat str_len) o str c_remove 0 0;
  store o' (str + a) NUL.

(** The [while] loop of [cstr_get_substr_pos_end]; [str] and [i] advance
    together. *)
Fixpoint cstr_get_substr_pos_end_loop (fuel : nat) (o : obj) (str : Z) (str_len : Z)
    (substr : obj) (substr_len : Z) (i : Z) : result Z :=
  if decide (size_t (i + substr_len) <= str_len) then
    match fuel with
    | O => OutOfFuel
    | S fuel' =>
      r ← strncmp o str substr 0 substr_len;
      if decide (r = 0) then Ok (int32 (size_t (i + substr_len)))
      else cstr_get_substr_pos_end_loop fuel' o (str + 1) str_len substr substr_len
             (size_t (i + 1))
    end
  else Ok (-1).

(** [int32_t cstr_get_substr_pos_end(char* str, size_t str_len, const char*
    substr, size_t substr_len)], with [str] the pointer [o + str].  Without
    wrap-around the loop runs at most [str_len + 1] times. *)
Definition cstr_get_substr_pos_end (o : obj) (str : Z) (str_len : Z)
    (substr : obj) (substr_len : Z) : result Z :=
  cstr_get_substr_pos_end_loop (S (Z.to_nat str_len)) o str str_len substr substr_len 0.

End Toolkit.

(** ** JSON token navigator *)

(** Modelled from the spec: the token type of the external tokenizer (jsmn),
    whose header is not part of the sources: a span [start, end) tagged
    object, array, string or primitive; a zeroed token is undefined. *)
Inductive jsmntype_t := JSMN_UNDEFINED | JSMN_OBJECT | JSMN_ARRAY | JSMN_STRING | JSMN_PRIMITIVE.

Global Instance jsmntype_eq_dec : EqDecision jsmntype_t.
Proof. solve_decision. Defined.

Record jsmntok_t := mk_tok { tok_type : jsmntype_t; tok_start : Z; tok_end : Z }.

Definition zero_tok : jsmntok_t := mk_tok JSMN_UNDEFINED 0 0.

(** Modelled from the spec: the external tokenizer.  [jsmn_parse js ofs len
    tokens cap] scans [len] bytes at [js + ofs] and fills [tokens]; its
    result is the number of tokens, or zero or a negative code for malformed
    JSON or a token array too small for the input. *)
Class Tokenizer := {
  jsmn_parse : obj -> Z -> Z -> list jsmntok_t -> Z -> result (Z * list jsmntok_t)
}.

(** Modelled from the spec: the negative counts of the tokenizer, under the
    names that jsmn gives them. *)
Definition JSMN_ERROR_NOMEM : Z := -1.  (* not enough tokens were provided *)
Definition JSMN_ERROR_INVAL : Z := -2.  (* invalid character inside the JSON text *)
Definition JSMN_ERROR_PART : Z := -3.   (* the text is not a full JSON packet *)

Section Navigator.
Context `{Platform} `{Tokenizer}.

(** [uint32_t json_parse_str(const char* json_str, size_t json_str_len,
    jsmntok_t* json_tokens, uint32_t json_tokens_len)], with [json_str] the
    pointer [js + ofs]. *)
Definition json_parse_str (js : obj) (ofs : Z) (json_str_len : Z)
    (json_tokens : list jsmntok_t) (json_tokens_len : Z) : result (Z * list jsmntok_t) :=
  '(num_elements, json_tokens') ← jsmn_parse js ofs json_str_len json_tokens json_tokens_len;
  if decide (num_elements < 0) then Ok (0, json_tokens')
  else if decide (num_elements = 0) then Ok (0, json_tokens')
  else
    t0 ← of_option (json_tokens' !! 0%nat);
    if decide (tok_type t0 <> JSMN_OBJECT) then Ok (0, json_tokens')
    else Ok (uint32 num_elements, json_tokens').

(** The [for] loop of [json_has_key]: [n] iterations remain
    ([num_tokens - i]). *)
Fixpoint json_has_key_loop (n : nat) (js : obj) (ofs : Z) (json_tokens : list jsmntok_t)
    (key : obj) (i : Z) : result Z :=
  match n with
  | O => Ok 0
  | S n' =>
    t ← of_option (json_tokens !! Z.to_nat i);
    if decide (tok_type t <> JSMN_STRING) then
      json_has_key_loop n' js ofs json_tokens key (uint32 (i + 1))
    else
      klen ← strlen key 0;
      if decide (klen <> uint32 (tok_end t - tok_start t)) then
        json_has_key_loop n' js ofs json_tokens key (uint32 (i + 1))
      else
        r ← strncmp js (ofs + tok_start t) key 0 (size_t (tok_end t - tok_start t));
        if decide (r = 0) then Ok i
        else json_has_key_loop n' js ofs json_tokens key (uint32 (i + 1))
  end.

(** [uint32_t json_has_key(const char* json_str, jsmntok_t* json_tokens,
    uint32_t num_tokens, const char* key)] *)
Definition json_has_key (js : obj) (ofs : Z) (json_tokens : list jsmntok_t)
    (num_tokens : Z) (key : obj) : result Z :=
  json_has_key_loop (Z.to_nat num_tokens) js ofs json_tokens key 0.

(** [void json_get_element_string(const char* json_str, jsmntok_t* token,
    char* converted_str, uint32_t converted_str_len)] *)
Definition json_get_element_string (js : obj) (ofs : Z) (token : jsmntok_t)
    (converted_str : obj) (converted_str_len : Z) : result obj :=
  let value := ofs + tok_start token in
  let value_len := uint32 (tok_end token - tok_start token) in
  let value_len := if decide (value_len > converted_str_len)
                   then converted_str_len else value_len in
  cleared ← memset converted_str 0 NUL converted_str_len;
  memcpy cleared 0 js value value_len.

(** [uint8_t json_get_key_value(const char* key, const char* json_str,
    jsmntok_t* tokens, uint32_t num_tokens, char* converted_str, uint32_t
    converted_str_len)] *)
Definition json_get_key_value (key : obj) (js : obj) (ofs : Z) (tokens : list jsmntok_t)
    (num_tokens : Z) (converted_str : obj) (converted_str_len : Z) : result (bool * obj) :=
  key_position ← json_has_key js ofs tokens num_tokens key;
  if decide (key_position = 0) then Ok (false, converted_str)
  else
    t ← of_option (tokens !! Z.to_nat (size_t (key_position + 1)));
    s ← json_get_element_string js ofs t converted_str converted_str_len;
    Ok (true, s).

End Navigator.

(** ** Response envelope unwrapper

    [tlg_get] and [tlg_post] run the same statements on the buffer once the
    transport has filled it (lines 766-827 and 847-912); they are embedded
    once, as [tlg_unwrap]. *)

Section Unwrapper.
Context `{Platform}.

(** The final [while] loop of [tlg_get] and [tlg_post]: bytes move from
    [o + src] to [o + dst] inside the same object; [strlen] is evaluated again
    at every test of the condition. *)
Fixpoint tlg_move_loop (fuel : nat) (o : obj) (dst src : Z) (i : Z) : result (Z * obj) :=
  len ← strlen o src;
  if decide (i < len) then
    match fuel with
    | O => OutOfFuel
    | S fuel' =>
      c ← load o (src + i);
      o' ← store o (dst + i) c;
      tlg_move_loop fuel' o' dst src (uint32 (i + 1))
    end
  else Ok (i, o).

(** The statements of [tlg_get] (from line 766) and [tlg_post] (from line
    847) after the transport call.  [response] is the buffer the caller
    passed, [response_len] its declared size; the local pointer that the
    source advances is the offset [p1], [p2], [p3] into it, while
    [response_init_pos] stays at offset 0. *)
Definition tlg_unwrap (response : obj) (response_len : Z) : result (bool * obj) :=
  (* Remove last character *)
  len ← strlen response 0;
  response ← store response (size_t (len - 1)) NUL;
  (* Check and remove response header *)
  len ← strlen response 0;
  sublen ← strlen (cstr lit_crlfcrlf) 0;
  pos ← cstr_get_substr_pos_end response 0 len (cstr lit_crlfcrlf) sublen;
  if decide (pos = -1) then
    cleared ← memset response 0 NUL response_len; Ok (false, cleared)
  else
  let p1 := 0 + pos in
  (* Check for and get request "ok" response key *)
  len ← strlen response p1;
  sublen ← strlen (cstr lit_ok) 0;
  pos ← cstr_get_substr_pos_end response p1 len (cstr lit_ok) sublen;
  if decide (pos = -1) then
    cleared ← memset response p1 NUL response_len; Ok (false, cleared)
  else
  let p2 := p1 + pos in
  (* Check if request "ok" response value is "true" *)
  sublen ← strlen (cstr lit_true) 0;
  cmp ← strncmp response p2 (cstr lit_true) 0 sublen;
  if decide (cmp <> 0) then
    cleared ← memset response p2 NUL response_len; Ok (false, cleared)
  else
  (* Remove root json response and just keep "result" attribute json value *)
  len ← strlen response p2;
  sublen ← strlen (cstr lit_result) 0;
  pos ← cstr_get_substr_pos_end response p2 len (cstr lit_result) sublen;
  if decide (pos = -1) then
    cleared ← memset response p2 NUL response_len; Ok (false, cleared)
  else
  let p3 := p2 + pos in
  (* Move each byte to initial response address positions *)
  '(i, response) ← tlg_move_loop (length response) response 0 p3 0;
  response ← store response (0 + i) NUL;
  Ok (true, response).

End Unwrapper.

(** ** The bot: configuration, collaborators and state *)

(** Modelled from the spec: the constants of [utlgbotlib.h], which is not part
    of the sources; all capacity limits are caller-configured constants. *)
Class Config := {
  HTTP_MAX_RES_LENGTH : Z;
  HTTP_MAX_URI_LENGTH : Z;
  HTTP_WAIT_RESPONSE_TIMEOUT : Z;
  MAX_JSON_STR_LEN : Z;
  MAX_JSON_SUBVAL_STR_LEN : Z;
  MAX_JSON_ELEMENTS : Z;
  MAX_JSON_SUBELEMENTS : Z;
  MAX_TEXT_LENGTH : Z;
  MAX_ID_LENGTH : Z;
  MAX_USER_LENGTH : Z;
  MAX_USERNAME_LENGTH : Z;
  MAX_LANGUAGE_CODE_LENGTH : Z;
  MAX_CHAT_TYPE_LENGTH : Z;
  MAX_CHAT_TITLE_LENGTH : Z;
  TOKEN_LENGTH : Z;
  TELEGRAM_API_LENGTH : Z;
  DEFAULT_TELEGRAM_LONG_POLL_S : Z;
  TELEGRAM_HOST : list ascii;
  HTTPS_PORT : Z;
  API_CMD_GET_ME : list ascii;
  API_CMD_SEND_MSG : list ascii;
  API_CMD_GET_UPDATES : list ascii
}.

(** Modelled from the spec: the transport client ([_client]), an external
    collaborator.  [get] and [post] return a status, 0 meaning success, and
    write the response into the supplied buffer. *)
Class HttpsClient (C : Type) := {
  client_is_connected : C -> bool;
  client_connect : C -> list ascii -> Z -> Z * C;
  client_disconnect : C -> C;
  client_get : C -> list ascii -> list ascii -> obj -> Z -> Z -> Z * obj * C;
  client_post : C -> list ascii -> list ascii -> obj -> Z -> Z -> Z -> Z * obj * C
}.

(** The conversions of [sscanf] the source uses ([SCNu64], [SCNd64],
    [SCNu32]), as functions of the characters of the C string that [sscanf]
    is given (without its terminator): the value converted, or [None] when
    nothing is converted and the variable keeps its value.  A caller whose
    argument is not a C string reads past the array before any conversion:
    the callers below take the characters with [string_at], which is a
    [Fault] there. *)
Class Scanf := {
  sscanf_u64 : obj -> option Z;
  sscanf_d64 : obj -> option Z;
  sscanf_u32 : obj -> option Z
}.

(** Decimal output of [printf] for an unsigned value ([PRIu64], [PRIu8]). *)
Definition dec (z : Z) : list ascii := chars (NilZero.string_of_uint (N.to_uint (Z.to_N z))).

(** [snprintf(dst, n, ...)] once the output is formatted as [out]. *)
Definition snprintf (dst : obj) (n : Z) (out : list ascii) : result obj :=
  if decide (n <= 0) then Ok dst
  else
    let k := Z.min (Z.of_nat (length out)) (n - 1) in
    dst' ← memcpy dst 0 out 0 k;
    store dst' k NUL.

(** The characters of the C string at [o + p]. *)
Definition string_at (o : obj) (p : Z) : result (list ascii) :=
  len ← strlen o p;
  Ok (take (Z.to_nat len) (drop (Z.to_nat p) o)).

(** Modelled from the spec: the message record of [utlgbotlib.h]; every
    string field is a char array of the capacity the source gives to the copy
    into it. *)
Record tlg_type_user := mk_user {
  user_id : obj;              (* MAX_ID_LENGTH *)
  user_is_bot : bool;
  user_first_name : obj;      (* MAX_USER_LENGTH *)
  user_last_name : obj;       (* MAX_USER_LENGTH *)
  user_username : obj;        (* MAX_USERNAME_LENGTH *)
  user_language_code : obj    (* MAX_LANGUAGE_CODE_LENGTH *)
}.

Record tlg_type_chat := mk_chat {
  chat_id : obj;              (* MAX_ID_LENGTH *)
  chat_type : obj;            (* MAX_CHAT_TYPE_LENGTH *)
  chat_title : obj;           (* MAX_CHAT_TITLE_LENGTH *)
  chat_username : obj;        (* MAX_USERNAME_LENGTH *)
  chat_first_name : obj;      (* MAX_USER_LENGTH *)
  chat_last_name : obj;       (* MAX_USER_LENGTH *)
  chat_all_members_are_administrators : bool
}.

Record tlg_type_message := mk_msg {
  msg_message_id : Z;         (* int64_t *)
  msg_date : Z;               (* uint32_t *)
  msg_text : obj;             (* MAX_TEXT_LENGTH *)
  msg_from : tlg_type_user;
  msg_chat : tlg_type_chat
}.

Definition set_user_id (u : tlg_type_user) (v : obj) : tlg_type_user :=
  mk_user v (user_is_bot u) (user_first_name u) (user_last_name u) (user_username u)
    (user_language_code u).
Definition set_user_is_bot (u : tlg_type_user) (v : bool) : tlg_type_user :=
  mk_user (user_id u) v (user_first_name u) (user_last_name u) (user_username u)
    (user_language_code u).
Definition set_user_first_name (u : tlg_type_user) (v : obj) : tlg_type_user :=
  mk_user (user_id u) (user_is_bot u) v (user_last_name u) (user_username u)
    (user_language_code u).
Definition set_user_last_name (u : tlg_type_user) (v : obj) : tlg_type_user :=
  mk_user (user_id u) (user_is_bot u) (user_first_name u) v (user_username u)
    (user_language_code u).
Definition set_user_username (u : tlg_type_user) (v : obj) : tlg_type_user :=
  mk_user (user_id u) (user_is_bot u) (user_first_name u) (user_last_name u) v
    (user_language_code u).
Definition set_user_language_code (u : tlg_type_user) (v : obj) : tlg_type_user :=
  mk_user (user_id u) (user_is_bot u) (user_first_name u) (user_last_name u)
    (user_username u) v.

Definition set_chat_id (c : tlg_type_chat) (v : obj) : tlg_type_chat :=
  mk_chat v (chat_type c) (chat_title c) (chat_username c) (chat_first_name c)
    (chat_last_name c) (chat_all_members_are_administrators c).
Definition set_chat_type (c : tlg_type_chat) (v : obj) : tlg_type_chat :=
  mk_chat (chat_id c) v (chat_title c) (chat_username c) (chat_first_name c)
    (chat_last_name c) (chat_all_members_are_administrators c).
Definition set_chat_title (c : tlg_type_chat) (v : obj) : tlg_type_chat :=
  mk_chat (chat_id c) (chat_type c) v (chat_username c) (chat_first_name c)
    (chat_last_name c) (chat_all_members_are_administrators c).
Definition set_chat_username (c : tlg_type_chat) (v : obj) : tlg_type_chat :=
  mk_chat (chat_id c) (chat_type c) (chat_title c) v (chat_first_name c)
    (chat_last_name c) (chat_all_members_are_administrators c).
Definition set_chat_first_name (c : tlg_type_chat) (v : obj) : tlg_type_chat :=
  mk_chat (chat_id c) (chat_type c) (chat_title c) (chat_username c) v
    (chat_last_name c) (chat_all_members_are_administrators c).
Definition set_chat_last_name (c : tlg_type_chat) (v : obj) : tlg_type_chat :=
  mk_chat (chat_id c) (chat_type c) (chat_title c) (chat_username c) (chat_first_name c)
    v (chat_all_members_are_administrators c).
Definition set_chat_all_members_are_administrators (c : tlg_type_chat) (v : bool)
    : tlg_type_chat :=
  mk_chat (chat_id c) (chat_type c) (chat_title c) (chat_username c) (chat_first_name c)
    (chat_last_name c) v.

Definition set_msg_message_id (m : tlg_type_message) (v : Z) : tlg_type_message :=
  mk_msg v (msg_date m) (msg_text m) (msg_from m) (msg_chat m).
Definition set_msg_date (m : tlg_type_message) (v : Z) : tlg_type_message :=
  mk_msg (msg_message_id m) v (msg_text m) (msg_from m) (msg_chat m).
Definition set_msg_text (m : tlg_type_message) (v : obj) : tlg_type_message :=
  mk_msg (msg_message_id m) (msg_date m) v (msg_from m) (msg_chat m).
Definition set_msg_from (m : tlg_type_message) (v : tlg_type_user) : tlg_type_message :=
  mk_msg (msg_message_id m) (msg_date m) (msg_text m) v (msg_chat m).
Definition set_msg_chat (m : tlg_type_message) (v : tlg_type_chat) : tlg_type_message :=
  mk_msg (msg_message_id m) (msg_date m) (msg_text m) (msg_from m) v.

(** [memset(tokens, 0, sizeof(jsmntok_t) * n)] on a token array *)
Definition memset_tokens (tokens : list jsmntok_t) (n : Z) : result (list jsmntok_t) :=
  if decide (0 <= n <= Z.of_nat (length tokens)) then
    Ok (replicate (Z.to_nat n) zero_tok ++ drop (Z.to_nat n) tokens)
  else Fault.

(** [void clear_msg_data(void)], on the record [received_msg] *)
Definition clear_msg_data (m : tlg_type_message) : result tlg_type_message :=
  text ← store (msg_text m) 0 NUL;
  from_id ← store (user_id (msg_from m)) 0 NUL;
  from_first_name ← store (user_first_name (msg_from m)) 0 NUL;
  from_last_name ← store (user_last_name (msg_from m)) 0 NUL;
  from_username ← store (user_username (msg_from m)) 0 NUL;
  from_language_code ← store (user_language_code (msg_from m)) 0 NUL;
  c_id ← store (chat_id (msg_chat m)) 0 NUL;
  c_type ← store (chat_type (msg_chat m)) 0 NUL;
  c_title ← store (chat_title (msg_chat m)) 0 NUL;
  c_username ← store (chat_username (msg_chat m)) 0 NUL;
  c_first_name ← store (chat_first_name (msg_chat m)) 0 NUL;
  c_last_name ← store (chat_last_name (msg_chat m)) 0 NUL;
  Ok (mk_msg 0 0 text
        (mk_user from_id false from_first_name from_last_name from_username
           from_language_code)
        (mk_chat c_id c_type c_title c_username c_first_name c_last_name false)).

Section Bot.
Context `{Platform} `{Tokenizer} `{Scanf} `{Config} {C : Type} `{HttpsClient C}.

(** The members of [uTLGBot] that the modelled methods use (the debug level
    and the certificate pointers are left out). *)
Record uTLGBot := mk_bot {
  _client : C;
  _token : obj;
  _tlg_api : obj;
  _buffer : obj;
  _json_value_str : obj;
  _json_subvalue_str : obj;
  _json_elements : list jsmntok_t;
  _json_subelements : list jsmntok_t;
  _long_poll_timeout : Z;            (* uint8_t *)
  _last_received_msg : Z;            (* uint64_t *)
  _dont_keep_connection : bool;
  received_msg : tlg_type_message
}.

Definition set_client (b : uTLGBot) (v : C) : uTLGBot :=
  mk_bot v (_token b) (_tlg_api b) (_buffer b) (_json_value_str b) (_json_subvalue_str b)
    (_json_elements b) (_json_subelements b) (_long_poll_timeout b) (_last_received_msg b)
    (_dont_keep_connection b) (received_msg b).
Definition set_buffer (b : uTLGBot) (v : obj) : uTLGBot :=
  mk_bot (_client b) (_token b) (_tlg_api b) v (_json_value_str b) (_json_subvalue_str b)
    (_json_elements b) (_json_subelements b) (_long_poll_timeout b) (_last_received_msg b)
    (_dont_keep_connection b) (received_msg b).
Definition set_json_value_str (b : uTLGBot) (v : obj) : uTLGBot :=
  mk_bot (_client b) (_token b) (_tlg_api b) (_buffer b) v (_json_subvalue_str b)
    (_json_elements b) (_json_subelements b) (_long_poll_timeout b) (_last_received_msg b)
    (_dont_keep_connection b) (received_msg b).
Definition set_json_subvalue_str (b : uTLGBot) (v : obj) : uTLGBot :=
  mk_bot (_client b) (_token b) (_tlg_api b) (_buffer b) (_json_value_str b) v
    (_json_elements b) (_json_subelements b) (_long_poll_timeout b) (_last_received_msg b)
    (_dont_keep_connection b) (received_msg b).
Definition set_json_elements (b : uTLGBot) (v : list jsmntok_t) : uTLGBot :=
  mk_bot (_client b) (_token b) (_tlg_api b) (_buffer b) (_json_value_str b)
    (_json_subvalue_str b) v (_json_subelements b) (_long_poll_timeout b)
    (_last_received_msg b) (_dont_keep_connection b) (received_msg b).
Definition set_json_subelements (b : uTLGBot) (v : list jsmntok_t) : uTLGBot :=
  mk_bot (_client b) (_token b) (_tlg_api b) (_buffer b) (_json_value_str b)
    (_json_subvalue_str b) (_json_elements b) v (_long_poll_timeout b)
    (_last_received_msg b) (_dont_keep_connection b) (received_msg b).
Definition set_last_received_msg (b : uTLGBot) (v : Z) : uTLGBot :=
  mk_bot (_client b) (_token b) (_tlg_api b) (_buffer b) (_json_value_str b)
    (_json_subvalue_str b) (_json_elements b) (_json_subelements b) (_long_poll_timeout b)
    v (_dont_keep_connection b) (received_msg b).
Definition set_received_msg (b : uTLGBot) (v : tlg_type_message) : uTLGBot :=
  mk_bot (_client b) (_token b) (_tlg_api b) (_buffer b) (_json_value_str b)
    (_json_subvalue_str b) (_json_elements b) (_json_subelements b) (_long_poll_timeout b)
    (_last_received_msg b) (_dont_keep_connection b) v.

Definition upd_from (b : uTLGBot) (f : tlg_type_user -> tlg_type_user) : uTLGBot :=
  set_received_msg b (set_msg_from (received_msg b) (f (msg_from (received_msg b)))).
Definition upd_chat (b : uTLGBot) (f : tlg_type_chat -> tlg_type_chat) : uTLGBot :=
  set_received_msg b (set_msg_chat (received_msg b) (f (msg_chat (received_msg b)))).

(** [uTLGBot::uTLGBot(const char* token, const bool dont_keep_connection)]:
    [raw] is the storage of the object before the constructor runs. *)
Definition uTLGBot_new (raw : uTLGBot) (token : obj) (dont_keep_connection : bool)
    : result uTLGBot :=
  s ← string_at token 0;
  tok ← snprintf (_token raw) TOKEN_LENGTH s;
  s ← string_at tok 0;
  api ← snprintf (_tlg_api raw) TELEGRAM_API_LENGTH (chars "/bot" ++ s);
  buffer ← memset (_buffer raw) 0 NUL HTTP_MAX_RES_LENGTH;
  value_str ← memset (_json_value_str raw) 0 NUL MAX_JSON_STR_LEN;
  subvalue_str ← memset (_json_subvalue_str raw) 0 NUL MAX_JSON_SUBVAL_STR_LEN;
  elements ← memset_tokens (_json_elements raw) MAX_JSON_ELEMENTS;
  subelements ← memset_tokens (_json_subelements raw) MAX_JSON_SUBELEMENTS;
  (* Clear message data *)
  msg ← clear_msg_data (received_msg raw);
  Ok (mk_bot (_client raw) tok api buffer value_str subvalue_str elements subelements
        DEFAULT_TELEGRAM_LONG_POLL_S UINT64_MAX dont_keep_connection msg).

(** [bool is_connected(void)] *)
Definition is_connected (b : uTLGBot) : bool := client_is_connected (_client b).

(** [void disconnect(void)] *)
Definition disconnect (b : uTLGBot) : uTLGBot :=
  if negb (is_connected b) then b
  else set_client b (client_disconnect (_client b)).

(** [uint8_t connect(void)] *)
Definition connect (b : uTLGBot) : bool * uTLGBot :=
  if is_connected b then (true, b)
  else
    let '(conn_res, c) := client_connect (_client b) TELEGRAM_HOST HTTPS_PORT in
    let b := set_client b c in
    let b := if decide (conn_res = -1) then disconnect b else b in
    if decide (conn_res <> 1) then (false, b) else (true, b).

(** The statement [if(_dont_keep_connection && is_connected()) disconnect();] *)
Definition disconnect_unless_kept (b : uTLGBot) : uTLGBot :=
  if _dont_keep_connection b && is_connected b then disconnect b else b.

(** The URI [snprintf(uri, HTTP_MAX_URI_LENGTH, "%s/%s", _tlg_api, command)]
    as the characters of the local array [uri]. *)
Definition make_uri (tlg_api : obj) (command : list ascii) : result (list ascii) :=
  api ← string_at tlg_api 0;
  Ok (take (Z.to_nat (HTTP_MAX_URI_LENGTH - 1)) (api ++ chars "/" ++ command)).

(** [uint8_t tlg_get(const char* command, char* response, size_t
    response_len, unsigned long response_timeout)] *)
Definition tlg_get (b : uTLGBot) (command : list ascii) (response : obj)
    (response_len : Z) (response_timeout : Z) : result (bool * obj * C) :=
  uri ← make_uri (_tlg_api b) command;
  let '(status, response, c) :=
    client_get (_client b) uri TELEGRAM_HOST response response_len response_timeout in
  if decide (status > 0) then Ok (false, response, c)
  else
    '(rc, response) ← tlg_unwrap response response_len;
    Ok (rc, response, c).

(** [uint8_t tlg_post(const char* command, char* request_response, size_t
    request_len, size_t request_response_max_size, unsigned long
    response_timeout)] *)
Definition tlg_post (b : uTLGBot) (command : list ascii) (request_response : obj)
    (request_len : Z) (request_response_max_size : Z) (response_timeout : Z)
    : result (bool * obj * C) :=
  uri ← make_uri (_tlg_api b) command;
  let '(status, request_response, c) :=
    client_post (_client b) uri TELEGRAM_HOST request_response request_len
      request_response_max_size response_timeout in
  if decide (status > 0) then Ok (false, request_response, c)
  else
    '(rc, request_response) ← tlg_unwrap request_response request_response_max_size;
    Ok (rc, request_response, c).

(** The request body of [getUpdates]: the output of the format
    [{"offset":%PRIu64, "limit":1, "timeout":%PRIu8,
    "allowed_updates":["message"]}] *)
Definition getUpdates_body (b : uTLGBot) : list ascii :=
  chars "{" ++ quoted "offset" ++ chars ":" ++ dec (_last_received_msg b)
  ++ chars ", " ++ quoted "limit" ++ chars ":1, "
  ++ quoted "timeout" ++ chars ":" ++ dec (_long_poll_timeout b)
  ++ chars ", " ++ quoted "allowed_updates" ++ chars ":[" ++ quoted "message" ++ chars "]}".

(** [getUpdates], lines 371-441: connect, send the request, unwrap the
    response and strip it down to the update object.  [inl] is a [return 0];
    [inr] continues with the pointer [ptr_response] into [_buffer]. *)
Definition getUpdates_receive (b : uTLGBot) : result (uTLGBot + uTLGBot * Z) :=
  (* Connect to telegram server *)
  let '(connected, b) := if is_connected b then (true, b) else connect b in
  if negb connected then Ok (inl b)
  else
  (* Create HTTP Body request data *)
  buffer ← snprintf (_buffer b) HTTP_MAX_RES_LENGTH (getUpdates_body b);
  (* Send the request *)
  len ← strlen buffer 0;
  '(request_result, buffer, c) ←
    tlg_post b API_CMD_GET_UPDATES buffer len HTTP_MAX_RES_LENGTH
      (_long_poll_timeout b * 1000 + HTTP_WAIT_RESPONSE_TIMEOUT);
  let b := set_client (set_buffer b buffer) c in
  (* Check if request has fail *)
  if negb request_result then Ok (inl (if is_connected b then disconnect b else b))
  else
  (* Use a pointer to received buffer data *)
  let ptr_response := 0 in
  (* Remove any EOL character *)
  len ← strlen buffer ptr_response;
  buffer ← cstr_rm_char buffer ptr_response len CR;
  len ← strlen buffer ptr_response;
  buffer ← cstr_rm_char buffer ptr_response len LF;
  (* Remove start and end list characters *)
  len ← strlen buffer ptr_response;
  '(buffer, ptr_response) ←
    (if decide (len >= 2) then
       len ← strlen buffer ptr_response;
       last ← load buffer (ptr_response + size_t (len - 1));
       buffer ← (if decide (last = "]"%char) then
                   len ← strlen buffer ptr_response;
                   store buffer (ptr_response + size_t (len - 1)) NUL
                 else Ok buffer);
       first ← load buffer (ptr_response + 0);
       buffer ← (if decide (first = "["%char) then store buffer (ptr_response + 0) NUL
                 else Ok buffer);
       Ok (buffer, ptr_response + 1)
     else Ok (buffer, ptr_response));
  let b := set_buffer b buffer in
  (* Check if response is empty (there is no message) *)
  first ← load buffer (ptr_response + 0);
  if decide (first = NUL) then Ok (inl (disconnect_unless_kept b))
  else Ok (inr (b, ptr_response)).

(** [getUpdates], lines 443-459: clear the record and the token arrays and
    tokenize the payload; the result is [num_elements]. *)
Definition getUpdates_tokenize (b : uTLGBot) (ptr_response : Z) : result (Z * uTLGBot) :=
  (* A new message received, so lets clear all message data *)
  msg ← clear_msg_data (received_msg b);
  let b := set_received_msg b msg in
  (* Clear json elements objects *)
  elements ← memset_tokens (_json_elements b) MAX_JSON_ELEMENTS;
  subelements ← memset_tokens (_json_subelements b) MAX_JSON_SUBELEMENTS;
  let b := set_json_subelements (set_json_elements b elements) subelements in
  (* Parse message string as JSON and get each element *)
  len ← strlen (_buffer b) ptr_response;
  '(num_elements, elements) ←
    json_parse_str (_buffer b) ptr_response len (_json_elements b) MAX_JSON_ELEMENTS;
  Ok (num_elements, set_json_elements b elements).

(** The statements repeated for every top-level key:
    [key_position = json_has_key(ptr_response, _json_elements, num_elements, key);
     if(key_position != 0) { json_get_element_string(ptr_response,
       &_json_elements[key_position+1], _json_value_str, MAX_JSON_STR_LEN); ... }];
    the boolean is [key_position != 0]. *)
Definition get_value (b : uTLGBot) (ptr_response num_elements : Z) (key : list ascii)
    : result (bool * uTLGBot) :=
  key_position ← json_has_key (_buffer b) ptr_response (_json_elements b) num_elements
                   (cstr key);
  if decide (key_position <> 0) then
    t ← of_option (_json_elements b !! Z.to_nat (uint32 (key_position + 1)));
    v ← json_get_element_string (_buffer b) ptr_response t (_json_value_str b)
          MAX_JSON_STR_LEN;
    Ok (true, set_json_value_str b v)
  else Ok (false, b).

(** The statements repeated for every key of a nested object:
    [key_position = json_has_key(_json_value_str, _json_subelements,
       num_subelements, key);
     if(key_position != 0) { json_get_element_string(_json_value_str,
       &_json_subelements[key_position+1], _json_subvalue_str,
       MAX_JSON_SUBVAL_STR_LEN); ... }] *)
Definition get_subvalue (b : uTLGBot) (num_subelements : Z) (key : list ascii)
    : result (bool * uTLGBot) :=
  key_position ← json_has_key (_json_value_str b) 0 (_json_subelements b) num_subelements
                   (cstr key);
  if decide (key_position <> 0) then
    t ← of_option (_json_subelements b !! Z.to_nat (uint32 (key_position + 1)));
    v ← json_get_element_string (_json_value_str b) 0 t (_json_subvalue_str b)
          MAX_JSON_SUBVAL_STR_LEN;
    Ok (true, set_json_subvalue_str b v)
  else Ok (false, b).

(** A string sub-key saved with [strncpy(field, _json_subvalue_str, cap)]. *)
Definition copy_subvalue (b : uTLGBot) (num_subelements : Z) (key : list ascii)
    (field : uTLGBot -> obj) (cap : Z) (save : uTLGBot -> obj -> uTLGBot) : result uTLGBot :=
  '(found, b) ← get_subvalue b num_subelements key;
  if (found : bool) then
    v ← strncpy (field b) (_json_subvalue_str b) cap;
    Ok (save b v)
  else Ok b.

(** A boolean sub-key saved with [strcmp(_json_subvalue_str, "true") == 0]. *)
Definition flag_subvalue (b : uTLGBot) (num_subelements : Z) (key : list ascii)
    (save : uTLGBot -> bool -> uTLGBot) : result uTLGBot :=
  '(found, b) ← get_subvalue b num_subelements key;
  if (found : bool) then
    cmp ← strcmp (_json_subvalue_str b) 0 (cstr lit_true) 0;
    Ok (save b (bool_decide (cmp = 0)))
  else Ok b.

(** [getUpdates], lines 474-487: the key [update_id].  [sscanf] reads the C
    string in [_json_value_str], so an array left without terminator (a value
    of [MAX_JSON_STR_LEN] or more bytes) is read past its end. *)
Definition getUpdates_update_id (b : uTLGBot) (ptr_response num_elements : Z)
    : result uTLGBot :=
  (* Check and get value of key: update_id *)
  '(found, b) ← get_value b ptr_response num_elements (chars "update_id");
  if (found : bool) then
    value ← string_at (_json_value_str b) 0;
    let scanned := match sscanf_u64 value with
                   | Some v => uint64 v
                   | None => _last_received_msg b
                   end in
    (* Prepare variable to next update message request (offset) *)
    Ok (set_last_received_msg b (uint64 (scanned + 1)))
  else Ok b.

(** [getUpdates], lines 489-500: the key [message_id]. *)
Definition getUpdates_message_id (b : uTLGBot) (ptr_response num_elements : Z)
    : result uTLGBot :=
  '(found, b) ← get_value b ptr_response num_elements (chars "message_id");
  if (found : bool) then
    value ← string_at (_json_value_str b) 0;
    match sscanf_d64 value with
    | Some v => Ok (set_received_msg b (set_msg_message_id (received_msg b) (to_signed 64 v)))
    | None => Ok b
    end
  else Ok b.

(** [getUpdates], lines 502-512: the key [date]. *)
Definition getUpdates_date (b : uTLGBot) (ptr_response num_elements : Z) : result uTLGBot :=
  '(found, b) ← get_value b ptr_response num_elements (chars "date");
  if (found : bool) then
    value ← string_at (_json_value_str b) 0;
    match sscanf_u32 value with
    | Some v => Ok (set_received_msg b (set_msg_date (received_msg b) (uint32 v)))
    | None => Ok b
    end
  else Ok b.

(** [getUpdates], lines 514-524: the key [text]. *)
Definition getUpdates_text (b : uTLGBot) (ptr_response num_elements : Z) : result uTLGBot :=
  '(found, b) ← get_value b ptr_response num_elements (chars "text");
  if (found : bool) then
    text ← snprintf_s (msg_text (received_msg b)) MAX_TEXT_LENGTH (_json_value_str b);
    Ok (set_received_msg b (set_msg_text (received_msg b) text))
  else Ok b.

(** [getUpdates], lines 474-524: the top-level keys, in the order of the
    source. *)
Definition getUpdates_scalars (b : uTLGBot) (ptr_response num_elements : Z) : result uTLGBot :=
  b ← getUpdates_update_id b ptr_response num_elements;
  b ← getUpdates_message_id b ptr_response num_elements;
  b ← getUpdates_date b ptr_response num_elements;
  getUpdates_text b ptr_response num_elements.

(** [getUpdates], lines 526-628: the nested object [from]. *)
Definition getUpdates_from (b : uTLGBot) (ptr_response num_elements : Z) : result uTLGBot :=
  '(found, b) ← get_value b ptr_response num_elements (chars "from");
  if (found : bool) then
    len ← strlen (_json_value_str b) 0;
    '(num_subelements, subelements) ←
      json_parse_str (_json_value_str b) 0 len (_json_subelements b) MAX_JSON_SUBELEMENTS;
    let b := set_json_subelements b subelements in
    if decide (num_subelements = 0) then Ok b
    else
      b ← copy_subvalue b num_subelements (chars "id")
            (fun b => user_id (msg_from (received_msg b))) MAX_ID_LENGTH
            (fun b v => upd_from b (fun u => set_user_id u v));
      b ← flag_subvalue b num_subelements (chars "is_bot")
            (fun b v => upd_from b (fun u => set_user_is_bot u v));
      b ← copy_subvalue b num_subelements (chars "first_name")
            (fun b => user_first_name (msg_from (received_msg b))) MAX_USER_LENGTH
            (fun b v => upd_from b (fun u => set_user_first_name u v));
      b ← copy_subvalue b num_subelements (chars "last_name")
            (fun b => user_last_name (msg_from (received_msg b))) MAX_USER_LENGTH
            (fun b v => upd_from b (fun u => set_user_last_name u v));
      b ← copy_subvalue b num_subelements (chars "username")
            (fun b => user_username (msg_from (received_msg b))) MAX_USERNAME_LENGTH
            (fun b v => upd_from b (fun u => set_user_username u v));
      copy_subvalue b num_subelements (chars "language_code")
        (fun b => user_language_code (msg_from (received_msg b))) MAX_LANGUAGE_CODE_LENGTH
        (fun b v => upd_from b (fun u => set_user_language_code u v))
  else Ok b.

(** [getUpdates], lines 630-739: the nested object [chat] (the source passes
    [MAX_JSON_ELEMENTS] as the capacity of [_json_subelements] here). *)
Definition getUpdates_chat (b : uTLGBot) (ptr_response num_elements : Z) : result uTLGBot :=
  '(found, b) ← get_value b ptr_response num_elements (chars "chat");
  if (found : bool) then
    len ← strlen (_json_value_str b) 0;
    '(num_subelements, subelements) ←
      json_parse_str (_json_value_str b) 0 len (_json_subelements b) MAX_JSON_ELEMENTS;
    let b := set_json_subelements b subelements in
    if decide (num_subelements = 0) then Ok b
    else
      b ← copy_subvalue b num_subelements (chars "id")
            (fun b => chat_id (msg_chat (received_msg b))) MAX_ID_LENGTH
            (fun b v => upd_chat b (fun c => set_chat_id c v));
      b ← copy_subvalue b num_subelements (chars "type")
            (fun b => chat_type (msg_chat (received_msg b))) MAX_CHAT_TYPE_LENGTH
            (fun b v => upd_chat b (fun c => set_chat_type c v));
      b ← copy_subvalue b num_subelements (chars "title")
            (fun b => chat_title (msg_chat (received_msg b))) MAX_CHAT_TITLE_LENGTH
            (fun b v => upd_chat b (fun c => set_chat_title c v));
      b ← copy_subvalue b num_subelements (chars "username")
            (fun b => chat_username (msg_chat (received_msg b))) MAX_USERNAME_LENGTH
            (fun b v => upd_chat b (fun c => set_chat_username c v));
      b ← copy_subvalue b num_subelements (chars "first_name")
            (fun b => chat_first_name (msg_chat (received_msg b))) MAX_USER_LENGTH
            (fun b v => upd_chat b (fun c => set_chat_first_name c v));
      b ← copy_subvalue b num_subelements (chars "last_name")
            (fun b => chat_last_name (msg_chat (received_msg b))) MAX_USER_LENGTH
            (fun b v => upd_chat b (fun c => set_chat_last_name c v));
      flag_subvalue b num_subelements (chars "all_members_are_administrators")
        (fun b v => upd_chat b (fun c => set_chat_all_members_are_administrators c v))
  else Ok b.

(** [getUpdates], lines 443-745: tokenize the payload and fill the record. *)
Definition getUpdates_parse (b : uTLGBot) (ptr_response : Z) : result (Z * uTLGBot) :=
  '(num_elements, b) ← getUpdates_tokenize b ptr_response;
  if decide (num_elements = 0) then
    (* Ignore this message that can't be readed and increase counter to ask
       for the next one *)
    let b := set_last_received_msg b (uint64 (_last_received_msg b + 1)) in
    Ok (0, disconnect_unless_kept b)
  else
    b ← getUpdates_scalars b ptr_response num_elements;
    b ← getUpdates_from b ptr_response num_elements;
    b ← getUpdates_chat b ptr_response num_elements;
    Ok (1, disconnect_unless_kept b).

(** [uint8_t getUpdates(void)] *)
Definition getUpdates (b : uTLGBot) : result (Z * uTLGBot) :=
  r ← getUpdates_receive b;
  match r with
  | inl b => Ok (0, b)
  | inr (b, ptr_response) => getUpdates_parse b ptr_response
  end.

End Bot.

(** ** The other public methods: token, timeout, [getMe], [sendMessage] *)

(** Modelled from the spec: three more constants of [utlgbotlib.h], which is
    not part of the sources: the capacities of the local array [tmp] of
    [sendMessage] and of the array [json_keyboard], and the default value
    that the header declares for the argument [response_timeout] of [tlg_get]
    and [tlg_post] (the calls in [getMe] and [sendMessage] leave it out). *)
Class SendConfig := {
  MAX_TMP_BUFFER_LENGTH : Z;
  MAX_KEYBOARD_MARKUP_LENGTH : Z;
  DEFAULT_RESPONSE_TIMEOUT : Z
}.

Section Requests.
Context `{Platform} `{Tokenizer} `{Scanf} `{Config} `{SendConfig} {C : Type} `{HttpsClient C}.
Implicit Types b : @uTLGBot C.

(** [void set_token(const char* token)] *)
Definition set_token b (token : obj) : result (@uTLGBot C) :=
  s ← string_at token 0;
  tok ← snprintf (_token b) TOKEN_LENGTH s;
  s ← string_at tok 0;
  api ← snprintf (_tlg_api b) TELEGRAM_API_LENGTH (chars "/bot" ++ s);
  Ok (mk_bot (_client b) tok api (_buffer b) (_json_value_str b) (_json_subvalue_str b)
        (_json_elements b) (_json_subelements b) (_long_poll_timeout b)
        (_last_received_msg b) (_dont_keep_connection b) (received_msg b)).

(** [void set_polling_timeout(const uint8_t seconds)]: the argument is
    converted to [uint8_t] by the call. *)
Definition set_polling_timeout b (seconds : Z) : @uTLGBot C :=
  mk_bot (_client b) (_token b) (_tlg_api b) (_buffer b) (_json_value_str b)
    (_json_subvalue_str b) (_json_elements b) (_json_subelements b) (wrap 8 seconds)
    (_last_received_msg b) (_dont_keep_connection b) (received_msg b).

(** [char* get_token(void)]: the array [_token] itself. *)
Definition get_token b : obj := _token b.

(** [uint8_t get_polling_timeout(void)] *)
Definition get_polling_timeout b : Z := _long_poll_timeout b.

(** [uint8_t getMe(void)] *)
Definition getMe b : result (bool * @uTLGBot C) :=
  (* Connect to telegram server *)
  let '(connected, b) := if is_connected b then (true, b) else connect b in
  if negb connected then Ok (false, b)
  else
  (* Send the request *)
  '(request_result, buffer, c) ←
    tlg_get b API_CMD_GET_ME (_buffer b) HTTP_MAX_RES_LENGTH DEFAULT_RESPONSE_TIMEOUT;
  let b := set_client (set_buffer b buffer) c in
  (* Check if request has fail *)
  if negb request_result then Ok (false, if is_connected b then disconnect b else b)
  else Ok (true, disconnect_unless_kept b).

(** [void cant_create_send_msg(const char* msg)] *)
Definition cant_create_send_msg b : @uTLGBot C :=
  if is_connected b then disconnect b else b.

(** The body of [sendMessage] is built in steps that may each end the call
    with [return false]: [inl] is that return, [inr] carries on with the bot
    and the local array [tmp]. *)
Definition and_then (r : result (@uTLGBot C + @uTLGBot C * obj))
    (k : @uTLGBot C -> obj -> result (@uTLGBot C + @uTLGBot C * obj))
    : result (@uTLGBot C + @uTLGBot C * obj) :=
  x ← r;
  match x with
  | inl b => Ok (inl b)
  | inr (b, tmp) => k b tmp
  end.

(** The statements repeated for an optional field given as a literal:
    [_buffer[strlen(_buffer)-1] = 0;
     if(!cstr_strncat(_buffer, HTTP_MAX_RES_LENGTH, lit, strlen(lit)))
     { cant_create_send_msg(_buffer); return false; }] *)
Definition append_literal b (tmp : obj) (lit : list ascii)
    : result (@uTLGBot C + @uTLGBot C * obj) :=
  len ← strlen (_buffer b) 0;
  buffer ← store (_buffer b) (size_t (len - 1)) NUL;
  src_len ← strlen (cstr lit) 0;
  '(rc, buffer) ← cstr_strncat buffer HTTP_MAX_RES_LENGTH (cstr lit) src_len;
  let b := set_buffer b buffer in
  if negb rc then Ok (inl (cant_create_send_msg b)) else Ok (inr (b, tmp)).

(** The statements repeated for an optional field formatted into [tmp]:
    [_buffer[strlen(_buffer)-1] = 0;
     snprintf(tmp, MAX_TMP_BUFFER_LENGTH, format, value);
     if(!cstr_strncat(_buffer, HTTP_MAX_RES_LENGTH, tmp, strlen(tmp)))
     { cant_create_send_msg(_buffer); return false; }],
    with [out] the output of the format. *)
Definition append_formatted b (tmp : obj) (out : list ascii)
    : result (@uTLGBot C + @uTLGBot C * obj) :=
  len ← strlen (_buffer b) 0;
  buffer ← store (_buffer b) (size_t (len - 1)) NUL;
  tmp ← snprintf tmp MAX_TMP_BUFFER_LENGTH out;
  src_len ← strlen tmp 0;
  '(rc, buffer) ← cstr_strncat buffer HTTP_MAX_RES_LENGTH tmp src_len;
  let b := set_buffer b buffer in
  if negb rc then Ok (inl (cant_create_send_msg b)) else Ok (inr (b, tmp)).

(** [sendMessage], lines 270-335: the request body is built in [_buffer].
    [tmp] is the storage of the local array [char tmp[MAX_TMP_BUFFER_LENGTH]];
    the string arguments are objects of their own. *)
Definition sendMessage_build b (tmp : obj) (chat_id text parse_mode : obj)
    (disable_web_page_preview disable_notification : bool) (reply_to_message_id : Z)
    (reply_markup : obj) : result (@uTLGBot C + @uTLGBot C * obj) :=
  (* Create HTTP Body request data *)
  cid ← string_at chat_id 0;
  txt ← string_at text 0;
  buffer ← snprintf (_buffer b) HTTP_MAX_RES_LENGTH
             (chars "{" ++ quoted "chat_id" ++ chars ":" ++ cid ++ chars ", "
              ++ quoted "text" ++ chars ":" ++ [DQ] ++ txt ++ [DQ] ++ chars "}");
  let b := set_buffer b buffer in
  (* If parse_mode is not empty *)
  and_then
    (first ← load parse_mode 0;
     if decide (first <> NUL) then
       (* If parse mode has an expected value *)
       markdown ← strcmp parse_mode 0 (cstr (chars "Markdown")) 0;
       expected ← (if decide (markdown = 0) then Ok true
                   else html ← strcmp parse_mode 0 (cstr (chars "HTML")) 0;
                        Ok (bool_decide (html = 0)));
       if (expected : bool) then
         (* Remove last brace and append the new field *)
         mode ← string_at parse_mode 0;
         append_formatted b tmp
           (chars "," ++ quoted "parse_mode" ++ chars ":" ++ mode ++ [DQ] ++ chars "}")
       else Ok (inr (b, tmp))
     else Ok (inr (b, tmp)))
  (fun b tmp =>
  (* Remove last brace and append disable_web_page_preview value if true *)
  and_then
    (if disable_web_page_preview then
       append_literal b tmp (chars "," ++ quoted "disable_web_page_preview" ++ chars ":true}")
     else Ok (inr (b, tmp)))
  (fun b tmp =>
  (* Remove last brace and append disable_notification value if true *)
  and_then
    (if disable_notification then
       append_literal b tmp (chars "," ++ quoted "disable_notification" ++ chars ":true}")
     else Ok (inr (b, tmp)))
  (fun b tmp =>
  (* Remove last brace and append reply_to_message_id value if set *)
  and_then
    (if decide (uint64 reply_to_message_id <> 0) then
       append_formatted b tmp
         (chars "," ++ quoted "reply_to_message_id" ++ chars ":"
          ++ dec (uint64 reply_to_message_id) ++ chars "}")
     else Ok (inr (b, tmp)))
  (fun b tmp =>
  (* Remove last brace and append reply_markup if it is not empty *)
  first ← load reply_markup 0;
  if decide (first <> NUL) then
    markup ← string_at reply_markup 0;
    append_formatted b tmp
      (chars "," ++ quoted "reply_markup" ++ chars ":" ++ markup ++ chars "}")
  else Ok (inr (b, tmp)))))).

(** [sendMessage], lines 337-365: the body in [_buffer] is sent and the
    result of the request is checked. *)
Definition sendMessage_send b : result (bool * @uTLGBot C) :=
  (* Send the request *)
  len ← strlen (_buffer b) 0;
  '(request_result, buffer, c) ←
    tlg_post b API_CMD_SEND_MSG (_buffer b) len HTTP_MAX_RES_LENGTH DEFAULT_RESPONSE_TIMEOUT;
  let b := set_client (set_buffer b buffer) c in
  (* Check if request has fail *)
  if negb request_result then Ok (false, if is_connected b then disconnect b else b)
  else Ok (true, disconnect_unless_kept b).

(** [uint8_t sendMessage(const char* chat_id, const char* text, const char*
    parse_mode, bool disable_web_page_preview, bool disable_notification,
    uint64_t reply_to_message_id, const char* reply_markup)] *)
Definition sendMessage b (tmp : obj) (chat_id text parse_mode : obj)
    (disable_web_page_preview disable_notification : bool) (reply_to_message_id : Z)
    (reply_markup : obj) : result (bool * @uTLGBot C) :=
  (* Connect to telegram server *)
  let '(connected, b) := if is_connected b then (true, b) else connect b in
  if negb connected then Ok (false, b)
  else
  built ← sendMessage_build b tmp chat_id text parse_mode disable_web_page_preview
            disable_notification reply_to_message_id reply_markup;
  match built with
  | inl b => Ok (false, b)
  | inr (b, _) => sendMessage_send b
  end.


End Requests.

(** ** Vocabulary of the statements *)

(** [overwrite o p bytes]: the object [o] with [bytes] written from index [p]. *)
Definition overwrite (o : obj) (p : nat) (bytes : list ascii) : obj :=
  take p o ++ bytes ++ drop (p + length bytes) o.

(** The object holds a terminator at an index below [cap]. *)
Definition terminated_within (o : obj) (cap : Z) : Prop :=
  exists k : nat, Z.of_nat k < cap /\ o !! k = Some NUL.

(** The source bytes [text[start..end)] of a token, for the text at [js + ofs]. *)
Definition token_bytes (js : obj) (ofs : Z) (t : jsmntok_t) : list ascii :=
  take (Z.to_nat (tok_end t - tok_start t)) (drop (Z.to_nat (ofs + tok_start t)) js).

(** The byte range of a token lies inside the text object. *)
Definition token_in_text (js : obj) (ofs : Z) (t : jsmntok_t) : Prop :=
  0 <= ofs /\ 0 <= tok_start t <= tok_end t
  /\ ofs + tok_end t <= Z.of_nat (length js) /\ tok_end t < 2 ^ 31.

(** Token [i] is a string-typed token whose byte length equals the length of
    the key [k] and whose bytes are those of [k]. *)
Definition key_match (js : obj) (ofs : Z) (tokens : list jsmntok_t) (k : list ascii)
    (i : nat) : Prop :=
  exists t, tokens !! i = Some t /\ tok_type t = JSMN_STRING
            /\ tok_end t - tok_start t = Z.of_nat (length k)
            /\ token_bytes js ofs t = k.

(** The first [num_tokens] entries of the token array are tokens of the text. *)
Definition tokens_in_text (js : obj) (ofs : Z) (tokens : list jsmntok_t) (num_tokens : Z)
    : Prop :=
  0 <= num_tokens < 2 ^ 32 /\ num_tokens <= Z.of_nat (length tokens)
  /\ forall (i : nat) t, Z.of_nat i < num_tokens -> tokens !! i = Some t ->
       token_in_text js ofs t.

(** [find_after needle s]: the offset just after the first occurrence of
    [needle] in [s], if there is one (the toolkit's substring search, on
    lists). *)
Fixpoint find_after (needle s : list ascii) : option nat :=
  if bool_decide (take (length needle) s = needle) then Some (length needle)
  else match s with
       | [] => None
       | _ :: s' => S <$> find_after needle s'
       end.

(** The outcome of the unwrapping steps on the text of a response: the
    payload, or a failure met while the local pointer of [tlg_get] /
    [tlg_post] is at offset [p] of the buffer. *)
Inductive unwrap_outcome :=
| Payload (payload : list ascii)
| Rejected (p : nat).

(** The unwrapping steps on lists: the header ends after the first
    [\r\n\r\n]; the ["ok":] marker is the first one after the header and must
    be followed by [true]; the payload starts after the first ["result":]
    marker after that. *)
Definition unwrap_spec (text : list ascii) : unwrap_outcome :=
  match find_after lit_crlfcrlf text with
  | None => Rejected 0
  | Some p1 =>
    match find_after lit_ok (drop p1 text) with
    | None => Rejected p1
    | Some q2 =>
      let p2 := (p1 + q2)%nat in
      if bool_decide (take 4 (drop p2 text) = lit_true) then
        match find_after lit_result (drop p2 text) with
        | None => Rejected p2
        | Some q3 => Payload (drop (p2 + q3) text)
        end
      else Rejected p2
    end
  end.

(** [unwraps_to response response_len payload]: the unwrapping succeeds and
    leaves [payload] at offset 0 of the same buffer, terminated. *)
Definition unwraps_to `{Platform} (response : obj) (response_len : Z)
    (payload : list ascii) : Prop :=
  exists buffer,
    tlg_unwrap response response_len = Ok (true, buffer)
    /\ length buffer = length response
    /\ take (length payload + 1) buffer = payload ++ [NUL].

(** ** Sample inputs *)

(** The text [{"k":"wxyz"}] and the token of its value [wxyz]. *)
Definition sample_kv : obj :=
  cstr (chars "{" ++ quoted "k" ++ chars ":" ++ quoted "wxyz" ++ chars "}").
Definition sample_kv_value : jsmntok_t := mk_tok JSMN_STRING 6 10.

(** The text [{"a":1,"b":2,"a":3}], with the key [a] twice, and its tokens. *)
Definition sample_dup : obj :=
  cstr (chars "{" ++ quoted "a" ++ chars ":1," ++ quoted "b" ++ chars ":2,"
        ++ quoted "a" ++ chars ":3}").
Definition sample_dup_tokens : list jsmntok_t :=
  [ mk_tok JSMN_OBJECT 0 19;
    mk_tok JSMN_STRING 2 3; mk_tok JSMN_PRIMITIVE 5 6;
    mk_tok JSMN_STRING 8 9; mk_tok JSMN_PRIMITIVE 11 12;
    mk_tok JSMN_STRING 14 15; mk_tok JSMN_PRIMITIVE 17 18 ].

(** A stand-in for the external tokenizer on sample inputs: it knows the
    tokens of the texts listed in [table], reports [JSMN_ERROR_NOMEM] when
    they do not fit the capacity, and [JSMN_ERROR_INVAL] for any other text. *)
Definition table_tokenizer (table : list (list ascii * list jsmntok_t)) : Tokenizer :=
  {| jsmn_parse js ofs len tokens cap :=
       let text := take (Z.to_nat len) (drop (Z.to_nat ofs) js) in
       match list_find (fun entry => fst entry = text) table with
       | Some (_, (_, toks)) =>
         if decide (Z.of_nat (length toks) <= cap /\ (length toks <= length tokens)%nat)
         then Ok (Z.of_nat (length toks), toks ++ drop (length toks) tokens)
         else Ok (JSMN_ERROR_NOMEM, tokens)
       | None => Ok (JSMN_ERROR_INVAL, tokens)
       end |}.

(** The text [[1]], whose top-level token is an array. *)
Definition sample_array : obj := cstr (chars "[1]").
Definition sample_array_tokens : list jsmntok_t :=
  [ mk_tok JSMN_ARRAY 0 3; mk_tok JSMN_PRIMITIVE 1 2 ].

(** The tokenizer stand-in for the two samples above. *)
Definition sample_tokenizer : Tokenizer :=
  table_tokenizer [ (chars "{" ++ quoted "a" ++ chars ":1," ++ quoted "b" ++ chars ":2,"
                       ++ quoted "a" ++ chars ":3}", sample_dup_tokens);
                    (chars "[1]", sample_array_tokens) ].

(** The response of the specification's example: the status line, header
    lines [hdr], the separator and the envelope
    [{"ok":true,"result":{"id":1,"first_name":"B"}}]; and its payload
    [{"id":1,"first_name":"B"}]. *)
Definition status_line : list ascii := chars "HTTP/1.1 200 OK" ++ [CR; LF].
Definition envelope_body : list ascii :=
  chars "{" ++ quoted "ok" ++ chars ":true," ++ quoted "result" ++ chars ":{"
  ++ quoted "id" ++ chars ":1," ++ quoted "first_name" ++ chars ":" ++ quoted "B"
  ++ chars "}}".
Definition envelope_payload : list ascii :=
  chars "{" ++ quoted "id" ++ chars ":1," ++ quoted "first_name" ++ chars ":" ++ quoted "B"
  ++ chars "}".
Definition envelope_response (hdr : list ascii) : list ascii :=
  status_line ++ hdr ++ lit_crlfcrlf ++ envelope_body.

(** A response with a rejected request:
    [HTTP/1.1 200 OK\r\n\r\n{"ok":false,"description":"Unauthorized"}]. *)
Definition rejected_response : list ascii :=
  status_line ++ [CR; LF] ++ chars "{" ++ quoted "ok" ++ chars ":false,"
  ++ quoted "description" ++ chars ":" ++ quoted "Unauthorized" ++ chars "}".

(** ** A sample world for the bot

    Stand-ins for the collaborators and constants that are not part of the
    sources, used to run the bot on sample inputs. *)

(** Small capacities, so that sample values overflow them. *)
Definition sample_config : Config :=
  {| HTTP_MAX_RES_LENGTH := 256;
     HTTP_MAX_URI_LENGTH := 64;
     HTTP_WAIT_RESPONSE_TIMEOUT := 3000;
     MAX_JSON_STR_LEN := 128;
     MAX_JSON_SUBVAL_STR_LEN := 64;
     MAX_JSON_ELEMENTS := 32;
     MAX_JSON_SUBELEMENTS := 16;
     MAX_TEXT_LENGTH := 16;
     MAX_ID_LENGTH := 8;
     MAX_USER_LENGTH := 8;
     MAX_USERNAME_LENGTH := 8;
     MAX_LANGUAGE_CODE_LENGTH := 4;
     MAX_CHAT_TYPE_LENGTH := 8;
     MAX_CHAT_TITLE_LENGTH := 8;
     TOKEN_LENGTH := 16;
     TELEGRAM_API_LENGTH := 24;
     DEFAULT_TELEGRAM_LONG_POLL_S := 10;
     TELEGRAM_HOST := chars "api.telegram.org";
     HTTPS_PORT := 443;
     API_CMD_GET_ME := chars "getMe";
     API_CMD_SEND_MSG := chars "sendMessage";
     API_CMD_GET_UPDATES := chars "getUpdates" |}.

(** A transport that connects at once, answers each request with the next
    response of its inbox (status 1 when the inbox is empty) and records the
    request bodies it was given. *)
Record sample_client := mk_client {
  connected : bool;
  inbox : list (list ascii);
  sent : list (list ascii)
}.

Definition sample_exchange (c : sample_client) (buffer : obj) (request_len : Z)
    : Z * obj * sample_client :=
  match inbox c with
  | [] => (1, buffer, c)
  | response :: rest =>
    (0, take (length buffer) (response ++ replicate (length buffer) NUL),
     mk_client (connected c) rest (sent c ++ [take (Z.to_nat request_len) buffer]))
  end.

Global Instance sample_https : HttpsClient sample_client :=
  {| client_is_connected c := connected c;
     client_connect c host port := (1, mk_client true (inbox c) (sent c));
     client_disconnect c := mk_client false (inbox c) (sent c);
     client_get c uri host response response_len timeout := sample_exchange c response 0;
     client_post c uri host buffer request_len max_size timeout :=
       sample_exchange c buffer request_len |}.

(** [sscanf] stand-in.  The decimal digits at the start of a list: *)
Fixpoint scan_digits (l : list ascii) (acc : Z) (seen : bool) : option Z :=
  match l with
  | c :: l' =>
    match Ascii.is_nat c with
    | Some d => scan_digits l' (10 * acc + Z.of_nat d) true
    | None => if seen then Some acc else None
    end
  | [] => if seen then Some acc else None
  end.

(** The white space that a conversion skips, and the optional sign. *)
Definition is_space (c : ascii) : bool :=
  bool_decide (c ∈ [" "%char; "009"%char; LF; "011"%char; "012"%char; CR]).
Fixpoint skip_spaces (l : list ascii) : list ascii :=
  match l with
  | c :: l' => if is_space c then skip_spaces l' else l
  | [] => []
  end.
Definition scan_number (l : list ascii) : option (bool * Z) :=
  match skip_spaces l with
  | "-"%char :: l' => v ← scan_digits l' 0 false; Some (true, v)
  | "+"%char :: l' => v ← scan_digits l' 0 false; Some (false, v)
  | l' => v ← scan_digits l' 0 false; Some (false, v)
  end.

(** An unsigned conversion read with [w] bits, as [strtoul] and [strtoull]
    do it: a value that does not fit gives the largest one, and a minus sign
    negates modulo [2 ^ w]. *)
Definition scan_unsigned (w : Z) (l : list ascii) : option Z :=
  '(negative, v) ← scan_number l;
  Some (if decide (v < 2 ^ w) then (if negative : bool then wrap w (- v) else v)
        else 2 ^ w - 1).

(** A signed conversion read with [w] bits, as [strtoll] does it: a value
    that does not fit gives the nearest bound. *)
Definition scan_signed (w : Z) (l : list ascii) : option Z :=
  '(negative, v) ← scan_number l;
  Some (if negative : bool then Z.max (- v) (- 2 ^ (w - 1)) else Z.min v (2 ^ (w - 1) - 1)).

(** [SCNu64] and [SCNd64] are read with 64 bits; [SCNu32] is [%u], read as an
    [unsigned long] (32 bits on the platform of the sample world) and stored
    in 32 bits by the caller. *)
Definition sample_scanf : Scanf :=
  {| sscanf_u64 := scan_unsigned 64;
     sscanf_d64 := scan_signed 64;
     sscanf_u32 := scan_unsigned (@size_bits esp32) |}.

(** The update of the specification's example and its two nested objects. *)
Definition update_text : list ascii :=
  chars "{" ++ quoted "update_id" ++ chars ":5," ++ quoted "message" ++ chars ":{"
  ++ quoted "message_id" ++ chars ":9," ++ quoted "date" ++ chars ":100,"
  ++ quoted "text" ++ chars ":" ++ quoted "hi" ++ chars ","
  ++ quoted "from" ++ chars ":{" ++ quoted "id" ++ chars ":" ++ quoted "7" ++ chars ","
  ++ quoted "is_bot" ++ chars ":false},"
  ++ quoted "chat" ++ chars ":{" ++ quoted "id" ++ chars ":" ++ quoted "7" ++ chars ","
  ++ quoted "type" ++ chars ":" ++ quoted "private" ++ chars "}}}".
Definition update_tokens : list jsmntok_t :=
  [ mk_tok JSMN_OBJECT 0 133;
    mk_tok JSMN_STRING 2 11; mk_tok JSMN_PRIMITIVE 13 14;
    mk_tok JSMN_STRING 16 23; mk_tok JSMN_OBJECT 25 132;
    mk_tok JSMN_STRING 27 37; mk_tok JSMN_PRIMITIVE 39 40;
    mk_tok JSMN_STRING 42 46; mk_tok JSMN_PRIMITIVE 48 51;
    mk_tok JSMN_STRING 53 57; mk_tok JSMN_STRING 60 62;
    mk_tok JSMN_STRING 65 69; mk_tok JSMN_OBJECT 71 96;
    mk_tok JSMN_STRING 73 75; mk_tok JSMN_STRING 78 79;
    mk_tok JSMN_STRING 82 88; mk_tok JSMN_PRIMITIVE 90 95;
    mk_tok JSMN_STRING 98 102; mk_tok JSMN_OBJECT 104 131;
    mk_tok JSMN_STRING 106 108; mk_tok JSMN_STRING 111 112;
    mk_tok JSMN_STRING 115 119; mk_tok JSMN_STRING 122 129 ].
Definition update_from_text : list ascii :=
  chars "{" ++ quoted "id" ++ chars ":" ++ quoted "7" ++ chars ","
  ++ quoted "is_bot" ++ chars ":false}".
Definition update_from_tokens : list jsmntok_t :=
  [ mk_tok JSMN_OBJECT 0 25;
    mk_tok JSMN_STRING 2 4; mk_tok JSMN_STRING 7 8;
    mk_tok JSMN_STRING 11 17; mk_tok JSMN_PRIMITIVE 19 24 ].
Definition update_chat_text : list ascii :=
  chars "{" ++ quoted "id" ++ chars ":" ++ quoted "7" ++ chars ","
  ++ quoted "type" ++ chars ":" ++ quoted "private" ++ chars "}".
Definition update_chat_tokens : list jsmntok_t :=
  [ mk_tok JSMN_OBJECT 0 27;
    mk_tok JSMN_STRING 2 4; mk_tok JSMN_STRING 7 8;
    mk_tok JSMN_STRING 11 15; mk_tok JSMN_STRING 18 25 ].

(** An update whose [text] (25 characters) and [from.first_name] (11
    characters) are longer than the sample capacities (16 and 8). *)
Definition long_update_text : list ascii :=
  chars "{" ++ quoted "update_id" ++ chars ":5," ++ quoted "message" ++ chars ":{"
  ++ quoted "text" ++ chars ":" ++ quoted "hello world, this is long" ++ chars ","
  ++ quoted "from" ++ chars ":{" ++ quoted "id" ++ chars ":" ++ quoted "7" ++ chars ","
  ++ quoted "first_name" ++ chars ":" ++ quoted "Bartholomew" ++ chars "}}}".
Definition long_update_tokens : list jsmntok_t :=
  [ mk_tok JSMN_OBJECT 0 107;
    mk_tok JSMN_STRING 2 11; mk_tok JSMN_PRIMITIVE 13 14;
    mk_tok JSMN_STRING 16 23; mk_tok JSMN_OBJECT 25 106;
    mk_tok JSMN_STRING 27 31; mk_tok JSMN_STRING 34 59;
    mk_tok JSMN_STRING 62 66; mk_tok JSMN_OBJECT 68 105;
    mk_tok JSMN_STRING 70 72; mk_tok JSMN_STRING 75 76;
    mk_tok JSMN_STRING 79 89; mk_tok JSMN_STRING 92 103 ].
Definition long_from_text : list ascii :=
  chars "{" ++ quoted "id" ++ chars ":" ++ quoted "7" ++ chars ","
  ++ quoted "first_name" ++ chars ":" ++ quoted "Bartholomew" ++ chars "}".
Definition long_from_tokens : list jsmntok_t :=
  [ mk_tok JSMN_OBJECT 0 37;
    mk_tok JSMN_STRING 2 4; mk_tok JSMN_STRING 7 8;
    mk_tok JSMN_STRING 11 21; mk_tok JSMN_STRING 24 35 ].

Definition update_tokenizer : Tokenizer :=
  table_tokenizer [ (update_text, update_tokens);
                    (update_from_text, update_from_tokens);
                    (update_chat_text, update_chat_tokens);
                    (long_update_text, long_update_tokens);
                    (long_from_text, long_from_tokens) ].

(** A response carrying the array of one update, as a line with its end of
    line. *)
Definition updates_response (update : list ascii) : list ascii :=
  status_line ++ [CR; LF] ++ chars "{" ++ quoted "ok" ++ chars ":true,"
  ++ quoted "result" ++ chars ":[" ++ update ++ chars "]}".

(** The storage of a bot before its constructor runs, every byte [?], with
    the array sizes of [sample_config], and a transport with the given inbox. *)
Definition raw_storage (responses : list (list ascii)) : @uTLGBot sample_client :=
  let arr (n : nat) : obj := replicate n "?"%char in
  mk_bot (mk_client false responses []) (arr 16%nat) (arr 24%nat) (arr 256%nat)
    (arr 128%nat) (arr 64%nat)
    (replicate 32%nat (mk_tok JSMN_PRIMITIVE 1 1)) (replicate 16%nat (mk_tok JSMN_PRIMITIVE 1 1))
    255 12345 true
    (mk_msg 77 77 (arr 16%nat)
       (mk_user (arr 8%nat) true (arr 8%nat) (arr 8%nat) (arr 8%nat) (arr 4%nat))
       (mk_chat (arr 8%nat) (arr 8%nat) (arr 8%nat) (arr 8%nat) (arr 8%nat) (arr 8%nat) true)).

(** The bot of the sample world, constructed with a token. *)
Definition sample_bot (responses : list (list ascii)) : result (@uTLGBot sample_client) :=
  @uTLGBot_new sample_config sample_client (raw_storage responses) (cstr (chars "123:ABC")) false.

Definition get_ok {A} (default : A) (r : result A) : A :=
  match r with Ok a => a | _ => default end.

#[local] Existing Instance update_tokenizer.
#[local] Existing Instance sample_scanf.
#[local] Existing Instance sample_config.

(** A response whose update the tokenizer rejects, and the bot that is about
    to receive it twice: freshly constructed, once the response is received,
    and once the tokenizer has run. *)
Definition unparsable_response : list ascii := updates_response (chars "{oops").
Definition fresh_bot : @uTLGBot sample_client :=
  Eval vm_compute in
    get_ok (raw_storage []) (sample_bot [unparsable_response; unparsable_response]).
Definition received_bot : @uTLGBot sample_client :=
  Eval vm_compute in
    match getUpdates_receive fresh_bot with
    | Ok (inr (b, _)) => b
    | _ => fresh_bot
    end.
Definition tokenized_bot : @uTLGBot sample_client :=
  Eval vm_compute in get_ok received_bot (snd <$> getUpdates_tokenize received_bot 1).

(** Two polls in a row of the fresh bot: the results, the poll offset after
    each, and the request bodies the transport was given. *)
Definition poll_twice : result (Z * Z * Z * Z * list (list ascii)) :=
  '(r1, b1) ← getUpdates fresh_bot;
  '(r2, b2) ← getUpdates b1;
  Ok (r1, _last_received_msg b1, r2, _last_received_msg b2, sent (_client b2)).

(** A bot about to read the sub-keys of the [from] object of
    [long_update_text]: the object is in [_json_value_str], tokenized. *)
Definition from_bot : @uTLGBot sample_client :=
  set_json_subelements
    (set_json_value_str fresh_bot (take 128 (long_from_text ++ replicate 128 NUL)))
    (long_from_tokens ++ replicate 11 zero_tok).

(** The bot that polls [long_update_text]. *)
Definition long_update_bot : @uTLGBot sample_client :=
  Eval vm_compute in get_ok (raw_storage []) (sample_bot [updates_response long_update_text]).

(** The bot that polls the update of the specification's example. *)
Definition update_bot : @uTLGBot sample_client :=
  Eval vm_compute in get_ok (raw_storage []) (sample_bot [updates_response update_text]).

(** The C string at the start of the object is empty. *)
Definition empty_string (o : obj) : Prop := o !! 0%nat = Some NUL.

(** Every field of the record holds its default: the numbers are 0, the flags
    are false and the strings are empty. *)
Definition cleared_record (m : tlg_type_message) : Prop :=
  msg_message_id m = 0 /\ msg_date m = 0 /\ empty_string (msg_text m)
  /\ empty_string (user_id (msg_from m)) /\ user_is_bot (msg_from m) = false
  /\ empty_string (user_first_name (msg_from m)) /\ empty_string (user_last_name (msg_from m))
  /\ empty_string (user_username (msg_from m))
  /\ empty_string (user_language_code (msg_from m))
  /\ empty_string (chat_id (msg_chat m)) /\ empty_string (chat_type (msg_chat m))
  /\ empty_string (chat_title (msg_chat m)) /\ empty_string (chat_username (msg_chat m))
  /\ empty_string (chat_first_name (msg_chat m)) /\ empty_string (chat_last_name (msg_chat m))
  /\ chat_all_members_are_administrators (msg_chat m) = false.

(** The string fields of the record have the capacities that the source
    gives to the copies into them, each of at least one byte. *)
Definition record_sized `{Config} (m : tlg_type_message) : Prop :=
  (0 < MAX_TEXT_LENGTH /\ Z.of_nat (length (msg_text m)) = MAX_TEXT_LENGTH)
  /\ (0 < MAX_ID_LENGTH /\ Z.of_nat (length (user_id (msg_from m))) = MAX_ID_LENGTH)
  /\ (0 < MAX_USER_LENGTH
      /\ Z.of_nat (length (user_first_name (msg_from m))) = MAX_USER_LENGTH)
  /\ Z.of_nat (length (user_last_name (msg_from m))) = MAX_USER_LENGTH
  /\ (0 < MAX_USERNAME_LENGTH
      /\ Z.of_nat (length (user_username (msg_from m))) = MAX_USERNAME_LENGTH)
  /\ (0 < MAX_LANGUAGE_CODE_LENGTH
      /\ Z.of_nat (length (user_language_code (msg_from m))) = MAX_LANGUAGE_CODE_LENGTH)
  /\ Z.of_nat (length (chat_id (msg_chat m))) = MAX_ID_LENGTH
  /\ (0 < MAX_CHAT_TYPE_LENGTH
      /\ Z.of_nat (length (chat_type (msg_chat m))) = MAX_CHAT_TYPE_LENGTH)
  /\ (0 < MAX_CHAT_TITLE_LENGTH
      /\ Z.of_nat (length (chat_title (msg_chat m))) = MAX_CHAT_TITLE_LENGTH)
  /\ Z.of_nat (length (chat_username (msg_chat m))) = MAX_USERNAME_LENGTH
  /\ Z.of_nat (length (chat_first_name (msg_chat m))) = MAX_USER_LENGTH
  /\ Z.of_nat (length (chat_last_name (msg_chat m))) = MAX_USER_LENGTH.

(** The arrays of the object have the sizes that the constructor clears:
    [TOKEN_LENGTH], [TELEGRAM_API_LENGTH], [HTTP_MAX_RES_LENGTH],
    [MAX_JSON_STR_LEN], [MAX_JSON_SUBVAL_STR_LEN], [MAX_JSON_ELEMENTS] and
    [MAX_JSON_SUBELEMENTS] entries. *)
Definition storage_sized `{Config} {C : Type} (b : @uTLGBot C) : Prop :=
  (0 < TOKEN_LENGTH /\ Z.of_nat (length (_token b)) = TOKEN_LENGTH)
  /\ (0 < TELEGRAM_API_LENGTH /\ Z.of_nat (length (_tlg_api b)) = TELEGRAM_API_LENGTH)
  /\ Z.of_nat (length (_buffer b)) = HTTP_MAX_RES_LENGTH
  /\ Z.of_nat (length (_json_value_str b)) = MAX_JSON_STR_LEN
  /\ Z.of_nat (length (_json_subvalue_str b)) = MAX_JSON_SUBVAL_STR_LEN
  /\ Z.of_nat (length (_json_elements b)) = MAX_JSON_ELEMENTS
  /\ Z.of_nat (length (_json_subelements b)) = MAX_JSON_SUBELEMENTS
  /\ record_sized (received_msg b).

(** The request body with its closing brace replaced by one more field (the
    field brings the closing brace). *)
Definition replace_brace (body field : list ascii) : list ascii := removelast body ++ field.

(** The request body that [sendMessage] builds, on lists: the format
    [{"chat_id":%s, "text":"%s"}], then each optional field in the order of
    the source, each formatted field cut to the capacity of [tmp]. *)
Definition sendMessage_body `{SendConfig} (chat_id text mode : list ascii)
    (disable_web_page_preview disable_notification : bool) (reply_to_message_id : Z)
    (markup : list ascii) : list ascii :=
  let formatted out := take (Z.to_nat (MAX_TMP_BUFFER_LENGTH - 1)) out in
  let body := chars "{" ++ quoted "chat_id" ++ chars ":" ++ chat_id ++ chars ", "
              ++ quoted "text" ++ chars ":" ++ [DQ] ++ text ++ [DQ] ++ chars "}" in
  let body := if bool_decide (mode = chars "Markdown" \/ mode = chars "HTML")
              then replace_brace body
                     (formatted (chars "," ++ quoted "parse_mode" ++ chars ":" ++ mode
                                 ++ [DQ] ++ chars "}"))
              else body in
  let body := if disable_web_page_preview
              then replace_brace body
                     (chars "," ++ quoted "disable_web_page_preview" ++ chars ":true}")
              else body in
  let body := if disable_notification
              then replace_brace body
                     (chars "," ++ quoted "disable_notification" ++ chars ":true}")
              else body in
  let body := if bool_decide (uint64 reply_to_message_id <> 0)
              then replace_brace body
                     (formatted (chars "," ++ quoted "reply_to_message_id" ++ chars ":"
                                 ++ dec (uint64 reply_to_message_id) ++ chars "}"))
              else body in
  if bool_decide (markup <> [])
  then replace_brace body
         (formatted (chars "," ++ quoted "reply_markup" ++ chars ":" ++ markup ++ chars "}"))
  else body.

(** The object starts with the C string [s]. *)
Definition holds_string (o : obj) (s : list ascii) : Prop :=
  (NUL ∉ s) /\ exists rest, o = s ++ NUL :: rest.

(** The bot of the example once it has polled its update, with one more
    response waiting in the transport: an empty list of updates, or an update
    that the tokenizer rejects. *)
Definition quiet_bot : @uTLGBot sample_client :=
  Eval vm_compute in
    get_ok (raw_storage [])
      (b ← sample_bot [updates_response update_text; updates_response []];
       snd <$> getUpdates b).
Definition garbled_bot : @uTLGBot sample_client :=
  Eval vm_compute in
    get_ok (raw_storage [])
      (b ← sample_bot [updates_response update_text; unparsable_response];
       snd <$> getUpdates b).

(** A bot about to read the sub-keys of the [from] object of [update_text]:
    the object is in [_json_value_str], tokenized. *)
Definition flag_bot : @uTLGBot sample_client :=
  set_json_subelements
    (set_json_value_str fresh_bot (take 128 (update_from_text ++ replicate 128 NUL)))
    (update_from_tokens ++ replicate 11 zero_tok).

(** The other capacities of the sample world, a connected bot with responses
    waiting in its transport, and the arrays [tmp] and [json_keyboard]. *)
Definition sample_send_config : SendConfig :=
  {| MAX_TMP_BUFFER_LENGTH := 64;
     MAX_KEYBOARD_MARKUP_LENGTH := 64;
     DEFAULT_RESPONSE_TIMEOUT := 3000 |}.

#[local] Existing Instance sample_send_config.

Definition online_bot (responses : list (list ascii)) : @uTLGBot sample_client :=
  set_client fresh_bot (mk_client true responses []).
Definition sample_tmp : obj := replicate 64 "?"%char.

(** A transport that never connects, and the bot of the sample world on it. *)
Global Instance unplugged_https : HttpsClient unit :=
  {| client_is_connected _ := false;
     client_connect c host port := (0, c);
     client_disconnect c := c;
     client_get c uri host response response_len timeout := (1, response, c);
     client_post c uri host buffer request_len max_size timeout := (1, buffer, c) |}.

Definition unplugged_bot : @uTLGBot unit :=
  mk_bot tt (_token fresh_bot) (_tlg_api fresh_bot) (_buffer fresh_bot)
    (_json_value_str fresh_bot) (_json_subvalue_str fresh_bot) (_json_elements fresh_bot)
    (_json_subelements fresh_bot) (_long_poll_timeout fresh_bot)
    (_last_received_msg fresh_bot) (_dont_keep_connection fresh_bot) (received_msg fresh_bot).

(** The bot that polled [long_update_text], once the response is received
    and tokenized: the payload starts at offset 1 of [_buffer] and has 13
    tokens. *)
Definition long_polled_bot : @uTLGBot sample_client :=
  Eval vm_compute in
    match getUpdates_receive long_update_bot with
    | Ok (inr (b, ptr_response)) =>
      get_ok long_update_bot (snd <$> getUpdates_tokenize b ptr_response)
    | _ => long_update_bot
    end.

(** The buffer that holds a request body: [body], cut to
    [HTTP_MAX_RES_LENGTH - 1] characters and terminated, written over the
    start of [buffer]. *)
Definition poll_request `{Config} (body : list ascii) (buffer : obj) : obj :=
  take (Z.to_nat (HTTP_MAX_RES_LENGTH - 1)) body
  ++ NUL :: drop (S (length (take (Z.to_nat (HTTP_MAX_RES_LENGTH - 1)) body))) buffer.

(** The request body of [getUpdates] with the digits [offset] for the
    offset and the polling timeout [timeout]. *)
Definition offset_body (offset : list ascii) (timeout : Z) : list ascii :=
  chars "{" ++ quoted "offset" ++ chars ":" ++ offset
  ++ chars ", " ++ quoted "limit" ++ chars ":1, "
  ++ quoted "timeout" ++ chars ":" ++ dec timeout
  ++ chars ", " ++ quoted "allowed_updates" ++ chars ":[" ++ quoted "message" ++ chars "]}".

(** [getUpdates] on [b] hands the transport the request [body]: whenever the
    connection is open or opens, [_buffer] has its [HTTP_MAX_RES_LENGTH]
    bytes, and the transport answers [(status, response, c)] to the post of
    the buffer that holds [body] (cut to [HTTP_MAX_RES_LENGTH - 1] characters
    and terminated) with the length of that text, this answer decides what
    [getUpdates] does.  A status above 0 makes it return 0 with the buffer
    and the client that the transport left and the poll offset kept; an
    unwrapping that runs out of the buffer makes it run out of the buffer;
    and it gets to the tokenizer only with a status of 0 or less, a response
    that unwraps, and the client that the transport left. *)
Definition getUpdates_posts `{Platform} `{Tokenizer} `{Scanf} `{Config} {C : Type}
    `{HttpsClient C} (b : @uTLGBot C) (body : list ascii) : Prop :=
  forall (b0 : @uTLGBot C) (uri : list ascii) (status : Z) (response : obj) (c : C),
    connect b = (true, b0) ->
    make_uri (_tlg_api b) API_CMD_GET_UPDATES = Ok uri ->
    0 < HTTP_MAX_RES_LENGTH <= Z.of_nat (length (_buffer b)) ->
    client_post (_client b0) uri TELEGRAM_HOST (poll_request body (_buffer b))
      (Z.of_nat (length (take (Z.to_nat (HTTP_MAX_RES_LENGTH - 1)) body)))
      HTTP_MAX_RES_LENGTH (_long_poll_timeout b * 1000 + HTTP_WAIT_RESPONSE_TIMEOUT)
    = (status, response, c) ->
    (status > 0 ->
     exists b' : @uTLGBot C,
       getUpdates b = Ok (0, b')
       /\ _buffer b' = response
       /\ (_client b' = c \/ _client b' = client_disconnect c)
       /\ _last_received_msg b' = _last_received_msg b)
    /\ (status <= 0 -> tlg_unwrap response HTTP_MAX_RES_LENGTH = Fault ->
        getUpdates b = Fault)
    /\ (forall (b1 : @uTLGBot C) (ptr_response : Z),
          getUpdates_receive b = Ok (inr (b1, ptr_response)) ->
          status <= 0 /\ _client b1 = c
          /\ exists buffer, tlg_unwrap response HTTP_MAX_RES_LENGTH = Ok (true, buffer)).

(** [t] is the token that the source reads as the value of [key]: the entry
    after the first token equal to [key], which is not the token 0. *)
Definition value_token (js : obj) (ofs : Z) (tokens : list jsmntok_t) (num_tokens : Z)
    (key : list ascii) (t : jsmntok_t) : Prop :=
  exists i : nat,
    (0 < i)%nat /\ Z.of_nat i < num_tokens
    /\ key_match js ofs tokens key i
    /\ (forall j : nat, (j < i)%nat -> ~ key_match js ofs tokens key j)
    /\ tokens !! S i = Some t.

(** The payload, its tokens, the size of [_json_value_str] and the [text]
    field of the record are the same in [b] and [b']. *)
Definition keeps_payload `{Platform} `{Tokenizer} `{Scanf} `{Config} {C : Type}
    `{HttpsClient C} (b b' : @uTLGBot C) : Prop :=
  _buffer b' = _buffer b /\ _json_elements b' = _json_elements b
  /\ length (_json_value_str b') = length (_json_value_str b)
  /\ msg_text (received_msg b') = msg_text (received_msg b).

(** The answer of the sample transport to the second poll of [quiet_bot]:
    the response with the empty list of updates in the buffer, and the
    client with one more request recorded. *)
Definition quiet_response : obj :=
  removelast (updates_response []) ++ "}"%char :: NUL :: replicate 213 NUL.
Definition quiet_client : sample_client :=
  mk_client true [] (sent (_client quiet_bot) ++ [getUpdates_body quiet_bot]).

(** An update without text, [{"update_id":5}], and a bot that holds it at
    offset 1 of [_buffer] with its 3 tokens. *)
Definition textless_update : list ascii := chars "{" ++ quoted "update_id" ++ chars ":5}".
Definition textless_bot : @uTLGBot sample_client :=
  set_json_elements
    (set_buffer fresh_bot (take 256 (NUL :: textless_update ++ replicate 256 NUL)))
    ([mk_tok JSMN_OBJECT 0 15; mk_tok JSMN_STRING 2 11; mk_tok JSMN_PRIMITIVE 13 14]
     ++ replicate 29 zero_tok).

(** * Properties *)

(** ** Machine integers *)

Lemma wrap_small w z : 0 <= z < 2 ^ w -> wrap w z = z.
Proof. intros Hz. unfold wrap. apply Z.mod_small. exact Hz. Qed.

Lemma pow2_32_le_size `{Platform} : 2 ^ 32 <= 2 ^ size_bits.
Proof. apply Z.pow_le_mono_r; [lia | apply size_bits_min]. Qed.

Lemma size_t_small `{Platform} z : 0 <= z < 2 ^ size_bits -> size_t z = z.
Proof. apply wrap_small. Qed.

Lemma uint32_small z : 0 <= z < 2 ^ 32 -> uint32 z = z.
Proof. apply wrap_small. Qed.

Lemma int32_small z : 0 <= z < 2 ^ 31 -> int32 z = z.
Proof.
  intros Hz. unfold int32, to_signed. rewrite wrap_small by lia.
  change (2 ^ (32 - 1)) with (2 ^ 31). case_decide; lia.
Qed.

(** ** The outcome monad *)

Lemma bind_Ok {A B} (m : result A) (f : A -> result B) (b : B) :
  m ≫= f = Ok b -> exists a, m = Ok a /\ f a = Ok b.
Proof. destruct m as [a| |]; simpl; intros Hb; try discriminate. eauto. Qed.

(** ** Loads and stores *)

Lemma load_Ok (o : obj) (i : Z) (c : ascii) :
  load o i = Ok c <-> 0 <= i /\ o !! Z.to_nat i = Some c.
Proof.
  unfold load. case_decide.
  - destruct (o !! Z.to_nat i) as [c'|]; simpl; split; intros Hc;
      try discriminate; try (destruct Hc; discriminate).
    + by inversion Hc.
    + destruct Hc as [_ Hc]. by inversion Hc.
  - split; [discriminate | lia].
Qed.

Lemma load_nat (o : obj) (i : nat) (c : ascii) :
  o !! i = Some c -> load o (Z.of_nat i) = Ok c.
Proof. intros Hc. apply load_Ok. rewrite Nat2Z.id. split; [lia | done]. Qed.

Lemma store_nat (o : obj) (i : nat) (c : ascii) :
  (i < length o)%nat -> store o (Z.of_nat i) c = Ok (<[i := c]> o).
Proof.
  intros Hi. unfold store. rewrite Nat2Z.id.
  case_decide; [done | lia].
Qed.

Lemma store_Ok (o o' : obj) (i : Z) (c : ascii) :
  store o i c = Ok o' -> 0 <= i < Z.of_nat (length o) /\ o' = <[Z.to_nat i := c]> o.
Proof. unfold store. case_decide; [|discriminate]. intros Ho. by inversion Ho. Qed.

(** ** Strings inside objects *)

Lemma strlen_list_app (d r : list ascii) :
  NUL ∉ d -> strlen_list (d ++ NUL :: r) = Ok (Z.of_nat (length d)).
Proof.
  induction d as [|c d IH]; intros Hd; cbn [app strlen_list].
  - by rewrite decide_True.
  - apply not_elem_of_cons in Hd as [Hc Hd].
    rewrite decide_False by congruence. rewrite IH by done.
    cbn [mbind result_bind length]. f_equal. lia.
Qed.

Lemma strlen_list_inv (l : list ascii) (n : Z) :
  strlen_list l = Ok n ->
  exists d r, l = d ++ NUL :: r /\ (NUL ∉ d) /\ n = Z.of_nat (length d).
Proof.
  revert n. induction l as [|c l IH]; intros n; cbn [strlen_list]; [discriminate|].
  case_decide as Hc.
  - intros Hn. inversion Hn. subst. exists [], l. split_and!; [done | | done].
    apply not_elem_of_nil.
  - intros Hn. apply bind_Ok in Hn as (m & Hm & Hn). inversion Hn; subst.
    destruct (IH m Hm) as (d & r & -> & Hd & ->).
    exists (c :: d), r. split_and!; [done | | simpl; lia].
    apply not_elem_of_cons. split; [congruence | done].
Qed.

Lemma strlen_app (pre d r : list ascii) :
  NUL ∉ d -> strlen (pre ++ d ++ NUL :: r) (Z.of_nat (length pre)) = Ok (Z.of_nat (length d)).
Proof.
  intros Hd. unfold strlen. rewrite decide_True by lia.
  rewrite Nat2Z.id, drop_app_length. by apply strlen_list_app.
Qed.

Lemma strlen_0 (d r : list ascii) :
  NUL ∉ d -> strlen (d ++ NUL :: r) 0 = Ok (Z.of_nat (length d)).
Proof. intros Hd. apply (strlen_app [] d r Hd). Qed.

(** ** Overwriting a range of an object *)

Lemma overwrite_nil (o : obj) (p : nat) : overwrite o p [] = o.
Proof.
  unfold overwrite. cbn [length app]. rewrite Nat.add_0_r. apply take_drop.
Qed.

Lemma length_overwrite (o : obj) (p : nat) (bytes : list ascii) :
  (p + length bytes <= length o)%nat -> length (overwrite o p bytes) = length o.
Proof.
  intros Hp. unfold overwrite.
  rewrite !length_app, length_take, length_drop. lia.
Qed.

Lemma overwrite_insert_cons (o : obj) (p : nat) (c : ascii) (bytes : list ascii) :
  (p < length o)%nat -> overwrite (<[p := c]> o) (S p) bytes = overwrite o p (c :: bytes).
Proof.
  intros Hp. unfold overwrite.
  rewrite (take_S_r _ p c) by (by apply list_lookup_insert_eq).
  rewrite take_insert_ge by lia.
  rewrite drop_insert_lt by lia.
  rewrite <- app_assoc. cbn [app length]. do 4 f_equal. lia.
Qed.

Lemma overwrite_snoc (o : obj) (p : nat) (bytes : list ascii) (c : ascii) :
  (p + length bytes < length o)%nat ->
  <[(p + length bytes)%nat := c]> (overwrite o p bytes) = overwrite o p (bytes ++ [c]).
Proof.
  intros Hp. unfold overwrite.
  replace (p + length bytes)%nat with (length (take p o ++ bytes) + 0)%nat at 1
    by (rewrite length_app, length_take; lia).
  rewrite app_assoc, insert_app_r, <- !app_assoc. do 2 f_equal.
  rewrite length_app. cbn [length].
  destruct (drop (p + length bytes) o) as [|x rest] eqn:Hd.
  - apply drop_nil_inv in Hd. lia.
  - cbn [app]. f_equal.
    replace (p + (length bytes + 1))%nat with (p + length bytes + 1)%nat by lia.
    rewrite <- (drop_drop o 1 (p + length bytes)). by rewrite Hd.
Qed.

Lemma overwrite_insert_inside (o : obj) (p j : nat) (bytes : list ascii) (c : ascii) :
  (p <= length o)%nat -> (j < length bytes)%nat ->
  <[(p + j)%nat := c]> (overwrite o p bytes) = overwrite o p (<[j := c]> bytes).
Proof.
  intros Hp Hj. unfold overwrite.
  replace (p + j)%nat with (length (take p o) + j)%nat
    by (rewrite length_take; lia).
  rewrite insert_app_r, insert_app_l by done.
  by rewrite length_insert.
Qed.

Lemma drop_overwrite (o : obj) (p : nat) (bytes : list ascii) (n : nat) :
  (p + length bytes <= n)%nat -> (p <= length o)%nat ->
  drop n (overwrite o p bytes) = drop n o.
Proof.
  intros Hn Hp. unfold overwrite.
  rewrite app_assoc, drop_app_ge by (rewrite length_app, length_take; lia).
  rewrite length_app, length_take, drop_drop. f_equal. lia.
Qed.

Lemma lookup_overwrite_at (o : obj) (p j : nat) (bytes : list ascii) :
  (p <= length o)%nat -> (j < length bytes)%nat ->
  overwrite o p bytes !! (p + j)%nat = bytes !! j.
Proof.
  intros Hp Hj. unfold overwrite.
  rewrite lookup_app_r by (rewrite length_take; lia).
  rewrite length_take, lookup_app_l by lia. f_equal. lia.
Qed.

(** ** [cstr_strncat] *)

Section Strncat.
Context `{Platform}.
Variables (dest_max_size dest_len src_len : Z) (src : obj).
Hypothesis Hcap : 1 <= dest_max_size < 2 ^ size_bits.
Hypothesis Hdl : 0 <= dest_len.
Hypothesis Hsrc : 0 <= src_len <= Z.of_nat (length src).
Hypothesis Hsrc_size : src_len < 2 ^ size_bits.

(** The loop copies [min (src_len - i) (dest_max_size - dest_len - i)] bytes
    and reports whether it ran to [src_len]. *)
Lemma cstr_strncat_loop_spec (n : nat) (dest : obj) (i : Z) :
  dest_max_size <= Z.of_nat (length dest) ->
  0 <= i -> i + Z.of_nat n = src_len -> dest_len + i <= dest_max_size ->
  let k := Z.to_nat (Z.min (Z.of_nat n) (dest_max_size - dest_len - i)) in
  let copied := overwrite dest (Z.to_nat (dest_len + i)) (take k (drop (Z.to_nat i) src)) in
  cstr_strncat_loop n dest dest_max_size dest_len src i =
    Ok (bool_decide (dest_len + src_len <= dest_max_size), i + Z.of_nat k,
        if bool_decide (dest_len + src_len <= dest_max_size) then copied
        else <[Z.to_nat (dest_max_size - 1) := NUL]> copied).
Proof.
  revert dest i. induction n as [|n IH]; intros dest i Hlen Hi Hn Hle; cbn zeta.
  - cbn [cstr_strncat_loop]. rewrite bool_decide_eq_true_2 by lia.
    replace (Z.to_nat (Z.min (Z.of_nat 0) (dest_max_size - dest_len - i))) with 0%nat by lia.
    rewrite take_0, overwrite_nil. by rewrite Z.add_0_r.
  - cbn [cstr_strncat_loop].
    rewrite (size_t_small (dest_len + i)) by lia. rewrite (size_t_small (dest_max_size - 1)) by lia.
    destruct (decide (dest_len + i > dest_max_size - 1)) as [Hfull|Hfull].
    + (* the next byte does not fit: terminate at the last index and stop *)
      rewrite bool_decide_eq_false_2 by lia.
      unfold store. rewrite decide_True by lia. cbn [mbind result_bind].
      replace (Z.to_nat (Z.min (Z.of_nat (S n)) (dest_max_size - dest_len - i)))
        with 0%nat by lia.
      rewrite take_0, overwrite_nil. by rewrite Z.add_0_r.
    + assert (Hc : exists c, src !! Z.to_nat i = Some c).
      { apply lookup_lt_is_Some_2. lia. }
      destruct Hc as [c Hc].
      assert (load src i = Ok c) as -> by (apply load_Ok; split; [lia | done]).
      cbn [mbind result_bind].
      unfold store at 1. rewrite decide_True by lia. cbn [mbind result_bind].
      rewrite (size_t_small (i + 1)) by lia.
      rewrite IH by (rewrite ?length_insert; lia).
      replace (Z.to_nat (dest_len + (i + 1))) with (S (Z.to_nat (dest_len + i))) by lia.
      rewrite overwrite_insert_cons by lia.
      set (k' := Z.to_nat (Z.min (Z.of_nat n) (dest_max_size - dest_len - (i + 1)))).
      replace (Z.to_nat (Z.min (Z.of_nat (S n)) (dest_max_size - dest_len - i)))
        with (S k') by lia.
      replace (Z.to_nat (i + 1)) with (S (Z.to_nat i)) by lia.
      rewrite (drop_S src c (Z.to_nat i)) by done. cbn [take].
      replace (i + 1 + Z.of_nat k') with (i + Z.of_nat (S k')) by lia.
      reflexivity.
Qed.

Lemma insert_take_last (l : list ascii) (j : nat) (c : ascii) :
  (j < length l)%nat -> <[j := c]> (take (S j) l) = take j l ++ [c].
Proof.
  intros Hj. destruct (lookup_lt_is_Some_2 l j Hj) as [x Hx].
  rewrite (take_S_r l j x Hx).
  replace j with (length (take j l) + 0)%nat at 1 by (rewrite length_take; lia).
  by rewrite insert_app_r.
Qed.

(** What [cstr_strncat] computes: the flag is true exactly when
    [dest_len + src_len <= dest_max_size], and the destination receives the
    first [min src_len (dest_max_size - 1 - dest_len)] source bytes and a
    terminator. *)
Lemma cstr_strncat_spec (d r : list ascii) :
  NUL ∉ d -> dest_len = Z.of_nat (length d) -> dest_len < dest_max_size ->
  dest_max_size <= Z.of_nat (length (d ++ NUL :: r)) ->
  let m := Z.to_nat (Z.min src_len (dest_max_size - 1 - dest_len)) in
  cstr_strncat (d ++ NUL :: r) dest_max_size src src_len =
    Ok (bool_decide (dest_len + src_len <= dest_max_size),
        overwrite (d ++ NUL :: r) (length d) (take m src ++ [NUL])).
Proof.
  intros Hd Hdlen Hlt Hlen m. unfold cstr_strncat.
  rewrite strlen_0 by done. cbn [mbind result_bind]. rewrite <- Hdlen.
  set (dest := d ++ NUL :: r) in *.
  rewrite cstr_strncat_loop_spec by lia. cbn [mbind result_bind].
  rewrite Z.add_0_r, Z.add_0_l, Z.sub_0_r. change (Z.to_nat 0) with 0%nat. rewrite drop_0.
  set (k := Z.to_nat (Z.min (Z.of_nat (Z.to_nat src_len)) (dest_max_size - dest_len))).
  rewrite (size_t_small (dest_len + Z.of_nat k)), (size_t_small (dest_max_size - 1)) by lia.
  replace (Z.to_nat dest_len) with (length d) by lia.
  assert (Hk : length (take k src) = k) by (rewrite length_take; lia).
  destruct (decide (dest_len + src_len <= dest_max_size)) as [Hfit|Hover].
  - rewrite bool_decide_eq_true_2 by done.
    destruct (decide (dest_len + Z.of_nat k >= dest_max_size - 1)) as [Hend|Hend].
    + unfold store. rewrite decide_True by (rewrite length_overwrite; lia).
      cbn [mbind result_bind]. do 2 f_equal.
      destruct (decide (dest_len + src_len = dest_max_size)) as [Heq|Hne].
      * (* the copy filled the buffer: the terminator replaces its last byte *)
        replace (Z.to_nat (dest_max_size - 1)) with (length d + m)%nat by lia.
        rewrite overwrite_insert_inside by lia.
        replace k with (S m) by lia.
        rewrite insert_take_last by lia. done.
      * replace (Z.to_nat (dest_max_size - 1)) with (length d + length (take k src))%nat
          by lia.
        rewrite overwrite_snoc by lia. replace k with m by lia. done.
    + unfold store. rewrite decide_True by (rewrite length_overwrite; lia).
      cbn [mbind result_bind]. do 2 f_equal.
      replace (Z.to_nat (dest_len + Z.of_nat k)) with (length d + length (take k src))%nat
        by lia.
      rewrite overwrite_snoc by lia. replace k with m by lia. done.
  - rewrite bool_decide_eq_false_2 by done.
    rewrite decide_True by lia.
    unfold store. rewrite decide_True by (rewrite length_insert, length_overwrite; lia).
    cbn [mbind result_bind]. do 2 f_equal.
    rewrite list_insert_insert_eq.
    replace (Z.to_nat (dest_max_size - 1)) with (length d + m)%nat by lia.
    rewrite overwrite_insert_inside by lia.
    replace k with (S m) by lia.
    rewrite insert_take_last by lia. done.
Qed.

End Strncat.

Lemma first_terminator (o : obj) (k : nat) :
  o !! k = Some NUL ->
  exists d r, o = d ++ NUL :: r /\ (NUL ∉ d) /\ (length d <= k)%nat.
Proof.
  revert k. induction o as [|c o IH]; intros k Hnul; [done|].
  destruct (decide (c = NUL)) as [->|Hc].
  - exists [], o. split_and!; [done | apply not_elem_of_nil | simpl; lia].
  - destruct k as [|k]; [simpl in Hnul; congruence|].
    destruct (IH k Hnul) as (d & r & -> & Hd & Hlen).
    exists (c :: d), r. split_and!; [done | | simpl; lia].
    apply not_elem_of_cons. split; [congruence | done].
Qed.

Lemma terminated_within_split (o : obj) (cap : Z) :
  terminated_within o cap ->
  exists d r, o = d ++ NUL :: r /\ (NUL ∉ d) /\ Z.of_nat (length d) < cap.
Proof.
  intros (k & Hk & Hnul).
  destruct (first_terminator o k Hnul) as (d & r & -> & Hd & Hlen).
  exists d, r. split_and!; [done | done | lia].
Qed.

Lemma take_overwrite (o : obj) (p n : nat) (bytes : list ascii) :
  (p + length bytes <= n)%nat -> (n <= length o)%nat ->
  take n (overwrite o p bytes) = overwrite (take n o) p bytes.
Proof.
  intros Hn Hlen. unfold overwrite.
  rewrite take_take. replace (p `min` n)%nat with p by lia.
  rewrite !take_app_ge by (rewrite ?length_take; lia).
  rewrite length_take. replace (p `min` length o)%nat with p by lia.
  do 2 f_equal. rewrite take_drop_commute. f_equal. f_equal. lia.
Qed.

(** C1.  For a destination terminated within its capacity [dest_max_size >= 1]
    and a source readable for [src_len] bytes, [cstr_strncat] completes
    without any access outside the objects, leaves every byte from index
    [dest_max_size] on as it was, and leaves a terminator at an index below
    [dest_max_size].  It does the same on the object cut to exactly
    [dest_max_size] bytes, where a write at any other index would be a
    [Fault]: every write is at an index in [0, dest_max_size). *)
Theorem cstr_strncat_in_bounds `{Platform} (dest : obj) (dest_max_size : Z)
    (src : obj) (src_len : Z) :
  1 <= dest_max_size < 2 ^ size_bits ->
  dest_max_size <= Z.of_nat (length dest) ->
  terminated_within dest dest_max_size ->
  0 <= src_len <= Z.of_nat (length src) -> src_len < 2 ^ size_bits ->
  exists rc dest',
    cstr_strncat dest dest_max_size src src_len = Ok (rc, dest')
    /\ length dest' = length dest
    /\ drop (Z.to_nat dest_max_size) dest' = drop (Z.to_nat dest_max_size) dest
    /\ terminated_within dest' dest_max_size
    /\ cstr_strncat (take (Z.to_nat dest_max_size) dest) dest_max_size src src_len
       = Ok (rc, take (Z.to_nat dest_max_size) dest').
Proof.
  intros Hcap Hlen Hterm Hsrc Hsize.
  destruct (terminated_within_split _ _ Hterm) as (d & r & -> & Hd & Hdl).
  set (m := Z.to_nat (Z.min src_len (dest_max_size - 1 - Z.of_nat (length d)))).
  assert (Hm : length (take m src) = m) by (rewrite length_take; lia).
  assert (Hdl0 : 0 <= Z.of_nat (length d)) by lia.
  pose proof (cstr_strncat_spec dest_max_size (Z.of_nat (length d)) src_len src
                Hcap Hdl0 Hsrc Hsize d r Hd eq_refl Hdl Hlen) as Hspec.
  cbn zeta in Hspec. fold m in Hspec.
  assert (Hbytes : length (take m src ++ [NUL]) = S m)
    by (rewrite length_app, Hm; cbn [length]; lia).
  rewrite length_app in Hlen. cbn [length] in Hlen.
  eexists _, _. split; [exact Hspec|split_and!].
  - apply length_overwrite. rewrite Hbytes, length_app. cbn [length]. lia.
  - apply drop_overwrite; rewrite ?Hbytes, ?length_app; cbn [length]; lia.
  - exists (length d + m)%nat. split; [lia|].
    rewrite lookup_overwrite_at by (rewrite ?Hbytes, ?length_app; cbn [length]; lia).
    rewrite lookup_app_r by lia. by rewrite Hm, Nat.sub_diag.
  - (* the same run on the first [dest_max_size] bytes alone *)
    set (cap := Z.to_nat dest_max_size).
    assert (Hcut : take cap (d ++ NUL :: r) = d ++ NUL :: take (cap - S (length d)) r).
    { rewrite take_app_ge by lia.
      replace (cap - length d)%nat with (S (cap - S (length d))) by lia. done. }
    rewrite Hcut.
    assert (Hlen' : dest_max_size
                    <= Z.of_nat (length (d ++ NUL :: take (cap - S (length d)) r))).
    { rewrite length_app. cbn [length]. rewrite length_take. lia. }
    rewrite (cstr_strncat_spec dest_max_size (Z.of_nat (length d)) src_len src
               Hcap Hdl0 Hsrc Hsize d _ Hd eq_refl Hdl Hlen').
    fold m. rewrite <- Hcut. do 2 f_equal. symmetry.
    apply take_overwrite; rewrite ?Hbytes, ?length_app; cbn [length]; lia.
Qed.

Lemma cstr_strncat_in_bounds_witness :
  (1 <= 4 < 2 ^ 32)
  /\ 4 <= Z.of_nat (length (chars "ab" ++ [NUL; NUL; "x"%char]))
  /\ terminated_within (chars "ab" ++ [NUL; NUL; "x"%char]) 4
  /\ (0 <= 4 <= Z.of_nat (length (cstr (chars "cdef"))))
  /\ 4 < 2 ^ 32
  /\ exists rc dest',
       cstr_strncat (chars "ab" ++ [NUL; NUL; "x"%char]) 4 (cstr (chars "cdef")) 4
         = Ok (rc, dest')
       /\ length dest' = length (chars "ab" ++ [NUL; NUL; "x"%char])
       /\ drop (Z.to_nat 4) dest' = drop (Z.to_nat 4) (chars "ab" ++ [NUL; NUL; "x"%char])
       /\ terminated_within dest' 4
       /\ cstr_strncat (take (Z.to_nat 4) (chars "ab" ++ [NUL; NUL; "x"%char])) 4
            (cstr (chars "cdef")) 4
          = Ok (rc, take (Z.to_nat 4) dest').
Proof.
  assert (H1 : 1 <= 4 < 2 ^ 32) by (vm_compute; split; [discriminate | reflexivity]).
  assert (H2 : 4 <= Z.of_nat (length (chars "ab" ++ [NUL; NUL; "x"%char])))
    by (vm_compute; discriminate).
  assert (H3 : terminated_within (chars "ab" ++ [NUL; NUL; "x"%char]) 4)
    by (exists 2%nat; split; reflexivity).
  assert (H4 : 0 <= 4 <= Z.of_nat (length (cstr (chars "cdef"))))
    by (vm_compute; split; discriminate).
  assert (H5 : 4 < 2 ^ 32) by reflexivity.
  refine (conj H1 (conj H2 (conj H3 (conj H4 (conj H5 _))))).
  exact (cstr_strncat_in_bounds (H := esp32) _ 4 _ 4 H1 H2 H3 H4 H5).
Defined.

(** The run of the sample: three bytes of the source and a terminator fit,
    the byte after the capacity is untouched. *)
Example cstr_strncat_sample :
  cstr_strncat (chars "ab" ++ [NUL; NUL; "x"%char]) 4 (cstr (chars "cdef")) 4
  = Ok (false, chars "abc" ++ [NUL; "x"%char]).
Proof. reflexivity. Qed.

(** C7 (the code departs from the claim).  When the characters already in
    [dest] and the [src_len] source bytes add up to exactly [dest_max_size],
    [cstr_strncat] returns [true] although the appended result is truncated:
    the terminator replaces the last source byte, so only [src_len - 1] bytes
    are appended. *)
Theorem cstr_strncat_exact_fill_flag `{Platform} (d r : list ascii) (dest_max_size : Z)
    (src : obj) (src_len : Z) :
  1 <= dest_max_size < 2 ^ size_bits ->
  NUL ∉ d ->
  dest_max_size <= Z.of_nat (length (d ++ NUL :: r)) ->
  1 <= src_len <= Z.of_nat (length src) ->
  Z.of_nat (length d) + src_len = dest_max_size ->
  cstr_strncat (d ++ NUL :: r) dest_max_size src src_len =
    Ok (true, overwrite (d ++ NUL :: r) (length d)
                (take (Z.to_nat (src_len - 1)) src ++ [NUL])).
Proof.
  intros Hcap Hd Hlen Hsrc Hsum.
  assert (Hdl0 : 0 <= Z.of_nat (length d)) by lia.
  assert (Hsrc0 : 0 <= src_len <= Z.of_nat (length src)) by lia.
  assert (Hsize : src_len < 2 ^ size_bits) by lia.
  assert (Hdl : Z.of_nat (length d) < dest_max_size) by lia.
  rewrite (cstr_strncat_spec dest_max_size (Z.of_nat (length d)) src_len src
             Hcap Hdl0 Hsrc0 Hsize d r Hd eq_refl Hdl Hlen).
  rewrite bool_decide_eq_true_2 by lia.
  replace (Z.min src_len (dest_max_size - 1 - Z.of_nat (length d))) with (src_len - 1) by lia.
  reflexivity.
Qed.

Lemma cstr_strncat_exact_fill_flag_witness :
  (1 <= 4 < 2 ^ 32)
  /\ (NUL ∉ chars "ab")
  /\ 4 <= Z.of_nat (length (chars "ab" ++ NUL :: [NUL]))
  /\ (1 <= 2 <= Z.of_nat (length (cstr (chars "cd"))))
  /\ Z.of_nat (length (chars "ab")) + 2 = 4
  /\ cstr_strncat (chars "ab" ++ NUL :: [NUL]) 4 (cstr (chars "cd")) 2
     = Ok (true, chars "abc" ++ [NUL]).
Proof.
  assert (H1 : 1 <= 4 < 2 ^ 32) by (vm_compute; split; [discriminate | reflexivity]).
  assert (H2 : NUL ∉ chars "ab").
  { intros Hin. apply list_elem_of_In in Hin. vm_compute in Hin.
    destruct Hin as [Hin|[Hin|[]]]; discriminate. }
  assert (H3 : 4 <= Z.of_nat (length (chars "ab" ++ NUL :: [NUL])))
    by (vm_compute; discriminate).
  assert (H4 : 1 <= 2 <= Z.of_nat (length (cstr (chars "cd"))))
    by (vm_compute; split; discriminate).
  assert (H5 : Z.of_nat (length (chars "ab")) + 2 = 4) by reflexivity.
  refine (conj H1 (conj H2 (conj H3 (conj H4 (conj H5 _))))).
  exact (cstr_strncat_exact_fill_flag (H := esp32) (chars "ab") [NUL] 4
           (cstr (chars "cd")) 2 H1 H2 H3 H4 H5).
Defined.

(** The flag of [cstr_strncat] against what it kept: it is [true] exactly when
    [dest_len + src_len <= dest_max_size], while all [src_len] bytes are kept
    exactly when [dest_len + src_len <= dest_max_size - 1]. *)
Lemma cstr_strncat_flag `{Platform} (d r : list ascii) (dest_max_size : Z)
    (src : obj) (src_len : Z) :
  1 <= dest_max_size < 2 ^ size_bits ->
  NUL ∉ d -> Z.of_nat (length d) < dest_max_size ->
  dest_max_size <= Z.of_nat (length (d ++ NUL :: r)) ->
  0 <= src_len <= Z.of_nat (length src) -> src_len < 2 ^ size_bits ->
  exists dest',
    cstr_strncat (d ++ NUL :: r) dest_max_size src src_len
      = Ok (bool_decide (Z.of_nat (length d) + src_len <= dest_max_size), dest')
    /\ (Z.of_nat (length d) + src_len <= dest_max_size - 1 ->
        take (length d + Z.to_nat src_len + 1) dest'
          = d ++ take (Z.to_nat src_len) src ++ [NUL]).
Proof.
  intros Hcap Hd Hdl Hlen Hsrc Hsize.
  assert (Hdl0 : 0 <= Z.of_nat (length d)) by lia.
  eexists. split.
  - exact (cstr_strncat_spec dest_max_size (Z.of_nat (length d)) src_len src
             Hcap Hdl0 Hsrc Hsize d r Hd eq_refl Hdl Hlen).
  - intros Hfit.
    replace (Z.min src_len (dest_max_size - 1 - Z.of_nat (length d))) with src_len by lia.
    unfold overwrite. rewrite take_app_length.
    assert (Hb : length (take (Z.to_nat src_len) src ++ [NUL]) = (Z.to_nat src_len + 1)%nat).
    { rewrite length_app, length_take. cbn [length]. lia. }
    rewrite take_app_ge by lia.
    rewrite take_app_ge by lia. rewrite Hb.
    replace (length d + Z.to_nat src_len + 1 - length d - (Z.to_nat src_len + 1))%nat
      with 0%nat by lia.
    by rewrite take_0, app_nil_r.
Qed.

(** ** [json_get_element_string] *)

Lemma length_token_bytes (js : obj) (ofs : Z) (t : jsmntok_t) :
  token_in_text js ofs t ->
  Z.of_nat (length (token_bytes js ofs t)) = tok_end t - tok_start t.
Proof.
  intros (Hofs & Hse & Hend & Hint). unfold token_bytes.
  rewrite length_take, length_drop. lia.
Qed.

(** What [json_get_element_string] computes: the first
    [min (end - start) converted_str_len] bytes of the token, then zero bytes
    up to [converted_str_len]. *)
Lemma json_get_element_string_spec (js : obj) (ofs : Z) (t : jsmntok_t)
    (converted_str : obj) (converted_str_len : Z) :
  token_in_text js ofs t ->
  0 <= converted_str_len <= Z.of_nat (length converted_str) ->
  json_get_element_string js ofs t converted_str converted_str_len =
    Ok (take (Z.to_nat converted_str_len) (token_bytes js ofs t)
        ++ replicate (Z.to_nat (converted_str_len - (tok_end t - tok_start t))) NUL
        ++ drop (Z.to_nat converted_str_len) converted_str).
Proof.
  intros (Hofs & Hse & Hend & Hint) Hcap. unfold json_get_element_string.
  assert (H31 : 2 ^ 31 < 2 ^ 32) by reflexivity.
  rewrite uint32_small by lia. cbn zeta.
  set (len := tok_end t - tok_start t).
  assert (Hn : exists n, (if decide (len > converted_str_len) then converted_str_len else len) = n
                         /\ n = Z.min len converted_str_len).
  { eexists. split; [done|]. case_decide; lia. }
  destruct Hn as (n & -> & Hn).
  unfold memset. rewrite decide_True by lia. cbn [mbind result_bind].
  change (Z.to_nat 0) with 0%nat. rewrite take_0. cbn [app]. rewrite Z.add_0_l.
  unfold memcpy. rewrite decide_True; cycle 1.
  { rewrite length_app, length_replicate, length_drop. lia. }
  f_equal. change (Z.to_nat 0) with 0%nat. rewrite take_0. cbn [app]. rewrite Z.add_0_l.
  unfold token_bytes. fold len. rewrite take_take.
  replace (Z.to_nat converted_str_len `min` Z.to_nat len)%nat with (Z.to_nat n) by lia.
  f_equal.
  rewrite drop_app_le by (rewrite length_replicate; lia).
  rewrite drop_replicate. do 2 f_equal. lia.
Qed.

(** A token shorter than the output capacity is reproduced and terminated. *)
Lemma json_get_element_string_fits (js : obj) (ofs : Z) (t : jsmntok_t)
    (converted_str : obj) (converted_str_len : Z) :
  token_in_text js ofs t ->
  0 <= converted_str_len <= Z.of_nat (length converted_str) ->
  tok_end t - tok_start t < converted_str_len ->
  json_get_element_string js ofs t converted_str converted_str_len =
    Ok (token_bytes js ofs t
        ++ replicate (Z.to_nat (converted_str_len - (tok_end t - tok_start t))) NUL
        ++ drop (Z.to_nat converted_str_len) converted_str).
Proof.
  intros Htok Hcap Hlt. rewrite json_get_element_string_spec by done.
  pose proof (length_token_bytes _ _ _ Htok). by rewrite take_ge by lia.
Qed.

(** C2 (the code departs from the claim).  For a token of [converted_str_len]
    or more bytes, none of them zero, [json_get_element_string] fills the
    whole output with token bytes: the output holds the first
    [converted_str_len] bytes, not [converted_str_len - 1], and no terminator
    within its capacity. *)
Theorem json_get_element_string_unterminated (js : obj) (ofs : Z) (t : jsmntok_t)
    (converted_str : obj) (converted_str_len : Z) :
  token_in_text js ofs t ->
  0 < converted_str_len -> Z.of_nat (length converted_str) = converted_str_len ->
  converted_str_len <= tok_end t - tok_start t ->
  NUL ∉ token_bytes js ofs t ->
  json_get_element_string js ofs t converted_str converted_str_len =
    Ok (take (Z.to_nat converted_str_len) (token_bytes js ofs t))
  /\ ~ terminated_within (take (Z.to_nat converted_str_len) (token_bytes js ofs t))
         converted_str_len.
Proof.
  intros Htok Hpos Hlen Hge Hnul. split.
  - rewrite json_get_element_string_spec by (done || lia).
    replace (Z.to_nat (converted_str_len - (tok_end t - tok_start t))) with 0%nat by lia.
    rewrite drop_ge by lia. cbn [replicate app]. by rewrite app_nil_r.
  - intros (k & Hk & Hlook). apply Hnul.
    apply list_elem_of_lookup. exists k.
    rewrite lookup_take_lt in Hlook by lia. done.
Qed.

(** Membership in an explicit list of characters, decided by computation. *)
Ltac not_in_chars :=
  let Hin := fresh "Hin" in
  intros Hin; apply list_elem_of_In in Hin; vm_compute in Hin;
  repeat (destruct Hin as [Hin|Hin]; [discriminate Hin|]); exact Hin.

Lemma json_get_element_string_unterminated_witness :
  token_in_text sample_kv 0 sample_kv_value
  /\ 0 < 4
  /\ Z.of_nat (length (chars "????")) = 4
  /\ 4 <= tok_end sample_kv_value - tok_start sample_kv_value
  /\ (NUL ∉ token_bytes sample_kv 0 sample_kv_value)
  /\ json_get_element_string sample_kv 0 sample_kv_value (chars "????") 4
       = Ok (take (Z.to_nat 4) (token_bytes sample_kv 0 sample_kv_value))
  /\ ~ terminated_within (take (Z.to_nat 4) (token_bytes sample_kv 0 sample_kv_value)) 4.
Proof.
  assert (H1 : token_in_text sample_kv 0 sample_kv_value).
  { unfold token_in_text. vm_compute. repeat split; discriminate. }
  assert (H2 : 0 < 4) by reflexivity.
  assert (H3 : Z.of_nat (length (chars "????")) = 4) by reflexivity.
  assert (H4 : 4 <= tok_end sample_kv_value - tok_start sample_kv_value)
    by (vm_compute; discriminate).
  assert (H5 : NUL ∉ token_bytes sample_kv 0 sample_kv_value) by not_in_chars.
  refine (conj H1 (conj H2 (conj H3 (conj H4 (conj H5 _))))).
  exact (json_get_element_string_unterminated sample_kv 0 sample_kv_value (chars "????") 4
           H1 H2 H3 H4 H5).
Defined.

(** The output of the sample: the four bytes [wxyz] and nothing else. *)
Example json_get_element_string_sample :
  json_get_element_string sample_kv 0 sample_kv_value (chars "????") 4 = Ok (chars "wxyz").
Proof. reflexivity. Qed.

(** ** [strncmp] on a segment without terminator *)

Lemma nat_of_ascii_inj (c1 c2 : ascii) : nat_of_ascii c1 = nat_of_ascii c2 -> c1 = c2.
Proof.
  intros Heq. rewrite <- (ascii_nat_embedding c1), <- (ascii_nat_embedding c2).
  by rewrite Heq.
Qed.

Lemma strncmp_aux_eq (n : nat) (o1 : obj) (p1 : Z) (o2 : obj) (p2 : Z) :
  0 <= p1 -> 0 <= p2 ->
  p1 + Z.of_nat n <= Z.of_nat (length o1) -> p2 + Z.of_nat n <= Z.of_nat (length o2) ->
  NUL ∉ take n (drop (Z.to_nat p2) o2) ->
  exists r, strncmp_aux n o1 p1 o2 p2 = Ok r
            /\ (r = 0 <-> take n (drop (Z.to_nat p1) o1) = take n (drop (Z.to_nat p2) o2)).
Proof.
  revert p1 p2. induction n as [|n IH]; intros p1 p2 Hp1 Hp2 Hl1 Hl2 Hnul.
  - exists 0. by rewrite !take_0.
  - destruct (lookup_lt_is_Some_2 o1 (Z.to_nat p1) ltac:(lia)) as [c1 Hc1].
    destruct (lookup_lt_is_Some_2 o2 (Z.to_nat p2) ltac:(lia)) as [c2 Hc2].
    cbn [strncmp_aux].
    assert (load o1 p1 = Ok c1) as -> by (by apply load_Ok).
    assert (load o2 p2 = Ok c2) as -> by (by apply load_Ok).
    cbn [mbind result_bind].
    rewrite (drop_S o1 c1 _ Hc1), (drop_S o2 c2 _ Hc2) in *. cbn [take] in *.
    apply not_elem_of_cons in Hnul as [Hc2nul Hnul].
    replace (S (Z.to_nat p1)) with (Z.to_nat (p1 + 1)) in * by lia.
    replace (S (Z.to_nat p2)) with (Z.to_nat (p2 + 1)) in * by lia.
    destruct (decide (c1 = c2)) as [->|Hne].
    + rewrite decide_False by congruence.
      destruct (IH (p1 + 1) (p2 + 1)) as (r & -> & Hr); [lia..|done|].
      exists r. split; [done|]. rewrite Hr. split; [by intros -> | by intros [=]].
    + eexists. split; [done|]. split.
      * intros Hz. exfalso. apply Hne, nat_of_ascii_inj. lia.
      * intros [=]. done.
Qed.

(** ** [json_has_key] *)

Section HasKey.
Context `{Platform}.
Variables (js : obj) (ofs : Z) (tokens : list jsmntok_t) (num_tokens : Z) (k : list ascii).
Hypothesis Htokens : tokens_in_text js ofs tokens num_tokens.
Hypothesis Hk : NUL ∉ k.

(** One iteration decides [key_match] for the token at [i]. *)
Lemma json_has_key_loop_spec (n : nat) (i : Z) :
  0 <= i -> i + Z.of_nat n = num_tokens ->
  exists r, json_has_key_loop n js ofs tokens (cstr k) i = Ok r
    /\ ((r = 0 /\ forall j : nat, i <= Z.of_nat j < num_tokens -> ~ key_match js ofs tokens k j)
        \/ (i <= r < num_tokens /\ key_match js ofs tokens k (Z.to_nat r)
            /\ forall j : nat, i <= Z.of_nat j < r -> ~ key_match js ofs tokens k j)).
Proof.
  destruct Htokens as (Hnum & Hlen & Hwf). unfold cstr.
  revert i. induction n as [|n IH]; intros i Hi Hn.
  - exists 0. split; [done|]. left. split; [done|]. intros j Hj. lia.
  - cbn [json_has_key_loop].
    destruct (lookup_lt_is_Some_2 tokens (Z.to_nat i) ltac:(lia)) as [t Ht].
    rewrite Ht. cbn [of_option mbind result_bind].
    pose proof (Hwf (Z.to_nat i) t ltac:(lia) Ht) as Htok.
    pose proof (length_token_bytes _ _ _ Htok) as Hbytes.
    destruct Htok as (Hofs & Hse & Hend & Hint).
    assert (H31 : 2 ^ 31 < 2 ^ 32) by reflexivity.
    pose proof pow2_32_le_size as Hsz.
    rewrite (uint32_small (i + 1)) by lia.
    (* every path that goes on to the next token: no match at [i] *)
    assert (Hnext : ~ key_match js ofs tokens k (Z.to_nat i) ->
      exists r, json_has_key_loop n js ofs tokens (k ++ [NUL]) (i + 1) = Ok r
        /\ ((r = 0 /\ forall j : nat, i <= Z.of_nat j < num_tokens ->
                      ~ key_match js ofs tokens k j)
            \/ (i <= r < num_tokens /\ key_match js ofs tokens k (Z.to_nat r)
                /\ forall j : nat, i <= Z.of_nat j < r -> ~ key_match js ofs tokens k j))).
    { intros Hno. destruct (IH (i + 1)) as (r & Hr & Hcases); [lia..|].
      exists r. split; [done|].
      assert (Hat : forall j : nat, i = Z.of_nat j -> ~ key_match js ofs tokens k j).
      { intros j ->. by rewrite Nat2Z.id in Hno. }
      destruct Hcases as [[-> Hnone]|(Hr1 & Hm & Hbefore)]; [left|right].
      - split; [done|]. intros j Hj.
        destruct (decide (i = Z.of_nat j)) as [Heq|Hneq]; [by apply Hat|].
        apply Hnone. lia.
      - split; [lia|]. split; [done|]. intros j Hj.
        destruct (decide (i = Z.of_nat j)) as [Heq|Hneq]; [by apply Hat|].
        apply Hbefore. lia. }
    destruct (decide (tok_type t <> JSMN_STRING)) as [Hty|Hty].
    { apply Hnext. intros (t' & Ht' & Hs & _). congruence. }
    apply dec_stable in Hty.
    rewrite strlen_0 by done. cbn [mbind result_bind].
    rewrite uint32_small by lia.
    destruct (decide (Z.of_nat (length k) <> tok_end t - tok_start t)) as [Hlk|Hlk].
    { apply Hnext. intros (t' & Ht' & _ & Hl & _). congruence. }
    apply dec_stable in Hlk.
    rewrite size_t_small by lia. unfold strncmp.
    destruct (strncmp_aux_eq (Z.to_nat (tok_end t - tok_start t)) js (ofs + tok_start t)
                (k ++ [NUL]) 0) as (r & -> & Hr).
    { lia. } { lia. } { lia. }
    { rewrite length_app. cbn [length]. lia. }
    { change (Z.to_nat 0) with 0%nat. rewrite drop_0.
      rewrite take_app_length' by lia. done. }
    cbn [mbind result_bind].
    assert (Hkey : take (Z.to_nat (tok_end t - tok_start t)) (drop (Z.to_nat 0) (k ++ [NUL])) = k).
    { change (Z.to_nat 0) with 0%nat. rewrite drop_0.
      by rewrite take_app_length' by lia. }
    rewrite Hkey in Hr. fold (token_bytes js ofs t) in Hr.
    destruct (decide (r = 0)) as [Hz|Hnz].
    + exists i. split; [done|]. right. split; [lia|]. split; [|intros j Hj; lia].
      exists t. split; [done|]. split; [done|]. split; [lia|by apply Hr].
    + apply Hnext. intros (t' & Ht' & _ & _ & Hb).
      assert (t' = t) as -> by congruence. by apply Hnz, Hr.
Qed.

End HasKey.

(** C6.  On the tokens of a document whose token 0 is the root object,
    [json_has_key] returns the smallest index of a string-typed token whose
    byte length is that of the key and whose bytes are those of the key; that
    index is at least 1; it returns 0 when no token matches. *)
Theorem json_has_key_first_match `{Platform} (js : obj) (ofs : Z)
    (tokens : list jsmntok_t) (num_tokens : Z) (k : list ascii) (t0 : jsmntok_t) :
  tokens_in_text js ofs tokens num_tokens ->
  NUL ∉ k ->
  tokens !! 0%nat = Some t0 -> tok_type t0 = JSMN_OBJECT ->
  exists r, json_has_key js ofs tokens num_tokens (cstr k) = Ok r
    /\ ((r = 0 /\ forall i : nat, Z.of_nat i < num_tokens -> ~ key_match js ofs tokens k i)
        \/ (1 <= r < num_tokens /\ key_match js ofs tokens k (Z.to_nat r)
            /\ forall i : nat, (i < Z.to_nat r)%nat -> ~ key_match js ofs tokens k i)).
Proof.
  intros Htokens Hk Ht0 Hroot. unfold json_has_key.
  assert (Hnum : 0 <= num_tokens) by (destruct Htokens as (? & _); lia).
  destruct (json_has_key_loop_spec js ofs tokens num_tokens k Htokens Hk
              (Z.to_nat num_tokens) 0) as (r & Hr & Hcases); [lia..|].
  exists r. split; [done|].
  destruct Hcases as [[-> Hnone]|(Hr1 & Hm & Hbefore)]; [left|right].
  - split; [done|]. intros i Hi. apply Hnone. lia.
  - assert (r <> 0).
    { intros ->. destruct Hm as (t & Ht & Hs & _).
      change (Z.to_nat 0) with 0%nat in Ht. congruence. }
    split; [lia|]. split; [done|]. intros i Hi. apply Hbefore. lia.
Qed.

Lemma sample_dup_tokens_in_text : tokens_in_text sample_dup 0 sample_dup_tokens 7.
Proof.
  split; [split; [discriminate | reflexivity]|]. split; [vm_compute; discriminate|].
  intros i t Hi Ht.
  do 7 (destruct i as [|i];
        [injection Ht as <-; unfold token_in_text; vm_compute; repeat split; discriminate|]).
  lia.
Qed.

Lemma json_has_key_first_match_witness :
  tokens_in_text sample_dup 0 sample_dup_tokens 7
  /\ (NUL ∉ chars "a")
  /\ sample_dup_tokens !! 0%nat = Some (mk_tok JSMN_OBJECT 0 19)
  /\ tok_type (mk_tok JSMN_OBJECT 0 19) = JSMN_OBJECT
  /\ exists r, json_has_key sample_dup 0 sample_dup_tokens 7 (cstr (chars "a")) = Ok r
     /\ ((r = 0 /\ forall i : nat, Z.of_nat i < 7 ->
                   ~ key_match sample_dup 0 sample_dup_tokens (chars "a") i)
         \/ (1 <= r < 7 /\ key_match sample_dup 0 sample_dup_tokens (chars "a") (Z.to_nat r)
             /\ forall i : nat, (i < Z.to_nat r)%nat ->
                  ~ key_match sample_dup 0 sample_dup_tokens (chars "a") i)).
Proof.
  assert (H2 : NUL ∉ chars "a") by not_in_chars.
  refine (conj sample_dup_tokens_in_text (conj H2 (conj eq_refl (conj eq_refl _)))).
  exact (json_has_key_first_match (H := esp32) sample_dup 0 sample_dup_tokens 7 (chars "a")
           (mk_tok JSMN_OBJECT 0 19) sample_dup_tokens_in_text H2 eq_refl eq_refl).
Defined.

(** On the sample with a duplicated key the first match wins; an absent key
    gives 0. *)
Example json_has_key_sample_dup :
  json_has_key sample_dup 0 sample_dup_tokens 7 (cstr (chars "a")) = Ok 1
  /\ json_has_key sample_dup 0 sample_dup_tokens 7 (cstr (chars "b")) = Ok 3
  /\ json_has_key sample_dup 0 sample_dup_tokens 7 (cstr (chars "z")) = Ok 0.
Proof. repeat split; reflexivity. Qed.

(** ** [json_parse_str] *)

(** C8.  Whatever the tokenizer, [json_parse_str] returns 0 when the tokenizer
    reports a syntax error ([JSMN_ERROR_INVAL], [JSMN_ERROR_PART]), when it
    reports that more tokens are needed than the capacity allows
    ([JSMN_ERROR_NOMEM]), on any other count that is not positive, and when
    the top-level token is not an object; otherwise it returns the positive
    token count. *)
Theorem json_parse_str_result `{Tokenizer} (js : obj) (ofs json_str_len : Z)
    (json_tokens : list jsmntok_t) (json_tokens_len : Z)
    (n : Z) (json_tokens' : list jsmntok_t) :
  jsmn_parse js ofs json_str_len json_tokens json_tokens_len = Ok (n, json_tokens') ->
  n < 2 ^ 31 ->
  (0 < n -> is_Some (json_tokens' !! 0%nat)) ->
  exists r,
    json_parse_str js ofs json_str_len json_tokens json_tokens_len = Ok (r, json_tokens')
    /\ (n = JSMN_ERROR_INVAL \/ n = JSMN_ERROR_PART -> r = 0)
    /\ (n = JSMN_ERROR_NOMEM -> r = 0)
    /\ (n <= 0 -> r = 0)
    /\ (0 < n -> tok_type <$> json_tokens' !! 0%nat <> Some JSMN_OBJECT -> r = 0)
    /\ (0 < n -> tok_type <$> json_tokens' !! 0%nat = Some JSMN_OBJECT -> r = n /\ 0 < r).
Proof.
  intros Hparse Hint Hroot. unfold json_parse_str. rewrite Hparse.
  cbn [mbind result_bind]. unfold JSMN_ERROR_INVAL, JSMN_ERROR_PART, JSMN_ERROR_NOMEM.
  destruct (decide (n < 0)) as [Hneg|Hnneg].
  { exists 0. split; [done|]. split_and!; try done; intros; lia. }
  destruct (decide (n = 0)) as [Hz|Hnz].
  { exists 0. split; [done|]. split_and!; try done; intros; lia. }
  destruct Hroot as [t0 Ht0]; [lia|]. rewrite Ht0.
  cbn [of_option mbind result_bind fmap option_fmap option_map].
  assert (H31 : 2 ^ 31 < 2 ^ 32) by reflexivity.
  destruct (decide (tok_type t0 <> JSMN_OBJECT)) as [Hty|Hty].
  - exists 0. split; [done|]. split_and!; try done; try (intros; lia).
    intros _ [=]. done.
  - apply dec_stable in Hty. exists n. rewrite uint32_small by lia.
    split; [done|]. split_and!; try (intros; lia).
    intros _ Hne. exfalso. apply Hne. by rewrite Hty.
Qed.

Lemma json_parse_str_result_witness :
  @jsmn_parse sample_tokenizer sample_dup 0 19 (replicate 8 zero_tok) 8
    = Ok (7, sample_dup_tokens ++ [zero_tok])
  /\ 7 < 2 ^ 31
  /\ (0 < 7 -> is_Some ((sample_dup_tokens ++ [zero_tok]) !! 0%nat))
  /\ exists r,
       @json_parse_str sample_tokenizer sample_dup 0 19 (replicate 8 zero_tok) 8
         = Ok (r, sample_dup_tokens ++ [zero_tok])
       /\ (7 = JSMN_ERROR_INVAL \/ 7 = JSMN_ERROR_PART -> r = 0)
       /\ (7 = JSMN_ERROR_NOMEM -> r = 0)
       /\ (7 <= 0 -> r = 0)
       /\ (0 < 7 -> tok_type <$> (sample_dup_tokens ++ [zero_tok]) !! 0%nat
                    <> Some JSMN_OBJECT -> r = 0)
       /\ (0 < 7 -> tok_type <$> (sample_dup_tokens ++ [zero_tok]) !! 0%nat
                    = Some JSMN_OBJECT -> r = 7 /\ 0 < r).
Proof.
  assert (H1 : @jsmn_parse sample_tokenizer sample_dup 0 19 (replicate 8 zero_tok) 8
               = Ok (7, sample_dup_tokens ++ [zero_tok])) by reflexivity.
  assert (H2 : 7 < 2 ^ 31) by reflexivity.
  assert (H3 : 0 < 7 -> is_Some ((sample_dup_tokens ++ [zero_tok]) !! 0%nat))
    by (intros _; eexists; reflexivity).
  refine (conj H1 (conj H2 (conj H3 _))).
  exact (json_parse_str_result (H := sample_tokenizer) sample_dup 0 19 (replicate 8 zero_tok) 8
           7 (sample_dup_tokens ++ [zero_tok]) H1 H2 H3).
Defined.

(** The four outcomes on samples: an object is counted; a text the tokenizer
    rejects, a token array too small and a top-level array give 0. *)
Example json_parse_str_samples :
  (fst <$> @json_parse_str sample_tokenizer sample_dup 0 19 (replicate 8 zero_tok) 8) = Ok 7
  /\ (fst <$> @json_parse_str sample_tokenizer (cstr (chars "{oops")) 0 5
                (replicate 8 zero_tok) 8) = Ok 0
  /\ (fst <$> @json_parse_str sample_tokenizer sample_dup 0 19 (replicate 8 zero_tok) 4) = Ok 0
  /\ (fst <$> @json_parse_str sample_tokenizer sample_array 0 3 (replicate 8 zero_tok) 8) = Ok 0.
Proof. repeat split; reflexivity. Qed.

(** ** Reading an object through its lookups *)

Lemma lookup_overwrite_after (o : obj) (p x : nat) (bytes : list ascii) :
  (p <= length o)%nat -> (p + length bytes <= x)%nat ->
  overwrite o p bytes !! x = o !! x.
Proof.
  intros Hp Hx. unfold overwrite.
  rewrite lookup_app_r by (rewrite length_take; lia).
  rewrite lookup_app_r by (rewrite length_take; lia).
  rewrite lookup_drop, length_take. f_equal. lia.
Qed.

Lemma lookup_overwrite_before (o : obj) (p x : nat) (bytes : list ascii) :
  (x < p)%nat -> (p <= length o)%nat -> overwrite o p bytes !! x = o !! x.
Proof.
  intros Hx Hp. unfold overwrite.
  rewrite lookup_app_l by (rewrite length_take; lia).
  by rewrite lookup_take_lt.
Qed.

Lemma strlen_lookup (o : obj) (p n : nat) :
  (forall j : nat, (j < n)%nat -> exists c, o !! (p + j)%nat = Some c /\ c <> NUL) ->
  o !! (p + n)%nat = Some NUL ->
  strlen o (Z.of_nat p) = Ok (Z.of_nat n).
Proof.
  intros Hbody Hend.
  assert (Hlen : (p + n < length o)%nat) by (by eapply lookup_lt_Some).
  assert (Hsplit : o = take p o ++ take n (drop p o) ++ NUL :: drop (S n) (drop p o)).
  { rewrite <- (drop_S (drop p o) NUL n) by (by rewrite lookup_drop).
    by rewrite !take_drop. }
  assert (Hnul : NUL ∉ take n (drop p o)).
  { intros (j & Hj & Hlt)%elem_of_take. rewrite lookup_drop in Hj.
    destruct (Hbody j Hlt) as (c & Hc & Hne). congruence. }
  rewrite Hsplit.
  replace (Z.of_nat p) with (Z.of_nat (length (take p o))) by (rewrite length_take; lia).
  rewrite strlen_app by done. f_equal. rewrite length_take, length_drop. lia.
Qed.

(** ** [strncmp] against a literal, inside a string *)

Lemma strncmp_aux_string (pre s post npre nrest : list ascii) (j : nat) :
  NUL ∉ s -> NUL ∉ nrest -> (j <= length s)%nat ->
  exists r,
    strncmp_aux (length nrest) (pre ++ s ++ NUL :: post) (Z.of_nat (length pre + j))
      (npre ++ nrest ++ [NUL]) (Z.of_nat (length npre)) = Ok r
    /\ (r = 0 <-> take (length nrest) (drop j s) = nrest).
Proof.
  intros Hs. revert npre j. induction nrest as [|c2 nrest IH]; intros npre j Hn Hj.
  - exists 0. by rewrite take_0.
  - apply not_elem_of_cons in Hn as [Hc2 Hn]. cbn [length strncmp_aux].
    assert (load (npre ++ (c2 :: nrest) ++ [NUL]) (Z.of_nat (length npre)) = Ok c2) as ->.
    { apply load_nat. by rewrite lookup_app_r, Nat.sub_diag by lia. }
    destruct (decide (j = length s)) as [->|Hlt].
    + (* the pointer is at the terminator of the string *)
      assert (load (pre ++ s ++ NUL :: post) (Z.of_nat (length pre + length s)) = Ok NUL) as ->.
      { apply load_nat. rewrite lookup_app_r by lia.
        rewrite lookup_app_r by lia.
        by replace (length pre + length s - length pre - length s)%nat with 0%nat by lia. }
      cbn [mbind result_bind]. rewrite decide_False by congruence.
      eexists. split; [done|]. rewrite drop_all, take_nil. split; [|done].
      intros Hz. exfalso. apply Hc2. symmetry. apply nat_of_ascii_inj. lia.
    + destruct (lookup_lt_is_Some_2 s j ltac:(lia)) as [c1 Hc1].
      assert (load (pre ++ s ++ NUL :: post) (Z.of_nat (length pre + j)) = Ok c1) as ->.
      { apply load_nat. rewrite lookup_app_r by lia.
        rewrite lookup_app_l by lia. rewrite <- Hc1. f_equal. lia. }
      cbn [mbind result_bind]. rewrite (drop_S s c1 j Hc1). cbn [take].
      destruct (decide (c1 = c2)) as [->|Hne].
      * assert (c2 <> NUL) by congruence. rewrite decide_False by done.
        destruct (IH (npre ++ [c2]) (S j) Hn ltac:(lia)) as (r & Hr & Hiff).
        exists r. split.
        -- rewrite <- Hr. rewrite <- (app_assoc npre [c2]). rewrite length_app. cbn [length app].
           f_equal; lia.
        -- rewrite Hiff. split; [by intros -> | by intros [=]].
      * eexists. split; [done|]. split; [|by intros [=]].
        intros Hz. exfalso. apply Hne, nat_of_ascii_inj. lia.
Qed.

Lemma strncmp_string (pre s post needle : list ascii) (j : nat) :
  NUL ∉ s -> NUL ∉ needle -> (j <= length s)%nat ->
  exists r,
    strncmp (pre ++ s ++ NUL :: post) (Z.of_nat (length pre + j)) (cstr needle) 0
      (Z.of_nat (length needle)) = Ok r
    /\ (r = 0 <-> take (length needle) (drop j s) = needle).
Proof.
  intros Hs Hn Hj. unfold strncmp, cstr. rewrite Nat2Z.id.
  exact (strncmp_aux_string pre s post [] needle j Hs Hn Hj).
Qed.

(** ** [cstr_get_substr_pos_end] finds the first occurrence *)

Lemma find_after_short (needle s : list ascii) :
  (length s < length needle)%nat -> find_after needle s = None.
Proof.
  induction s as [|c s IH]; intros Hlen; cbn [find_after].
  - rewrite bool_decide_eq_false_2; [done|].
    rewrite take_nil. intros <-. simpl in Hlen. lia.
  - rewrite bool_decide_eq_false_2.
    + rewrite IH by (simpl in Hlen; lia). done.
    + intros Heq. apply (f_equal length) in Heq. rewrite length_take in Heq. lia.
Qed.

Lemma find_after_drop (needle s : list ascii) (i : nat) (c : ascii) :
  s !! i = Some c -> take (length needle) (drop i s) <> needle ->
  find_after needle (drop i s) = S <$> find_after needle (drop (S i) s).
Proof.
  intros Hc Hne. rewrite (drop_S s c i Hc) in *. cbn [find_after].
  by rewrite bool_decide_eq_false_2.
Qed.

Lemma find_after_here (needle s : list ascii) :
  take (length needle) s = needle -> find_after needle s = Some (length needle).
Proof. intros Heq. destruct s; cbn [find_after]; by rewrite bool_decide_eq_true_2. Qed.

(** [find_after] gives the end of an occurrence of the needle, and no
    occurrence starts before that one. *)
Lemma find_after_first (needle s : list ascii) (k : nat) :
  find_after needle s = Some k ->
  exists i : nat,
    k = (i + length needle)%nat
    /\ take (length needle) (drop i s) = needle
    /\ forall j : nat, (j < i)%nat -> take (length needle) (drop j s) <> needle.
Proof.
  revert k. induction s as [|c s IH]; intros k; cbn [find_after].
  - case_bool_decide as Hhere; [|done]. intros [= <-].
    exists 0%nat. split; [done|]. split; [done|]. intros j Hj. lia.
  - case_bool_decide as Hhere.
    + intros [= <-]. exists 0%nat. split; [done|]. split; [done|]. intros j Hj. lia.
    + destruct (find_after needle s) as [k'|]; [|done]. intros [= <-].
      destruct (IH k' eq_refl) as (i & -> & Hocc & Hfirst).
      exists (S i). split; [done|]. split; [done|].
      intros [|j] Hj; [done|]. apply Hfirst. lia.
Qed.

Section FindAfter.
Context `{Platform}.
Variables (pre s post needle : list ascii).
Hypothesis Hs : NUL ∉ s.
Hypothesis Hneedle : NUL ∉ needle.
Hypothesis Hsize : Z.of_nat (length s) < 2 ^ 31.
Hypothesis Hneedle_size : Z.of_nat (length needle) < 2 ^ 31.

Lemma cstr_get_substr_pos_end_loop_spec (fuel i : nat) :
  (i <= length s)%nat -> (length s - i < fuel)%nat ->
  cstr_get_substr_pos_end_loop fuel (pre ++ s ++ NUL :: post) (Z.of_nat (length pre + i))
    (Z.of_nat (length s)) (cstr needle) (Z.of_nat (length needle)) (Z.of_nat i)
  = Ok (match find_after needle (drop i s) with
        | Some k => Z.of_nat (i + k)
        | None => -1
        end).
Proof.
  assert (H31 : 2 ^ 31 < 2 ^ 32) by reflexivity.
  pose proof pow2_32_le_size as Hsz.
  revert i. induction fuel as [|fuel IH]; intros i Hi Hfuel; [lia|].
  cbn [cstr_get_substr_pos_end_loop].
  destruct (decide (Z.of_nat i + Z.of_nat (length needle) <= Z.of_nat (length s)))
    as [Hfit|Hnofit].
  - rewrite size_t_small by lia. rewrite decide_True by done.
    destruct (strncmp_string pre s post needle i Hs Hneedle Hi) as (r & -> & Hr).
    cbn [mbind result_bind].
    destruct (decide (r = 0)) as [Hz|Hnz].
    + rewrite int32_small by lia.
      rewrite find_after_here by (by apply Hr). f_equal. lia.
    + assert (Hne : take (length needle) (drop i s) <> needle) by (by rewrite <- Hr).
      assert (Hlt : (i < length s)%nat).
      { destruct (decide (i = length s)) as [->|]; [|lia].
        exfalso. apply Hne. rewrite drop_all, take_nil.
        destruct needle; [done | simpl in Hfit; lia]. }
      destruct (lookup_lt_is_Some_2 s i Hlt) as [c Hc].
      rewrite (find_after_drop needle s i c Hc Hne).
      rewrite (size_t_small (Z.of_nat i + 1)) by lia.
      replace (Z.of_nat (length pre + i) + 1) with (Z.of_nat (length pre + S i)) by lia.
      replace (Z.of_nat i + 1) with (Z.of_nat (S i)) by lia.
      rewrite IH by lia.
      destruct (find_after needle (drop (S i) s)) as [k|]; cbn [fmap option_fmap option_map];
        [f_equal; lia | done].
  - rewrite size_t_small by lia. rewrite decide_False by done.
    rewrite find_after_short by (rewrite length_drop; lia). done.
Qed.

(** On a string of [s] inside an object, [cstr_get_substr_pos_end] returns the
    offset just after the first occurrence of the needle, or -1. *)
Lemma cstr_get_substr_pos_end_spec :
  cstr_get_substr_pos_end (pre ++ s ++ NUL :: post) (Z.of_nat (length pre))
    (Z.of_nat (length s)) (cstr needle) (Z.of_nat (length needle))
  = Ok (match find_after needle s with
        | Some k => Z.of_nat k
        | None => -1
        end).
Proof.
  unfold cstr_get_substr_pos_end.
  pose proof (cstr_get_substr_pos_end_loop_spec (S (Z.to_nat (Z.of_nat (length s)))) 0
                ltac:(lia) ltac:(lia)) as Hloop.
  rewrite Nat.add_0_r, drop_0 in Hloop. exact Hloop.
Qed.

End FindAfter.

Lemma find_after_bounds (needle s : list ascii) (k : nat) :
  find_after needle s = Some k -> (length needle <= k <= length s)%nat.
Proof.
  revert k. induction s as [|c s IH]; intros k; cbn [find_after].
  - case_bool_decide as Heq; [|done]. intros [= <-].
    rewrite take_nil in Heq. subst. simpl. lia.
  - case_bool_decide as Heq.
    + intros [= <-]. apply (f_equal length) in Heq. rewrite length_take in Heq. lia.
    + destruct (find_after needle s) as [k'|]; [|done].
      intros [= <-]. specialize (IH k' eq_refl). simpl. lia.
Qed.

(** ** The in-place move at the end of [tlg_get] and [tlg_post] *)

Section MoveLoop.
Variables (pre s post : list ascii).
Hypothesis Hs : NUL ∉ s.
Hypothesis Hsize : Z.of_nat (length (pre ++ s ++ NUL :: post)) < 2 ^ 32.

Let o0 : obj := pre ++ s ++ NUL :: post.

Lemma lookup_source (j : nat) :
  (j <= length s)%nat -> o0 !! (length pre + j)%nat = (s ++ [NUL]) !! j.
Proof.
  intros Hj. unfold o0. rewrite lookup_app_r by lia.
  replace (length pre + j - length pre)%nat with j by lia.
  destruct (decide (j = length s)) as [->|Hlt].
  - rewrite !lookup_app_r by lia. by rewrite Nat.sub_diag.
  - by rewrite !lookup_app_l by lia.
Qed.

Lemma lookup_moved (i x : nat) :
  (i <= length s)%nat ->
  overwrite o0 0 (take i s) !! x = if decide (x < i)%nat then s !! x else o0 !! x.
Proof.
  intros Hi. case_decide as Hx.
  - rewrite <- (Nat.add_0_l x) at 1.
    rewrite lookup_overwrite_at by (rewrite ?length_take; lia).
    by rewrite lookup_take_lt.
  - apply lookup_overwrite_after; rewrite ?length_take; lia.
Qed.

(** The string being read keeps its length while its bytes are written over
    the start of the same object, overlapping or not. *)
Lemma strlen_moved (i : nat) :
  (i <= length s)%nat ->
  strlen (overwrite o0 0 (take i s)) (Z.of_nat (length pre)) = Ok (Z.of_nat (length s)).
Proof.
  intros Hi. apply strlen_lookup.
  - intros j Hj. rewrite lookup_moved by done. case_decide as Hx.
    + destruct (lookup_lt_is_Some_2 s (length pre + j) ltac:(lia)) as [c Hc].
      exists c. split; [done|]. intros ->. apply Hs. by eapply list_elem_of_lookup_2.
    + rewrite lookup_source by lia. rewrite lookup_app_l by lia.
      destruct (lookup_lt_is_Some_2 s j Hj) as [c Hc].
      exists c. split; [done|]. intros ->. apply Hs. by eapply list_elem_of_lookup_2.
  - rewrite lookup_moved by done. rewrite decide_False by lia.
    rewrite lookup_source by lia. by rewrite lookup_app_r, Nat.sub_diag by lia.
Qed.

Lemma tlg_move_loop_spec (fuel i : nat) :
  (i <= length s)%nat -> (length s - i <= fuel)%nat ->
  tlg_move_loop fuel (overwrite o0 0 (take i s)) 0 (Z.of_nat (length pre)) (Z.of_nat i)
  = Ok (Z.of_nat (length s), overwrite o0 0 s).
Proof.
  assert (Hlen0 : length o0 = (length pre + length s + S (length post))%nat).
  { unfold o0. rewrite !length_app. cbn [length]. lia. }
  revert i. induction fuel as [|fuel IH]; intros i Hi Hfuel.
  - cbn [tlg_move_loop]. rewrite strlen_moved by done. cbn [mbind result_bind].
    rewrite decide_False by lia. assert (i = length s) as -> by lia.
    by rewrite take_ge by lia.
  - cbn [tlg_move_loop]. rewrite strlen_moved by done. cbn [mbind result_bind].
    destruct (decide (Z.of_nat i < Z.of_nat (length s))) as [Hlt|Hge].
    + destruct (lookup_lt_is_Some_2 s i ltac:(lia)) as [c Hc].
      assert (load (overwrite o0 0 (take i s)) (Z.of_nat (length pre) + Z.of_nat i) = Ok c) as ->.
      { rewrite <- Nat2Z.inj_add. apply load_nat. rewrite lookup_moved by done.
        rewrite decide_False by lia. rewrite lookup_source by lia.
        by rewrite lookup_app_l by lia. }
      cbn [mbind result_bind]. rewrite Z.add_0_l.
      rewrite store_nat by (rewrite length_overwrite; rewrite ?length_take; fold o0; lia).
      cbn [mbind result_bind].
      replace i with (0 + length (take i s))%nat at 1 by (rewrite length_take; lia).
      rewrite overwrite_snoc by (rewrite length_take; fold o0; lia).
      rewrite <- (take_S_r s i c Hc).
      rewrite uint32_small by (unfold o0 in Hlen0; lia).
      replace (Z.of_nat i + 1) with (Z.of_nat (S i)) by lia.
      apply IH; lia.
    + assert (i = length s) as -> by lia. by rewrite take_ge by lia.
Qed.

End MoveLoop.

(** ** [tlg_unwrap] against the unwrapping steps on lists *)

Lemma NUL_not_in_drop (s : list ascii) (n : nat) : NUL ∉ s -> NUL ∉ drop n s.
Proof. intros Hs Hin. apply Hs. by apply (subseteq_drop n s). Qed.

Lemma lit_crlfcrlf_no_NUL : NUL ∉ lit_crlfcrlf.
Proof. not_in_chars. Qed.
Lemma lit_ok_no_NUL : NUL ∉ lit_ok.
Proof. not_in_chars. Qed.
Lemma lit_result_no_NUL : NUL ∉ lit_result.
Proof. not_in_chars. Qed.
Lemma lit_true_no_NUL : NUL ∉ lit_true.
Proof. not_in_chars. Qed.

Section UnwrapSpec.
Context `{Platform}.
Variables (text : list ascii) (last : ascii) (pad : list ascii).
Hypothesis Htext : NUL ∉ text.
Hypothesis Hlast : last <> NUL.
Hypothesis Hsize : Z.of_nat (length (text ++ last :: NUL :: pad)) < 2 ^ 31.

(** The buffer as received, and once its last character is removed. *)
Let response : obj := text ++ last :: NUL :: pad.
Let response1 : obj := text ++ NUL :: NUL :: pad.

Lemma response1_split (p : nat) :
  response1 = take p text ++ drop p text ++ NUL :: NUL :: pad.
Proof. unfold response1. by rewrite app_assoc, take_drop. Qed.

Lemma tlg_unwrap_spec (response_len : Z) :
  tlg_unwrap response response_len =
    match unwrap_spec text with
    | Payload payload => Ok (true, overwrite response1 0 (payload ++ [NUL]))
    | Rejected p =>
      cleared ← memset response1 (Z.of_nat p) NUL response_len; Ok (false, cleared)
    end.
Proof.
  assert (H31 : 2 ^ 31 < 2 ^ 32) by reflexivity.
  pose proof pow2_32_le_size as Hsz.
  assert (Hlen : length response = (length text + S (S (length pad)))%nat).
  { unfold response. rewrite length_app. cbn [length]. lia. }
  assert (Hlen1 : length response1 = (length text + S (S (length pad)))%nat).
  { unfold response1. rewrite length_app. cbn [length]. lia. }
  fold response in Hsize.
  unfold tlg_unwrap.
  (* Remove last character *)
  assert (strlen response 0 = Ok (Z.of_nat (length text) + 1)) as ->.
  { unfold response.
    replace (text ++ last :: NUL :: pad) with ((text ++ [last]) ++ NUL :: pad)
      by (by rewrite <- app_assoc).
    rewrite strlen_0.
    - rewrite length_app. cbn [length]. f_equal. lia.
    - intros [Hin|Hin]%elem_of_app; [done|]. apply list_elem_of_singleton in Hin. done. }
  cbn [mbind result_bind].
  rewrite size_t_small by lia.
  replace (Z.of_nat (length text) + 1 - 1) with (Z.of_nat (length text)) by lia.
  rewrite store_nat by lia. cbn [mbind result_bind].
  assert (<[length text := NUL]> response = response1) as ->.
  { unfold response, response1.
    replace (length text) with (length text + 0)%nat at 1 by lia.
    by rewrite insert_app_r. }
  (* Check and remove response header *)
  assert (strlen response1 0 = Ok (Z.of_nat (length text))) as ->
    by (by apply strlen_0).
  cbn [mbind result_bind].
  change (strlen (cstr lit_crlfcrlf) 0) with (Ok (Z.of_nat (length lit_crlfcrlf))).
  cbn [mbind result_bind].
  pose proof (cstr_get_substr_pos_end_spec [] text (NUL :: pad) lit_crlfcrlf Htext
                lit_crlfcrlf_no_NUL ltac:(lia) ltac:(reflexivity)) as Hfind1.
  cbn [app length] in Hfind1. change (Z.of_nat 0) with 0 in Hfind1.
  fold response1 in Hfind1. rewrite Hfind1. clear Hfind1.
  cbn [mbind result_bind]. unfold unwrap_spec.
  destruct (find_after lit_crlfcrlf text) as [p1|] eqn:Hp1; [|by rewrite decide_True by done].
  rewrite decide_False by lia. rewrite Z.add_0_l.
  apply find_after_bounds in Hp1.
  (* Check for and get request "ok" response key *)
  assert (Hstr : forall p : nat, (p <= length text)%nat ->
            strlen response1 (Z.of_nat p) = Ok (Z.of_nat (length (drop p text)))).
  { intros p Hp. rewrite (response1_split p).
    replace (Z.of_nat p) with (Z.of_nat (length (take p text))) by (rewrite length_take; lia).
    apply strlen_app. by apply NUL_not_in_drop. }
  assert (Hfind : forall (p : nat) (needle : list ascii), (p <= length text)%nat ->
            NUL ∉ needle -> Z.of_nat (length needle) < 2 ^ 31 ->
            cstr_get_substr_pos_end response1 (Z.of_nat p) (Z.of_nat (length (drop p text)))
              (cstr needle) (Z.of_nat (length needle))
            = Ok (match find_after needle (drop p text) with
                  | Some k => Z.of_nat k
                  | None => -1
                  end)).
  { intros p needle Hp Hn Hnsize.
    pose proof (cstr_get_substr_pos_end_spec (take p text) (drop p text) (NUL :: pad) needle
                  (NUL_not_in_drop _ _ Htext) Hn
                  ltac:(rewrite length_drop; lia) Hnsize) as Hf.
    rewrite <- (response1_split p) in Hf.
    rewrite length_take in Hf. by replace (p `min` length text)%nat with p in Hf by lia. }
  rewrite Hstr by lia. cbn [mbind result_bind].
  change (strlen (cstr lit_ok) 0) with (Ok (Z.of_nat (length lit_ok))).
  cbn [mbind result_bind].
  rewrite Hfind by (lia || apply lit_ok_no_NUL || reflexivity).
  cbn [mbind result_bind].
  destruct (find_after lit_ok (drop p1 text)) as [q2|] eqn:Hq2; [|by rewrite decide_True by done].
  rewrite decide_False by lia.
  apply find_after_bounds in Hq2. rewrite length_drop in Hq2.
  rewrite <- Nat2Z.inj_add.
  (* Check if request "ok" response value is "true" *)
  change (strlen (cstr lit_true) 0) with (Ok (Z.of_nat (length lit_true))).
  cbn [mbind result_bind].
  destruct (strncmp_string [] text (NUL :: pad) lit_true (p1 + q2) Htext lit_true_no_NUL
              ltac:(lia)) as (cmp & Hcmp & Hiff).
  cbn [app length] in Hcmp. rewrite Nat.add_0_l in Hcmp.
  fold response1 in Hcmp. rewrite Hcmp. clear Hcmp. cbn [mbind result_bind].
  change (length lit_true) with 4%nat in Hiff.
  destruct (decide (cmp <> 0)) as [Hne|Heq].
  { rewrite bool_decide_eq_false_2; [done|]. by rewrite <- Hiff. }
  apply dec_stable in Heq. rewrite bool_decide_eq_true_2 by (by apply Hiff).
  (* Remove root json response and just keep "result" attribute json value *)
  rewrite Hstr by lia. cbn [mbind result_bind].
  change (strlen (cstr lit_result) 0) with (Ok (Z.of_nat (length lit_result))).
  cbn [mbind result_bind].
  rewrite Hfind by (lia || apply lit_result_no_NUL || reflexivity).
  cbn [mbind result_bind].
  destruct (find_after lit_result (drop (p1 + q2) text)) as [q3|] eqn:Hq3;
    [|by rewrite decide_True by done].
  rewrite decide_False by lia.
  apply find_after_bounds in Hq3. rewrite length_drop in Hq3.
  rewrite <- Nat2Z.inj_add.
  (* Move each byte to initial response address positions *)
  set (p3 := (p1 + q2 + q3)%nat).
  pose proof (tlg_move_loop_spec (take p3 text) (drop p3 text) (NUL :: pad)
                (NUL_not_in_drop _ _ Htext)) as Hmove.
  rewrite <- (response1_split p3) in Hmove.
  specialize (Hmove ltac:(lia) (length response1) 0%nat ltac:(lia)
                ltac:(rewrite length_drop; lia)).
  rewrite take_0, overwrite_nil in Hmove.
  rewrite length_take in Hmove. replace (p3 `min` length text)%nat with p3 in Hmove by lia.
  change (Z.of_nat 0) with 0 in Hmove. rewrite Hmove. clear Hmove.
  cbn [mbind result_bind]. rewrite Z.add_0_l.
  rewrite store_nat by (rewrite length_overwrite; rewrite ?length_drop; lia).
  cbn [mbind result_bind].
  replace (length (drop p3 text)) with (0 + length (drop p3 text))%nat at 1 by lia.
  rewrite overwrite_snoc by (rewrite length_drop; lia).
  done.
Qed.

End UnwrapSpec.

(** ** Rejected requests *)

(** C4 (the code departs from the claim).  When the first ["ok":] marker
    after the header is not followed by [true], [tlg_unwrap] clears
    [response_len] bytes starting at the marker's value, where its local
    pointer stands, not at the start of the buffer: on a buffer object of
    exactly [response_len] bytes the [memset] runs past the end of the
    object, so the call does not end with a cleared buffer and a false
    result. *)
Theorem tlg_unwrap_rejected_overruns `{Platform} (text : list ascii) (last : ascii)
    (pad : list ascii) (response_len : Z) (p1 q2 : nat) :
  NUL ∉ text -> last <> NUL ->
  Z.of_nat (length (text ++ last :: NUL :: pad)) < 2 ^ 31 ->
  find_after lit_crlfcrlf text = Some p1 ->
  find_after lit_ok (drop p1 text) = Some q2 ->
  take 4 (drop (p1 + q2) text) <> lit_true ->
  Z.of_nat (length (text ++ last :: NUL :: pad)) = response_len ->
  tlg_unwrap (text ++ last :: NUL :: pad) response_len = Fault.
Proof.
  intros Htext Hlast Hsize Hp1 Hq2 Hnot Hexact.
  rewrite (tlg_unwrap_spec text last pad Htext Hlast Hsize).
  unfold unwrap_spec. rewrite Hp1, Hq2. cbn zeta.
  rewrite bool_decide_eq_false_2 by done.
  apply find_after_bounds in Hp1. apply find_after_bounds in Hq2.
  change (length lit_crlfcrlf) with 4%nat in Hp1.
  rewrite !length_app in *. cbn [length] in *.
  unfold memset. rewrite decide_False; [done|].
  rewrite length_app. cbn [length]. lia.
Qed.

Lemma tlg_unwrap_rejected_overruns_witness :
  (NUL ∉ removelast rejected_response)
  /\ "}"%char <> NUL
  /\ Z.of_nat (length (removelast rejected_response ++ "}"%char :: NUL :: [])) < 2 ^ 31
  /\ find_after lit_crlfcrlf (removelast rejected_response) = Some 19%nat
  /\ find_after lit_ok (drop 19 (removelast rejected_response)) = Some 6%nat
  /\ take 4 (drop (19 + 6) (removelast rejected_response)) <> lit_true
  /\ Z.of_nat (length (removelast rejected_response ++ "}"%char :: NUL :: [])) = 61
  /\ tlg_unwrap (removelast rejected_response ++ "}"%char :: NUL :: []) 61 = Fault.
Proof.
  assert (H1 : NUL ∉ removelast rejected_response) by not_in_chars.
  assert (H2 : "}"%char <> NUL) by discriminate.
  assert (H3 : Z.of_nat (length (removelast rejected_response ++ "}"%char :: NUL :: []))
               < 2 ^ 31) by reflexivity.
  assert (H4 : find_after lit_crlfcrlf (removelast rejected_response) = Some 19%nat)
    by (vm_compute; reflexivity).
  assert (H5 : find_after lit_ok (drop 19 (removelast rejected_response)) = Some 6%nat)
    by (vm_compute; reflexivity).
  assert (H6 : take 4 (drop (19 + 6) (removelast rejected_response)) <> lit_true)
    by (vm_compute; discriminate).
  assert (H7 : Z.of_nat (length (removelast rejected_response ++ "}"%char :: NUL :: [])) = 61)
    by reflexivity.
  refine (conj H1 (conj H2 (conj H3 (conj H4 (conj H5 (conj H6 (conj H7 _))))))).
  exact (tlg_unwrap_rejected_overruns (H := esp32) (removelast rejected_response)
           "}"%char [] 61 19 6 H1 H2 H3 H4 H5 H6 H7).
Defined.

(** Where the object is long enough for the [memset], the function returns
    false and the bytes before the marker's value, header included, are kept. *)
Lemma tlg_unwrap_rejected_keeps_header `{Platform} (text : list ascii) (last : ascii)
    (pad : list ascii) (response_len : Z) (p1 q2 : nat) :
  NUL ∉ text -> last <> NUL ->
  Z.of_nat (length (text ++ last :: NUL :: pad)) < 2 ^ 31 ->
  find_after lit_crlfcrlf text = Some p1 ->
  find_after lit_ok (drop p1 text) = Some q2 ->
  take 4 (drop (p1 + q2) text) <> lit_true ->
  0 <= response_len ->
  Z.of_nat (p1 + q2) + response_len <= Z.of_nat (length (text ++ last :: NUL :: pad)) ->
  exists cleared,
    tlg_unwrap (text ++ last :: NUL :: pad) response_len = Ok (false, cleared)
    /\ take (p1 + q2) cleared = take (p1 + q2) text
    /\ (0 < p1 + q2)%nat.
Proof.
  intros Htext Hlast Hsize Hp1 Hq2 Hnot Hpos Hroom.
  rewrite (tlg_unwrap_spec text last pad Htext Hlast Hsize).
  unfold unwrap_spec. rewrite Hp1, Hq2. cbn zeta.
  rewrite bool_decide_eq_false_2 by done.
  apply find_after_bounds in Hp1. apply find_after_bounds in Hq2.
  rewrite length_drop in Hq2. change (length lit_crlfcrlf) with 4%nat in Hp1.
  rewrite !length_app in *. cbn [length] in *.
  unfold memset. rewrite decide_True by (rewrite length_app; cbn [length]; lia).
  cbn [mbind result_bind]. eexists. split; [done|]. split; [|lia].
  rewrite Nat2Z.id. rewrite take_app_le by (rewrite length_take, length_app; lia).
  rewrite take_take, Nat.min_id. rewrite take_app_le by lia. done.
Qed.

(** The rejected sample in a buffer of exactly its 61 bytes, and in an object
    with 61 more bytes after them: there the header is still in place and
    zero bytes reach 25 bytes past the declared size. *)
Example tlg_unwrap_rejected_sample :
  tlg_unwrap (rejected_response ++ [NUL]) 61 = Fault
  /\ exists cleared,
       tlg_unwrap (rejected_response ++ [NUL] ++ replicate 61 "?"%char) 61 = Ok (false, cleared)
       /\ take 25 cleared = status_line ++ [CR; LF] ++ chars "{" ++ quoted "ok" ++ chars ":"
       /\ drop 25 cleared = replicate 61 NUL ++ replicate 36 "?"%char.
Proof.
  split; [vm_compute; reflexivity|].
  eexists. split; [vm_compute; reflexivity|]. split; reflexivity.
Qed.

(** ** The example of the specification *)

Lemma find_after_occurs (needle a b : list ascii) :
  exists k, find_after needle (a ++ needle ++ b) = Some k
            /\ (k <= length a + length needle)%nat.
Proof.
  induction a as [|x a IH].
  - exists (length needle). split; [|simpl; lia].
    apply find_after_here. cbn [app]. by rewrite take_app_length.
  - cbn [app find_after]. case_bool_decide.
    + exists (length needle). split; [done | simpl; lia].
    + destruct IH as (k & -> & Hk). exists (S k). split; [done | simpl; lia].
Qed.

Lemma find_after_skip (c : ascii) (needle a b : list ascii) :
  c ∉ a ->
  find_after (c :: needle) (a ++ b) = (fun k => (length a + k)%nat) <$> find_after (c :: needle) b.
Proof.
  induction a as [|x a IH]; intros Hc.
  - cbn [app length]. by destruct (find_after (c :: needle) b).
  - apply not_elem_of_cons in Hc as [Hx Hc].
    cbn [app]. change (find_after (c :: needle) (x :: a ++ b)) with
      (if bool_decide (take (length (c :: needle)) (x :: a ++ b) = c :: needle)
       then Some (length (c :: needle))
       else S <$> find_after (c :: needle) (a ++ b)).
    rewrite bool_decide_eq_false_2 by (cbn [length take]; intros [=]; congruence).
    rewrite IH by done. by destruct (find_after (c :: needle) b).
Qed.

(** C3, as the code has it.  For the buffer holding exactly
    [HTTP/1.1 200 OK\r\n...\r\n\r\n{"ok":true,"result":{"id":1,"first_name":"B"}}]
    and its terminator (the header lines [hdr] free of zero bytes and double
    quotes, and nothing between the closing brace of the envelope and the
    terminator), the unwrapping leaves [{"id":1,"first_name":"B"}] at offset
    0 of the same buffer, terminated: the last character that the unwrapper
    removes is the closing brace of the envelope.  The move is in place and
    the payload may overlap its destination. *)
Theorem tlg_unwrap_example `{Platform} (hdr pad : list ascii) (response_len : Z) :
  NUL ∉ hdr -> DQ ∉ hdr ->
  Z.of_nat (length (envelope_response hdr ++ NUL :: pad)) < 2 ^ 31 ->
  unwraps_to (envelope_response hdr ++ NUL :: pad) response_len envelope_payload.
Proof.
  intros Hnul Hdq Hsize.
  set (S := status_line ++ hdr ++ lit_crlfcrlf).
  set (body' := removelast envelope_body).
  set (text := S ++ body').
  assert (Hresp : envelope_response hdr ++ NUL :: pad = text ++ "}"%char :: NUL :: pad).
  { unfold envelope_response, text, S.
    change envelope_body with (body' ++ ["}"%char]).
    by rewrite <- !app_assoc. }
  rewrite Hresp in *.
  assert (Htext : NUL ∉ text).
  { unfold text, S. rewrite !elem_of_app. intros [[Hin|[Hin|Hin]]|Hin]; [|done| |].
    - revert Hin. not_in_chars.
    - revert Hin. not_in_chars.
    - revert Hin. not_in_chars. }
  assert (Hlast : "}"%char <> NUL) by discriminate.
  (* the steps on the text *)
  assert (Hspec : unwrap_spec text = Payload envelope_payload).
  { unfold unwrap_spec.
    destruct (find_after_occurs lit_crlfcrlf (status_line ++ hdr) body') as (p1 & Hp1 & Hle).
    assert (Htext' : text = (status_line ++ hdr) ++ lit_crlfcrlf ++ body')
      by (unfold text, S; by rewrite <- !app_assoc).
    rewrite <- Htext' in Hp1. rewrite Hp1.
    assert (HS : length S = (length (status_line ++ hdr) + length lit_crlfcrlf)%nat)
      by (unfold S; rewrite !length_app; lia).
    assert (Hdrop1 : drop p1 text = drop p1 S ++ body').
    { unfold text. by rewrite drop_app_le by lia. }
    assert (HdqS : DQ ∉ drop p1 S).
    { intros Hin. apply (subseteq_drop p1 S) in Hin. revert Hin.
      unfold S. rewrite !elem_of_app. intros [Hin|[Hin|Hin]]; [|done|].
      - revert Hin. not_in_chars.
      - revert Hin. not_in_chars. }
    rewrite Hdrop1. change lit_ok with (DQ :: chars "ok" ++ [DQ] ++ chars ":").
    rewrite find_after_skip by done.
    change (find_after (DQ :: chars "ok" ++ [DQ] ++ chars ":") body') with (Some 6%nat).
    cbn [fmap option_fmap option_map]. rewrite length_drop.
    replace (p1 + (length S - p1 + 6))%nat with (length S + 6)%nat by lia.
    assert (Hdrop : forall n : nat, drop (length S + n) text = drop n body').
    { intros n. unfold text. by rewrite drop_app_add. }
    rewrite Hdrop.
    change (bool_decide (take 4 (drop 6 body') = lit_true)) with true. cbn match.
    change (find_after lit_result (drop 6 body')) with (Some 14%nat). cbn match.
    replace (length S + 6 + 14)%nat with (length S + 20)%nat by lia.
    rewrite Hdrop. reflexivity. }
  unfold unwraps_to.
  rewrite (tlg_unwrap_spec text "}"%char pad Htext Hlast Hsize), Hspec.
  rewrite length_app in Hsize. cbn [length] in Hsize.
  assert (Hpl : (length envelope_payload + 1 <= length text)%nat).
  { unfold text, S, status_line. rewrite !length_app.
    change (length envelope_payload) with 25%nat. change (length body') with 45%nat. lia. }
  eexists. split; [done|]. split.
  - rewrite length_overwrite; rewrite !length_app; cbn [length]; lia.
  - unfold overwrite. rewrite take_0. cbn [app].
    rewrite take_app_le by (rewrite length_app; cbn [length]; lia).
    apply take_ge. rewrite length_app. cbn [length]. lia.
Qed.

Lemma tlg_unwrap_example_witness :
  (NUL ∉ chars "Content-Type: application/json")
  /\ (DQ ∉ chars "Content-Type: application/json")
  /\ Z.of_nat (length (envelope_response (chars "Content-Type: application/json")
                        ++ NUL :: [])) < 2 ^ 31
  /\ unwraps_to (envelope_response (chars "Content-Type: application/json") ++ NUL :: [])
       98 envelope_payload.
Proof.
  assert (H1 : NUL ∉ chars "Content-Type: application/json") by not_in_chars.
  assert (H2 : DQ ∉ chars "Content-Type: application/json") by not_in_chars.
  assert (H3 : Z.of_nat (length (envelope_response (chars "Content-Type: application/json")
                                  ++ NUL :: [])) < 2 ^ 31) by reflexivity.
  refine (conj H1 (conj H2 (conj H3 _))).
  exact (tlg_unwrap_example (H := esp32) (chars "Content-Type: application/json") [] 98
           H1 H2 H3).
Defined.

(** C3, as the claim states it, fails: with one more byte (here a line feed)
    between the envelope and the terminator, the character removed is that
    byte and the envelope keeps its closing brace, so the buffer holds
    [{"id":1,"first_name":"B"}}], not [{"id":1,"first_name":"B"}]. *)
Lemma tlg_unwrap_framing_byte_counterexample :
  ~ unwraps_to (H := esp32)
      (envelope_response (chars "Content-Type: application/json") ++ LF :: NUL :: [])
      99 envelope_payload.
Proof.
  intros (buffer & Hrun & _ & Htake).
  vm_compute in Hrun. injection Hrun as <-.
  vm_compute in Htake. discriminate Htake.
Qed.

(** What the code leaves in that buffer. *)
Example tlg_unwrap_framing_byte_sample :
  exists buffer,
    tlg_unwrap (envelope_response (chars "Content-Type: application/json") ++ LF :: NUL :: [])
      99 = Ok (true, buffer)
    /\ take 27 buffer = envelope_payload ++ chars "}" ++ [NUL].
Proof. eexists. split; [vm_compute; reflexivity | reflexivity]. Qed.

(** A payload longer than the header and the envelope prefix before it: the
    bytes read and the bytes written overlap, and the move is still exact. *)
Example tlg_unwrap_overlap_sample :
  exists buffer,
    tlg_unwrap (lit_crlfcrlf ++ lit_ok ++ lit_true ++ lit_result
                ++ chars "[1,2,3,4,5,6,7,8,9,10,11,12]}" ++ [NUL]) 52 = Ok (true, buffer)
    /\ take 29 buffer = chars "[1,2,3,4,5,6,7,8,9,10,11,12]" ++ [NUL].
Proof. eexists. split; [vm_compute; reflexivity | reflexivity]. Qed.

(** ** The poll offset *)

(** Inversion of a computation that ended with [Ok]. *)
Ltac inv_ok H :=
  repeat (cbn beta iota zeta in H;
          match type of H with
          | mbind _ _ = Ok _ =>
            let x := fresh "x" in let Hx := fresh "Hx" in
            apply bind_Ok in H as (x & Hx & H)
          | (let (_, _) := ?p in _) = Ok _ => destruct p
          | (if ?c then _ else _) = Ok _ => destruct c
          | match ?p with _ => _ end = Ok _ => destruct p
          | Fault = Ok _ => discriminate H
          | OutOfFuel = Ok _ => discriminate H
          end).

Section PollOffset.
Context `{Platform} `{Tokenizer} `{Scanf} `{Config} {C : Type} `{HttpsClient C}.
Implicit Types b : @uTLGBot C.

Lemma disconnect_last b : _last_received_msg (disconnect b) = _last_received_msg b.
Proof. unfold disconnect. by destruct (negb (is_connected b)). Qed.

Lemma disconnect_timeout b : _long_poll_timeout (disconnect b) = _long_poll_timeout b.
Proof. unfold disconnect. by destruct (negb (is_connected b)). Qed.

Lemma disconnect_unless_kept_last b :
  _last_received_msg (disconnect_unless_kept b) = _last_received_msg b.
Proof.
  unfold disconnect_unless_kept.
  destruct (_dont_keep_connection b && is_connected b); [apply disconnect_last | done].
Qed.

Lemma disconnect_unless_kept_timeout b :
  _long_poll_timeout (disconnect_unless_kept b) = _long_poll_timeout b.
Proof.
  unfold disconnect_unless_kept.
  destruct (_dont_keep_connection b && is_connected b); [apply disconnect_timeout | done].
Qed.

Lemma connect_last b : _last_received_msg (connect b).2 = _last_received_msg b.
Proof.
  unfold connect. destruct (is_connected b); [done|].
  destruct (client_connect _ _ _) as [conn_res c].
  repeat case_decide; cbn [snd]; rewrite ?disconnect_last; done.
Qed.

Lemma connect_timeout b : _long_poll_timeout (connect b).2 = _long_poll_timeout b.
Proof.
  unfold connect. destruct (is_connected b); [done|].
  destruct (client_connect _ _ _) as [conn_res c].
  repeat case_decide; cbn [snd]; rewrite ?disconnect_timeout; done.
Qed.

(** Receiving the response does not touch the poll offset. *)
Lemma getUpdates_receive_last b b1 ptr_response :
  getUpdates_receive b = Ok (inr (b1, ptr_response)) ->
  _last_received_msg b1 = _last_received_msg b
  /\ _long_poll_timeout b1 = _long_poll_timeout b.
Proof.
  unfold getUpdates_receive. intros Hrun.
  assert (Hconn : exists connected b0,
            (if is_connected b then (true, b) else connect b) = (connected, b0)
            /\ _last_received_msg b0 = _last_received_msg b
            /\ _long_poll_timeout b0 = _long_poll_timeout b).
  { destruct (is_connected b); [by exists true, b|].
    exists (connect b).1, (connect b).2. split; [by destruct (connect b)|].
    split; [apply connect_last | apply connect_timeout]. }
  destruct Hconn as (connected & b0 & Hpair & <- & <-). rewrite Hpair in Hrun.
  inv_ok Hrun; try discriminate Hrun.
  all: injection Hrun as <- _; done.
Qed.

Lemma getUpdates_tokenize_last b b' ptr_response num_elements :
  getUpdates_tokenize b ptr_response = Ok (num_elements, b') ->
  _last_received_msg b' = _last_received_msg b
  /\ _long_poll_timeout b' = _long_poll_timeout b.
Proof.
  unfold getUpdates_tokenize. intros Hrun.
  inv_ok Hrun. by injection Hrun as _ <-.
Qed.

(** The branch of [getUpdates] taken when the tokenizer gives no token. *)
Lemma getUpdates_parse_failure b b1 b2 ptr_response :
  getUpdates_receive b = Ok (inr (b1, ptr_response)) ->
  getUpdates_tokenize b1 ptr_response = Ok (0, b2) ->
  getUpdates b
  = Ok (0, disconnect_unless_kept
             (set_last_received_msg b2 (uint64 (_last_received_msg b + 1)))).
Proof.
  intros Hreceive Htokenize.
  destruct (getUpdates_receive_last _ _ _ Hreceive) as [Hlast1 _].
  destruct (getUpdates_tokenize_last _ _ _ _ Htokenize) as [Hlast2 _].
  unfold getUpdates. rewrite Hreceive. cbn [mbind result_bind].
  unfold getUpdates_parse. rewrite Htokenize. cbn [mbind result_bind].
  rewrite decide_True by done. by rewrite Hlast2, Hlast1.
Qed.

(** C5.  When the payload of a poll cycle fails to tokenize (the call of
    [json_parse_str] in [getUpdates] returns 0), [getUpdates] returns 0 and
    leaves the poll offset advanced by exactly one, in 64-bit unsigned
    arithmetic: the next poll asks for the next update. *)
Theorem getUpdates_unparsable_advances b b1 b2 ptr_response :
  getUpdates_receive b = Ok (inr (b1, ptr_response)) ->
  getUpdates_tokenize b1 ptr_response = Ok (0, b2) ->
  exists b',
    getUpdates b = Ok (0, b')
    /\ _last_received_msg b' = uint64 (_last_received_msg b + 1)
    /\ (0 <= _last_received_msg b < UINT64_MAX ->
        _last_received_msg b' = _last_received_msg b + 1).
Proof.
  intros Hreceive Htokenize.
  eexists. split; [by apply (getUpdates_parse_failure b b1 b2 ptr_response)|].
  rewrite disconnect_unless_kept_last. cbn [_last_received_msg set_last_received_msg].
  split; [done|].
  intros Hrange. unfold UINT64_MAX in Hrange. apply wrap_small. lia.
Qed.

(** The other statements of [getUpdates] keep the poll offset, except the
    one after [update_id]. *)
Lemma get_value_last b b' ptr_response num_elements key found :
  get_value b ptr_response num_elements key = Ok (found, b') ->
  _last_received_msg b' = _last_received_msg b.
Proof.
  unfold get_value. intros Hrun. inv_ok Hrun; by injection Hrun as _ <-.
Qed.

Lemma get_subvalue_last b b' num_subelements key found :
  get_subvalue b num_subelements key = Ok (found, b') ->
  _last_received_msg b' = _last_received_msg b.
Proof.
  unfold get_subvalue. intros Hrun. inv_ok Hrun; by injection Hrun as _ <-.
Qed.

Lemma copy_subvalue_last b b' num_subelements key field cap save :
  (forall b0 v, _last_received_msg (save b0 v) = _last_received_msg b0) ->
  copy_subvalue b num_subelements key field cap save = Ok b' ->
  _last_received_msg b' = _last_received_msg b.
Proof.
  unfold copy_subvalue. intros Hsave Hrun.
  apply bind_Ok in Hrun as ([found b1] & Hget & Hrun).
  apply get_subvalue_last in Hget. inv_ok Hrun; injection Hrun as <-;
    rewrite ?Hsave; done.
Qed.

Lemma flag_subvalue_last b b' num_subelements key save :
  (forall b0 v, _last_received_msg (save b0 v) = _last_received_msg b0) ->
  flag_subvalue b num_subelements key save = Ok b' ->
  _last_received_msg b' = _last_received_msg b.
Proof.
  unfold flag_subvalue. intros Hsave Hrun.
  apply bind_Ok in Hrun as ([found b1] & Hget & Hrun).
  apply get_subvalue_last in Hget. inv_ok Hrun; injection Hrun as <-;
    rewrite ?Hsave; done.
Qed.

Ltac keep_last :=
  repeat match goal with
         | Hc : copy_subvalue _ _ _ _ _ _ = Ok _ |- _ =>
           apply copy_subvalue_last in Hc; [|done]
         | Hf : flag_subvalue _ _ _ _ = Ok _ |- _ =>
           apply flag_subvalue_last in Hf; [|done]
         | Hg : get_value _ _ _ _ = Ok _ |- _ => apply get_value_last in Hg
         end.

Lemma getUpdates_from_last b b' ptr_response num_elements :
  getUpdates_from b ptr_response num_elements = Ok b' ->
  _last_received_msg b' = _last_received_msg b.
Proof.
  unfold getUpdates_from. intros Hrun.
  inv_ok Hrun; keep_last; try (injection Hrun as <-); cbn in *; congruence.
Qed.

Lemma getUpdates_chat_last b b' ptr_response num_elements :
  getUpdates_chat b ptr_response num_elements = Ok b' ->
  _last_received_msg b' = _last_received_msg b.
Proof.
  unfold getUpdates_chat. intros Hrun.
  inv_ok Hrun; keep_last; try (injection Hrun as <-); cbn in *; congruence.
Qed.

(** The advance after [update_id]: one more than the value scanned (or than
    the old offset when nothing is scanned), modulo 2^64. *)
Lemma getUpdates_scalars_last b b' ptr_response num_elements :
  getUpdates_scalars b ptr_response num_elements = Ok b' ->
  _last_received_msg b' = _last_received_msg b
  \/ exists v, (v = _last_received_msg b \/ exists s x, sscanf_u64 s = Some x /\ v = uint64 x)
               /\ _last_received_msg b' = uint64 (v + 1).
Proof.
  unfold getUpdates_scalars. intros Hrun.
  apply bind_Ok in Hrun as (b2 & Hupdate & Hrun).
  apply bind_Ok in Hrun as (b4 & Hid & Hrun).
  apply bind_Ok in Hrun as (b6 & Hdate & Htext).
  assert (Hrest : _last_received_msg b' = _last_received_msg b2).
  { unfold getUpdates_message_id in Hid. unfold getUpdates_date in Hdate.
    unfold getUpdates_text in Htext.
    apply bind_Ok in Hid as ([found3 b3] & Hget3 & Hid).
    apply bind_Ok in Hdate as ([found5 b5] & Hget5 & Hdate).
    apply bind_Ok in Htext as ([found7 b7] & Hget7 & Htext).
    keep_last.
    assert (H4 : _last_received_msg b4 = _last_received_msg b3)
      by (inv_ok Hid; injection Hid as <-; done).
    assert (H6 : _last_received_msg b6 = _last_received_msg b5)
      by (inv_ok Hdate; injection Hdate as <-; done).
    assert (H8 : _last_received_msg b' = _last_received_msg b7)
      by (inv_ok Htext; injection Htext as <-; done).
    congruence. }
  rewrite Hrest. unfold getUpdates_update_id in Hupdate.
  apply bind_Ok in Hupdate as ([found b1] & Hget & Hadvance).
  apply get_value_last in Hget.
  destruct found; [|left; injection Hadvance as <-; done]. right.
  apply bind_Ok in Hadvance as (value & _ & Hadvance). injection Hadvance as <-.
  cbn [_last_received_msg set_last_received_msg].
  destruct (sscanf_u64 value) as [x|] eqn:Hscan.
  - exists (uint64 x). split; [right; by exists value, x | done].
  - exists (_last_received_msg b). split; [by left | by rewrite Hget].
Qed.

(** Every change of the poll offset by [getUpdates] is an advance by one
    modulo 2^64, from the old offset or from the [update_id] scanned. *)
Lemma getUpdates_last b b' r :
  getUpdates b = Ok (r, b') ->
  _last_received_msg b' = _last_received_msg b
  \/ exists v, (v = _last_received_msg b \/ exists s x, sscanf_u64 s = Some x /\ v = uint64 x)
               /\ _last_received_msg b' = (v + 1) mod 2 ^ 64.
Proof.
  unfold getUpdates. intros Hrun.
  apply bind_Ok in Hrun as (received & Hreceive & Hrun).
  destruct received as [b0|[b1 ptr_response]].
  - (* an early [return 0] *)
    left. injection Hrun as _ <-. revert Hreceive. unfold getUpdates_receive.
    assert (Hconn : exists connected b0',
              (if is_connected b then (true, b) else connect b) = (connected, b0')
              /\ _last_received_msg b0' = _last_received_msg b).
    { destruct (is_connected b); [by exists true, b|].
      exists (connect b).1, (connect b).2. split; [by destruct (connect b)|].
      apply connect_last. }
    destruct Hconn as (connected & b0' & -> & <-). intros Hreceive.
    inv_ok Hreceive; try discriminate Hreceive; injection Hreceive as <-;
      rewrite ?disconnect_last, ?disconnect_unless_kept_last; try done.
    case_match; rewrite ?disconnect_last; done.
  - apply getUpdates_receive_last in Hreceive as [Hlast1 _].
    unfold getUpdates_parse in Hrun.
    apply bind_Ok in Hrun as ([num_elements b2] & Htokenize & Hrun).
    apply getUpdates_tokenize_last in Htokenize as [Hlast2 _].
    cbn beta iota zeta in Hrun.
    destruct (decide (num_elements = 0)).
    + injection Hrun as _ <-. right. exists (_last_received_msg b). split; [by left|].
      rewrite disconnect_unless_kept_last. cbn. by rewrite Hlast2, Hlast1.
    + apply bind_Ok in Hrun as (b3 & Hscalars & Hrun).
      apply bind_Ok in Hrun as (b4 & Hfrom & Hrun).
      apply bind_Ok in Hrun as (b5 & Hchat & Hrun).
      injection Hrun as _ <-.
      apply getUpdates_from_last in Hfrom. apply getUpdates_chat_last in Hchat.
      apply getUpdates_scalars_last in Hscalars.
      rewrite disconnect_unless_kept_last, Hchat, Hfrom.
      rewrite Hlast2, Hlast1 in Hscalars. exact Hscalars.
Qed.

End PollOffset.

#[local] Existing Instance update_tokenizer.
#[local] Existing Instance sample_scanf.
#[local] Existing Instance sample_config.

Lemma getUpdates_unparsable_advances_witness :
  getUpdates_receive fresh_bot = Ok (inr (received_bot, 1))
  /\ getUpdates_tokenize received_bot 1 = Ok (0, tokenized_bot)
  /\ exists b',
       getUpdates fresh_bot = Ok (0, b')
       /\ _last_received_msg b' = uint64 (_last_received_msg fresh_bot + 1)
       /\ (0 <= _last_received_msg fresh_bot < UINT64_MAX ->
           _last_received_msg b' = _last_received_msg fresh_bot + 1).
Proof.
  assert (H1 : getUpdates_receive fresh_bot = Ok (inr (received_bot, 1)))
    by (vm_compute; reflexivity).
  assert (H2 : getUpdates_tokenize received_bot 1 = Ok (0, tokenized_bot))
    by (vm_compute; reflexivity).
  refine (conj H1 (conj H2 _)).
  exact (getUpdates_unparsable_advances fresh_bot received_bot tokenized_bot 1 H1 H2).
Defined.

(** The fresh bot of the sample world polls twice and both responses are
    rejected by the tokenizer: each poll returns 0, the offset goes from
    18446744073709551615 to 0 and then to 1, and the transport saw the
    offsets 18446744073709551615 and 0. *)
Example poll_twice_sample :
  poll_twice =
    Ok (0, 0, 0, 1,
        [ chars "{" ++ quoted "offset" ++ chars ":18446744073709551615, "
          ++ quoted "limit" ++ chars ":1, " ++ quoted "timeout" ++ chars ":10, "
          ++ quoted "allowed_updates" ++ chars ":[" ++ quoted "message" ++ chars "]}";
          chars "{" ++ quoted "offset" ++ chars ":0, "
          ++ quoted "limit" ++ chars ":1, " ++ quoted "timeout" ++ chars ":10, "
          ++ quoted "allowed_updates" ++ chars ":[" ++ quoted "message" ++ chars "]}" ]).
Proof. vm_compute. reflexivity. Qed.

(** ** Copies into the fields of the record *)

Lemma strncpy_aux_long (n : nat) (dst : obj) (dp : nat) (spre v rest : list ascii) (j : nat) :
  NUL ∉ v -> (j + n <= length v)%nat -> (dp + n <= length dst)%nat ->
  strncpy_aux n dst (Z.of_nat dp) (spre ++ v ++ NUL :: rest) (Z.of_nat (length spre + j))
  = Ok (overwrite dst dp (take n (drop j v))).
Proof.
  intros Hv. revert dst dp j. induction n as [|n IH]; intros dst dp j Hj Hdp.
  - cbn [strncpy_aux]. by rewrite take_0, overwrite_nil.
  - cbn [strncpy_aux].
    destruct (lookup_lt_is_Some_2 v j ltac:(lia)) as [c Hc].
    assert (load (spre ++ v ++ NUL :: rest) (Z.of_nat (length spre + j)) = Ok c) as ->.
    { apply load_nat. rewrite lookup_app_r by lia. rewrite lookup_app_l by lia.
      rewrite <- Hc. f_equal. lia. }
    cbn [mbind result_bind]. rewrite store_nat by lia. cbn [mbind result_bind].
    assert (c <> NUL) by (intros ->; apply Hv; by eapply list_elem_of_lookup_2).
    rewrite decide_False by done.
    replace (Z.of_nat dp + 1) with (Z.of_nat (S dp)) by lia.
    replace (Z.of_nat (length spre + j) + 1) with (Z.of_nat (length spre + S j)) by lia.
    rewrite IH by (rewrite ?length_insert; lia).
    rewrite overwrite_insert_cons by lia.
    by rewrite (drop_S v c j Hc).
Qed.

(** [strncpy] of a string of [n] or more characters fills the destination
    and writes no terminator. *)
Lemma strncpy_long (dst : obj) (v rest : list ascii) (n : Z) :
  NUL ∉ v -> 0 <= n -> Z.of_nat (length dst) = n -> n <= Z.of_nat (length v) ->
  strncpy dst (v ++ NUL :: rest) n = Ok (take (Z.to_nat n) v).
Proof.
  intros Hv Hn Hdst Hlen. unfold strncpy.
  pose proof (strncpy_aux_long (Z.to_nat n) dst 0 [] v rest 0 Hv ltac:(lia) ltac:(lia)) as Hcopy.
  cbn [app length] in Hcopy. rewrite drop_0 in Hcopy. change (Z.of_nat (0 + 0)) with 0 in Hcopy.
  change (Z.of_nat 0) with 0 in Hcopy. rewrite Hcopy. f_equal.
  unfold overwrite. rewrite take_0. cbn [app].
  rewrite drop_ge by (rewrite length_take; lia). apply app_nil_r.
Qed.

(** [snprintf] with ["%s"] of a longer string keeps [n - 1] characters and
    terminates them: the copy into the [text] field. *)
Lemma snprintf_s_long (dst : obj) (v rest : list ascii) (n : Z) :
  NUL ∉ v -> 0 < n <= Z.of_nat (length dst) -> n - 1 <= Z.of_nat (length v) ->
  snprintf_s dst n (v ++ NUL :: rest)
  = Ok (take (Z.to_nat (n - 1)) v ++ NUL :: drop (Z.to_nat n) dst).
Proof.
  intros Hv Hn Hlen. unfold snprintf_s. rewrite strlen_0 by done.
  cbn [mbind result_bind]. rewrite decide_False by lia.
  replace (Z.min (Z.of_nat (length v)) (n - 1)) with (n - 1) by lia.
  set (k := Z.to_nat (n - 1)).
  replace (n - 1) with (Z.of_nat k) by lia. replace (Z.to_nat n) with (S k) by lia.
  unfold memcpy. rewrite decide_True by (rewrite length_app; cbn [length]; lia).
  cbn [mbind result_bind]. change (Z.to_nat 0) with 0%nat.
  rewrite take_0, drop_0. cbn [app]. rewrite Z.add_0_l, Nat2Z.id.
  rewrite take_app_le by lia.
  rewrite store_nat by (rewrite length_app, length_take, length_drop; lia).
  f_equal.
  replace k with (length (take k v) + 0)%nat at 1 by (rewrite length_take; lia).
  rewrite insert_app_r.
  destruct (drop k dst) as [|x tail] eqn:Hd.
  - apply drop_nil_inv in Hd. lia.
  - cbn. do 2 f_equal.
    replace (S k) with (k + 1)%nat by lia.
    by rewrite <- drop_drop, Hd.
Qed.

Section Fields.
Context `{Platform} `{Tokenizer} `{Scanf} `{Config} {C : Type} `{HttpsClient C}.
Implicit Types b : @uTLGBot C.

(** C9 (the code departs from the claim).  The string sub-keys of [from] and
    [chat] are saved with [strncpy(field, _json_subvalue_str, cap)]: a value
    of [cap] or more characters leaves the field holding the first [cap]
    characters of the value, not [cap - 1], and no terminator within its
    capacity. *)
Theorem copy_subvalue_long_unterminated b b1 (num_subelements : Z) (key : list ascii)
    (field : uTLGBot -> obj) (cap : Z) (save : uTLGBot -> obj -> uTLGBot)
    (v rest : list ascii) :
  get_subvalue b num_subelements key = Ok (true, b1) ->
  _json_subvalue_str b1 = v ++ NUL :: rest -> NUL ∉ v ->
  0 < cap -> Z.of_nat (length (field b1)) = cap -> cap <= Z.of_nat (length v) ->
  copy_subvalue b num_subelements key field cap save = Ok (save b1 (take (Z.to_nat cap) v))
  /\ ~ terminated_within (take (Z.to_nat cap) v) cap
  /\ take (Z.to_nat cap) v !! Z.to_nat (cap - 1) = v !! Z.to_nat (cap - 1).
Proof.
  intros Hget Hvalue Hv Hpos Hfield Hlen. split; [|split].
  - unfold copy_subvalue. rewrite Hget. cbn [mbind result_bind].
    rewrite Hvalue. rewrite strncpy_long by (done || lia). done.
  - intros (k & Hk & Hlook). apply Hv.
    rewrite lookup_take_lt in Hlook by lia. by eapply list_elem_of_lookup_2.
  - apply lookup_take_lt. lia.
Qed.

End Fields.

Lemma copy_subvalue_long_unterminated_witness :
  exists b1,
    get_subvalue from_bot 5 (chars "first_name") = Ok (true, b1)
    /\ _json_subvalue_str b1 = chars "Bartholomew" ++ NUL :: replicate 52 NUL
    /\ (NUL ∉ chars "Bartholomew")
    /\ 0 < 8
    /\ Z.of_nat (length (user_first_name (msg_from (received_msg b1)))) = 8
    /\ 8 <= Z.of_nat (length (chars "Bartholomew"))
    /\ copy_subvalue from_bot 5 (chars "first_name")
         (fun b => user_first_name (msg_from (received_msg b))) 8
         (fun b v => upd_from b (fun u => set_user_first_name u v))
       = Ok (upd_from b1 (fun u => set_user_first_name u (chars "Bartholo")))
    /\ ~ terminated_within (chars "Bartholo") 8.
Proof.
  destruct (get_subvalue from_bot 5 (chars "first_name")) as [[found b1]| |] eqn:Hget;
    [|vm_compute in Hget; discriminate Hget..].
  exists b1.
  assert (Hb1 : found = true
                /\ _json_subvalue_str b1 = chars "Bartholomew" ++ NUL :: replicate 52 NUL
                /\ Z.of_nat (length (user_first_name (msg_from (received_msg b1)))) = 8).
  { vm_compute in Hget. injection Hget as <- <-. repeat split. }
  destruct Hb1 as (-> & H2 & H5).
  assert (H3 : NUL ∉ chars "Bartholomew") by not_in_chars.
  assert (H4 : 0 < 8) by reflexivity.
  assert (H6 : 8 <= Z.of_nat (length (chars "Bartholomew"))) by (vm_compute; discriminate).
  refine (conj eq_refl (conj H2 (conj H3 (conj H4 (conj H5 (conj H6 _)))))).
  destruct (copy_subvalue_long_unterminated (H := esp32) from_bot b1 5 (chars "first_name")
              (fun b => user_first_name (msg_from (received_msg b))) 8
              (fun b v => upd_from b (fun u => set_user_first_name u v))
              (chars "Bartholomew") (replicate 52 NUL) Hget H2 H3 H4 H5 H6)
    as (Hcopy & Hnot & _).
  exact (conj Hcopy Hnot).
Defined.

(** The whole poll on the update with long values, with [MAX_TEXT_LENGTH] 16
    and [MAX_USER_LENGTH] 8: [text] holds 15 characters and a terminator,
    [from.first_name] holds 8 characters of the name and no terminator. *)
Example getUpdates_long_update_sample :
  exists b,
    getUpdates long_update_bot = Ok (1, b)
    /\ msg_text (received_msg b) = chars "hello world, th" ++ [NUL]
    /\ user_first_name (msg_from (received_msg b)) = chars "Bartholo"
    /\ user_id (msg_from (received_msg b)) = chars "7" ++ replicate 7 NUL.
Proof.
  destruct (getUpdates long_update_bot) as [[r b]| |] eqn:Hrun;
    [|vm_compute in Hrun; discriminate Hrun..].
  vm_compute in Hrun. injection Hrun as <- <-.
  eexists. split; [reflexivity|]. repeat split.
Qed.

(** The whole poll on the update of the specification's example. *)
Example getUpdates_update_sample :
  exists b,
    getUpdates update_bot = Ok (1, b)
    /\ _last_received_msg b = 6
    /\ msg_message_id (received_msg b) = 9
    /\ msg_date (received_msg b) = 100
    /\ take 3 (msg_text (received_msg b)) = chars "hi" ++ [NUL]
    /\ take 2 (user_id (msg_from (received_msg b))) = chars "7" ++ [NUL]
    /\ user_is_bot (msg_from (received_msg b)) = false
    /\ chat_type (msg_chat (received_msg b)) = chars "private" ++ [NUL]
    /\ take 1 (chat_title (msg_chat (received_msg b))) = [NUL].
Proof.
  destruct (getUpdates update_bot) as [[r b]| |] eqn:Hrun;
    [|vm_compute in Hrun; discriminate Hrun..].
  vm_compute in Hrun. injection Hrun as <- <-.
  eexists. split; [reflexivity|]. repeat split.
Qed.

(** ** [cstr_rm_char] *)

Section RmChar.
Context `{Platform}.
Variables (pre s post : list ascii) (c_remove : ascii).
Hypothesis Hsize : Z.of_nat (length s) < 2 ^ size_bits.

Let o0 : obj := pre ++ s ++ post.
Let kept (l : list ascii) : list ascii := filter (fun c => c <> c_remove) l.

Lemma length_kept (l : list ascii) : (length (kept l) <= length l)%nat.
Proof. apply length_filter. Qed.

(** After [b] iterations the characters kept so far are at the start of the
    string and the characters still to read are where they were. *)
Lemma cstr_rm_char_loop_spec (s1 s2 : list ascii) :
  s = s1 ++ s2 ->
  cstr_rm_char_loop (length s2) (overwrite o0 (length pre) (kept s1)) (Z.of_nat (length pre))
    c_remove (Z.of_nat (length (kept s1))) (Z.of_nat (length s1))
  = Ok (Z.of_nat (length (kept s)), overwrite o0 (length pre) (kept s)).
Proof.
  revert s1. induction s2 as [|x s2 IH]; intros s1 Hs.
  - cbn [length cstr_rm_char_loop]. rewrite app_nil_r in Hs. by subst s1.
  - cbn [length cstr_rm_char_loop].
    assert (Hls : length s = (length s1 + S (length s2))%nat).
    { rewrite Hs, length_app. done. }
    pose proof (length_kept s1) as Hk.
    assert (Hlen0 : length o0 = (length pre + length s + length post)%nat).
    { unfold o0. rewrite !length_app. lia. }
    assert (load (overwrite o0 (length pre) (kept s1))
              (Z.of_nat (length pre) + Z.of_nat (length s1)) = Ok x) as ->.
    { rewrite <- Nat2Z.inj_add. apply load_nat.
      rewrite lookup_overwrite_after by lia. unfold o0.
      rewrite lookup_app_r by lia. rewrite lookup_app_l by lia.
      rewrite Hs. rewrite lookup_app_r by lia.
      by replace (length pre + length s1 - length pre - length s1)%nat with 0%nat by lia. }
    cbn [mbind result_bind].
    rewrite (size_t_small (Z.of_nat (length s1) + 1)) by lia.
    replace (Z.of_nat (length s1) + 1) with (Z.of_nat (length (s1 ++ [x])))
      by (rewrite length_app; cbn [length]; lia).
    assert (Hs' : s = (s1 ++ [x]) ++ s2) by (by rewrite <- app_assoc).
    destruct (decide (x <> c_remove)) as [Hkeep|Hdrop].
    + rewrite <- Nat2Z.inj_add.
      rewrite store_nat by (rewrite length_overwrite; lia).
      cbn [mbind result_bind].
      rewrite overwrite_snoc by lia.
      rewrite (size_t_small (Z.of_nat (length (kept s1)) + 1)) by lia.
      assert (Hk1 : kept (s1 ++ [x]) = kept s1 ++ [x]).
      { unfold kept. rewrite filter_app. f_equal. by rewrite filter_cons_True. }
      rewrite <- Hk1.
      replace (Z.of_nat (length (kept s1)) + 1) with (Z.of_nat (length (kept (s1 ++ [x]))))
        by (rewrite Hk1, length_app; cbn [length]; lia).
      by apply IH.
    + assert (Hk1 : kept (s1 ++ [x]) = kept s1).
      { unfold kept. rewrite filter_app, filter_cons_False by done.
        by rewrite filter_nil, app_nil_r. }
      rewrite <- Hk1. by apply IH.
Qed.

(** The loop of [cstr_rm_char] over the whole string. *)
Lemma cstr_rm_char_loop_all :
  cstr_rm_char_loop (Z.to_nat (Z.of_nat (length s))) o0 (Z.of_nat (length pre)) c_remove 0 0
  = Ok (Z.of_nat (length (kept s)), overwrite o0 (length pre) (kept s)).
Proof.
  rewrite Nat2Z.id.
  pose proof (cstr_rm_char_loop_spec [] s eq_refl) as Hloop.
  change (kept []) with (@nil ascii) in Hloop. rewrite overwrite_nil in Hloop. exact Hloop.
Qed.

End RmChar.

Lemma filter_keeps_all (c_remove : ascii) (s : list ascii) :
  c_remove ∉ s -> filter (fun c => c <> c_remove) s = s.
Proof.
  induction s as [|x s IH]; intros Hs; [done|].
  apply not_elem_of_cons in Hs as [Hx Hs].
  rewrite filter_cons_True by congruence. by rewrite IH.
Qed.

(** X1.  [cstr_rm_char] on the [str_len] characters [s] at [str], with at
    least one more byte of the object after them: the characters of [s] other
    than [c_remove] are moved to the start of the string in their order and a
    terminator is written after them; the other bytes of the object are as
    they were.  When [s] is the C string at [str], the string at [str]
    afterwards is [s] without its [c_remove] characters. *)
Theorem cstr_rm_char_removes `{Platform} (pre s : list ascii) (x : ascii) (post : list ascii)
    (c_remove : ascii) :
  Z.of_nat (length s) < 2 ^ size_bits ->
  exists o',
    cstr_rm_char (pre ++ s ++ x :: post) (Z.of_nat (length pre)) (Z.of_nat (length s)) c_remove
      = Ok o'
    /\ o' = overwrite (pre ++ s ++ x :: post) (length pre)
              (filter (fun c => c <> c_remove) s ++ [NUL])
    /\ length o' = length (pre ++ s ++ x :: post)
    /\ (c_remove ∉ filter (fun c => c <> c_remove) s)
    /\ (NUL ∉ s ->
        string_at o' (Z.of_nat (length pre)) = Ok (filter (fun c => c <> c_remove) s)).
Proof.
  intros Hsize. set (k := filter (fun c => c <> c_remove) s).
  assert (Hk : (length k <= length s)%nat) by apply length_filter.
  assert (Hlen : length (pre ++ s ++ x :: post)
                 = (length pre + length s + S (length post))%nat).
  { rewrite !length_app. cbn [length]. lia. }
  assert (Hkb : length (k ++ [NUL]) = S (length k)).
  { rewrite length_app. cbn [length]. lia. }
  eexists. split; [|split; [reflexivity|split; [|split]]].
  - unfold cstr_rm_char.
    rewrite (cstr_rm_char_loop_all pre s (x :: post) c_remove Hsize).
    cbn [mbind result_bind]. fold k. rewrite <- Nat2Z.inj_add.
    rewrite store_nat by (rewrite length_overwrite; lia).
    by rewrite overwrite_snoc by lia.
  - apply length_overwrite. lia.
  - unfold k. intros Hin. apply list_elem_of_filter in Hin as [Hne _]. done.
  - intros Hnul.
    assert (Hknul : NUL ∉ k).
    { unfold k. intros Hin. apply list_elem_of_filter in Hin as [_ Hin]. done. }
    assert (Hform : overwrite (pre ++ s ++ x :: post) (length pre) (k ++ [NUL])
                    = pre ++ k ++ NUL :: drop (S (length k)) (s ++ x :: post)).
    { unfold overwrite. rewrite take_app_length. f_equal. rewrite <- app_assoc. f_equal.
      cbn [app]. f_equal. rewrite Hkb. by rewrite drop_app_add. }
    rewrite Hform. unfold string_at. rewrite strlen_app by done.
    cbn [mbind result_bind]. rewrite !Nat2Z.id. rewrite drop_app_length.
    by rewrite take_app_length.
Qed.

Lemma cstr_rm_char_removes_witness :
  Z.of_nat (length (chars "1 2 3")) < 2 ^ 32
  /\ exists o',
       cstr_rm_char (chars ">" ++ chars "1 2 3" ++ NUL :: chars "?") (Z.of_nat (length (chars ">")))
         (Z.of_nat (length (chars "1 2 3"))) " "%char = Ok o'
       /\ o' = overwrite (chars ">" ++ chars "1 2 3" ++ NUL :: chars "?") (length (chars ">"))
                 (filter (fun c => c <> " "%char) (chars "1 2 3") ++ [NUL])
       /\ length o' = length (chars ">" ++ chars "1 2 3" ++ NUL :: chars "?")
       /\ (" "%char ∉ filter (fun c => c <> " "%char) (chars "1 2 3"))
       /\ (NUL ∉ chars "1 2 3" ->
           string_at o' (Z.of_nat (length (chars ">")))
           = Ok (filter (fun c => c <> " "%char) (chars "1 2 3"))).
Proof.
  assert (H1 : Z.of_nat (length (chars "1 2 3")) < 2 ^ 32) by reflexivity.
  refine (conj H1 _).
  exact (cstr_rm_char_removes (H := esp32) (chars ">") (chars "1 2 3") NUL (chars "?")
           " "%char H1).
Defined.

(** The example of the source comment: the spaces of [1 2 3 4 5] removed. *)
Example cstr_rm_char_sample :
  cstr_rm_char (cstr (chars "1 2 3 4 5")) 0 9 " "%char
  = Ok (chars "12345" ++ [NUL] ++ chars "4 5" ++ [NUL]).
Proof. reflexivity. Qed.

(** X2.  When none of the [str_len] characters is [c_remove], the terminator
    is written at [str + str_len]: on an object that ends with these
    characters the write is past its end. *)
Theorem cstr_rm_char_needs_room `{Platform} (pre s : list ascii) (c_remove : ascii) :
  Z.of_nat (length s) < 2 ^ size_bits -> c_remove ∉ s ->
  cstr_rm_char (pre ++ s) (Z.of_nat (length pre)) (Z.of_nat (length s)) c_remove = Fault.
Proof.
  intros Hsize Hnone. unfold cstr_rm_char.
  pose proof (cstr_rm_char_loop_all pre s [] c_remove Hsize) as Hloop.
  rewrite app_nil_r in Hloop. rewrite Hloop. cbn [mbind result_bind].
  rewrite filter_keeps_all by done. unfold store.
  rewrite decide_False; [done|].
  unfold overwrite. rewrite !length_app, length_take, length_drop, length_app. lia.
Qed.

Lemma cstr_rm_char_needs_room_witness :
  Z.of_nat (length (chars "abc")) < 2 ^ 32
  /\ ("-"%char ∉ chars "abc")
  /\ cstr_rm_char (chars ">" ++ chars "abc") (Z.of_nat (length (chars ">")))
       (Z.of_nat (length (chars "abc"))) "-"%char = Fault.
Proof.
  assert (H1 : Z.of_nat (length (chars "abc")) < 2 ^ 32) by reflexivity.
  assert (H2 : "-"%char ∉ chars "abc") by not_in_chars.
  refine (conj H1 (conj H2 _)).
  exact (cstr_rm_char_needs_room (H := esp32) (chars ">") (chars "abc") "-"%char H1 H2).
Defined.

(** ** [cstr_get_substr_pos_end]: the first occurrence, or none *)

Lemma find_after_none (needle s : list ascii) :
  find_after needle s = None ->
  forall i : nat, take (length needle) (drop i s) <> needle.
Proof.
  induction s as [|c s IH]; cbn [find_after].
  - case_bool_decide as Hhere; [done|]. intros _ i. by rewrite drop_nil.
  - case_bool_decide as Hhere; [done|].
    destruct (find_after needle s) as [k|] eqn:Hk; [done|]. intros _ [|i]; [done|].
    cbn [drop]. by apply IH.
Qed.

(** X3.  On the C string [s] at [str], with [str_len] its length,
    [cstr_get_substr_pos_end] returns the offset just after the first
    occurrence of the substring, and -1 when the substring does not occur. *)
Theorem cstr_get_substr_pos_end_first `{Platform} (pre s post needle : list ascii) :
  NUL ∉ s -> NUL ∉ needle ->
  Z.of_nat (length s) < 2 ^ 31 -> Z.of_nat (length needle) < 2 ^ 31 ->
  exists r,
    cstr_get_substr_pos_end (pre ++ s ++ NUL :: post) (Z.of_nat (length pre))
      (Z.of_nat (length s)) (cstr needle) (Z.of_nat (length needle)) = Ok r
    /\ ((r = -1 /\ forall i : nat, take (length needle) (drop i s) <> needle)
        \/ exists i : nat,
             r = Z.of_nat (i + length needle)
             /\ (i + length needle <= length s)%nat
             /\ take (length needle) (drop i s) = needle
             /\ forall j : nat, (j < i)%nat -> take (length needle) (drop j s) <> needle).
Proof.
  intros Hs Hneedle Hsize Hnsize.
  rewrite (cstr_get_substr_pos_end_spec pre s post needle Hs Hneedle Hsize Hnsize).
  eexists. split; [done|].
  destruct (find_after needle s) as [k|] eqn:Hk.
  - right. pose proof (find_after_bounds _ _ _ Hk) as Hb.
    destruct (find_after_first _ _ _ Hk) as (i & -> & Hocc & Hfirst).
    exists i. split; [done|]. split; [lia|]. split; done.
  - left. split; [done|]. by apply find_after_none.
Qed.

Lemma cstr_get_substr_pos_end_first_witness :
  (NUL ∉ chars "Hello" ++ [CR; LF] ++ chars "World.")
  /\ (NUL ∉ [CR; LF])
  /\ Z.of_nat (length (chars "Hello" ++ [CR; LF] ++ chars "World.")) < 2 ^ 31
  /\ Z.of_nat (length [CR; LF]) < 2 ^ 31
  /\ exists r,
       cstr_get_substr_pos_end ([] ++ (chars "Hello" ++ [CR; LF] ++ chars "World.") ++ NUL :: [])
         (Z.of_nat (length (@nil ascii)))
         (Z.of_nat (length (chars "Hello" ++ [CR; LF] ++ chars "World.")))
         (cstr [CR; LF]) (Z.of_nat (length [CR; LF])) = Ok r
       /\ ((r = -1 /\ forall i : nat,
              take (length [CR; LF]) (drop i (chars "Hello" ++ [CR; LF] ++ chars "World."))
              <> [CR; LF])
           \/ exists i : nat,
                r = Z.of_nat (i + length [CR; LF])
                /\ (i + length [CR; LF]
                    <= length (chars "Hello" ++ [CR; LF] ++ chars "World."))%nat
                /\ take (length [CR; LF]) (drop i (chars "Hello" ++ [CR; LF] ++ chars "World."))
                   = [CR; LF]
                /\ forall j : nat, (j < i)%nat ->
                     take (length [CR; LF])
                       (drop j (chars "Hello" ++ [CR; LF] ++ chars "World.")) <> [CR; LF]).
Proof.
  assert (H1 : NUL ∉ chars "Hello" ++ [CR; LF] ++ chars "World.") by not_in_chars.
  assert (H2 : NUL ∉ [CR; LF]) by not_in_chars.
  assert (H3 : Z.of_nat (length (chars "Hello" ++ [CR; LF] ++ chars "World.")) < 2 ^ 31)
    by reflexivity.
  assert (H4 : Z.of_nat (length [CR; LF]) < 2 ^ 31) by reflexivity.
  refine (conj H1 (conj H2 (conj H3 (conj H4 _)))).
  exact (cstr_get_substr_pos_end_first (H := esp32) [] _ [] [CR; LF] H1 H2 H3 H4).
Defined.

(** The example of the source comment: in [Hello\r\nWorld.] the substring
    [\r\n] ends at offset 7; a substring that does not occur gives -1. *)
Example cstr_get_substr_pos_end_sample :
  cstr_get_substr_pos_end (cstr (chars "Hello" ++ [CR; LF] ++ chars "World.")) 0 13
    (cstr [CR; LF]) 2 = Ok 7
  /\ cstr_get_substr_pos_end (cstr (chars "Hello" ++ [CR; LF] ++ chars "World.")) 0 13
       (cstr (chars "world")) 5 = Ok (-1).
Proof. split; reflexivity. Qed.

(** ** [cstr_strncat]: what is appended *)

(** X4.  [cstr_strncat] appends the longest prefix of the [src_len] source
    bytes that leaves room for the terminator, [min src_len (dest_max_size - 1
    - dest_len)] bytes, and terminates it; the bytes of the object after that
    terminator are as they were.  The flag is [false] exactly when
    [dest_len + src_len > dest_max_size]. *)
Theorem cstr_strncat_longest_prefix `{Platform} (d r : list ascii) (dest_max_size : Z)
    (src : obj) (src_len : Z) :
  1 <= dest_max_size < 2 ^ size_bits ->
  NUL ∉ d -> Z.of_nat (length d) < dest_max_size ->
  dest_max_size <= Z.of_nat (length (d ++ NUL :: r)) ->
  0 <= src_len <= Z.of_nat (length src) -> src_len < 2 ^ size_bits ->
  exists dest',
    cstr_strncat (d ++ NUL :: r) dest_max_size src src_len
      = Ok (bool_decide (Z.of_nat (length d) + src_len <= dest_max_size), dest')
    /\ dest' = d ++ take (Z.to_nat (Z.min src_len (dest_max_size - 1 - Z.of_nat (length d)))) src
               ++ NUL :: drop (Z.to_nat (Z.min src_len (dest_max_size - 1 - Z.of_nat (length d))))
                          r.
Proof.
  intros Hcap Hd Hdl Hlen Hsrc Hsize.
  assert (Hdl0 : 0 <= Z.of_nat (length d)) by lia.
  eexists. split.
  - exact (cstr_strncat_spec dest_max_size (Z.of_nat (length d)) src_len src
             Hcap Hdl0 Hsrc Hsize d r Hd eq_refl Hdl Hlen).
  - set (m := Z.to_nat (Z.min src_len (dest_max_size - 1 - Z.of_nat (length d)))).
    assert (Hm : length (take m src) = m) by (rewrite length_take; lia).
    unfold overwrite. rewrite take_app_length. f_equal. rewrite <- app_assoc. f_equal.
    cbn [app]. f_equal. rewrite length_app, Hm. cbn [length].
    rewrite drop_app_add. replace (m + 1)%nat with (S m) by lia. done.
Qed.

Lemma cstr_strncat_longest_prefix_witness :
  (1 <= 6 < 2 ^ 32)
  /\ (NUL ∉ chars "ab")
  /\ Z.of_nat (length (chars "ab")) < 6
  /\ 6 <= Z.of_nat (length (chars "ab" ++ NUL :: chars "????"))
  /\ (0 <= 5 <= Z.of_nat (length (cstr (chars "cdefg"))))
  /\ 5 < 2 ^ 32
  /\ exists dest',
       cstr_strncat (chars "ab" ++ NUL :: chars "????") 6 (cstr (chars "cdefg")) 5
         = Ok (bool_decide (Z.of_nat (length (chars "ab")) + 5 <= 6), dest')
       /\ dest' = chars "ab"
                  ++ take (Z.to_nat (Z.min 5 (6 - 1 - Z.of_nat (length (chars "ab")))))
                       (cstr (chars "cdefg"))
                  ++ NUL :: drop (Z.to_nat (Z.min 5 (6 - 1 - Z.of_nat (length (chars "ab")))))
                             (chars "????").
Proof.
  assert (H1 : 1 <= 6 < 2 ^ 32) by (vm_compute; split; [discriminate | reflexivity]).
  assert (H2 : NUL ∉ chars "ab") by not_in_chars.
  assert (H3 : Z.of_nat (length (chars "ab")) < 6) by reflexivity.
  assert (H4 : 6 <= Z.of_nat (length (chars "ab" ++ NUL :: chars "????")))
    by (vm_compute; discriminate).
  assert (H5 : 0 <= 5 <= Z.of_nat (length (cstr (chars "cdefg"))))
    by (vm_compute; split; discriminate).
  assert (H6 : 5 < 2 ^ 32) by reflexivity.
  refine (conj H1 (conj H2 (conj H3 (conj H4 (conj H5 (conj H6 _)))))).
  exact (cstr_strncat_longest_prefix (H := esp32) (chars "ab") (chars "????") 6
           (cstr (chars "cdefg")) 5 H1 H2 H3 H4 H5 H6).
Defined.

(** The run of that sample: three of the five source bytes fit. *)
Example cstr_strncat_longest_prefix_sample :
  cstr_strncat (chars "ab" ++ NUL :: chars "????") 6 (cstr (chars "cdefg")) 5
  = Ok (false, chars "abcde" ++ NUL :: chars "?").
Proof. reflexivity. Qed.

(** ** [json_get_element_string]: the copy *)

(** X5.  [json_get_element_string] clears the first [converted_str_len] bytes
    of the output and copies the token's bytes [text[start..end)] over them,
    cut to [converted_str_len] bytes; the bytes of the output object from
    index [converted_str_len] on are as they were.  A token shorter than
    [converted_str_len] is reproduced exactly and followed by zero bytes up to
    the capacity, so the output is terminated. *)
Theorem json_get_element_string_copies (js : obj) (ofs : Z) (t : jsmntok_t)
    (converted_str : obj) (converted_str_len : Z) :
  token_in_text js ofs t ->
  0 <= converted_str_len <= Z.of_nat (length converted_str) ->
  exists out,
    json_get_element_string js ofs t converted_str converted_str_len = Ok out
    /\ length out = length converted_str
    /\ take (Z.to_nat converted_str_len) out
       = take (Z.to_nat converted_str_len)
           (token_bytes js ofs t ++ replicate (Z.to_nat converted_str_len) NUL)
    /\ drop (Z.to_nat converted_str_len) out = drop (Z.to_nat converted_str_len) converted_str
    /\ (tok_end t - tok_start t < converted_str_len ->
        take (Z.to_nat (tok_end t - tok_start t) + 1) out = token_bytes js ofs t ++ [NUL]
        /\ terminated_within out converted_str_len).
Proof.
  intros Htok Hcap.
  pose proof (length_token_bytes _ _ _ Htok) as Hbytes.
  assert (Hse : 0 <= tok_end t - tok_start t) by (destruct Htok as (_ & ? & _); lia).
  set (n := Z.to_nat converted_str_len) in *.
  set (bytes := token_bytes js ofs t) in *.
  set (z := Z.to_nat (converted_str_len - (tok_end t - tok_start t))).
  assert (Hlt : length (take n bytes) = (n `min` length bytes)%nat) by apply length_take.
  assert (Hfill : length (take n bytes ++ replicate z NUL) = n).
  { rewrite length_app, length_take, length_replicate. lia. }
  eexists. split; [by apply json_get_element_string_spec|].
  fold bytes n z. split; [|split; [|split]].
  - rewrite !length_app, length_take, length_replicate, length_drop. lia.
  - rewrite app_assoc. rewrite take_app_length' by done.
    destruct (decide (n <= length bytes)%nat) as [Hle|Hgt].
    + replace z with 0%nat by lia. cbn [replicate]. rewrite app_nil_r.
      by rewrite take_app_le by done.
    + rewrite (take_ge bytes) by lia. rewrite take_app_ge by lia. f_equal.
      rewrite take_replicate. f_equal. lia.
  - rewrite app_assoc. by rewrite drop_app_length' by done.
  - intros Hshort. rewrite (take_ge bytes) by lia.
    assert (Hz : z = S (z - 1)) by lia.
    split.
    + rewrite take_app_ge by lia.
      replace (Z.to_nat (tok_end t - tok_start t) + 1 - length bytes)%nat with 1%nat by lia.
      rewrite Hz. cbn [replicate app take]. by rewrite take_0.
    + exists (length bytes). split; [lia|].
      rewrite lookup_app_r by lia. rewrite Nat.sub_diag. by rewrite Hz.
Qed.

Lemma json_get_element_string_copies_witness :
  token_in_text sample_kv 0 sample_kv_value
  /\ (0 <= 6 <= Z.of_nat (length (chars "????????")))
  /\ exists out,
       json_get_element_string sample_kv 0 sample_kv_value (chars "????????") 6 = Ok out
       /\ length out = length (chars "????????")
       /\ take (Z.to_nat 6) out
          = take (Z.to_nat 6)
              (token_bytes sample_kv 0 sample_kv_value ++ replicate (Z.to_nat 6) NUL)
       /\ drop (Z.to_nat 6) out = drop (Z.to_nat 6) (chars "????????")
       /\ (tok_end sample_kv_value - tok_start sample_kv_value < 6 ->
           take (Z.to_nat (tok_end sample_kv_value - tok_start sample_kv_value) + 1) out
           = token_bytes sample_kv 0 sample_kv_value ++ [NUL]
           /\ terminated_within out 6).
Proof.
  assert (H1 : token_in_text sample_kv 0 sample_kv_value).
  { unfold token_in_text. vm_compute. repeat split; discriminate. }
  assert (H2 : 0 <= 6 <= Z.of_nat (length (chars "????????")))
    by (vm_compute; split; discriminate).
  refine (conj H1 (conj H2 _)).
  exact (json_get_element_string_copies sample_kv 0 sample_kv_value (chars "????????") 6
           H1 H2).
Defined.

(** The output of that sample: [wxyz], two zero bytes, and the two bytes
    after the capacity untouched. *)
Example json_get_element_string_copies_sample :
  json_get_element_string sample_kv 0 sample_kv_value (chars "????????") 6
  = Ok (chars "wxyz" ++ [NUL; NUL] ++ chars "??").
Proof. reflexivity. Qed.

(** ** [json_has_key] and the declared token count *)

(** X6.  [json_has_key] reads the first [num_tokens] entries of the token
    array and no other: its result is the same on the array cut to
    [num_tokens] entries. *)
Theorem json_has_key_within_count `{Platform} (js : obj) (ofs : Z)
    (json_tokens : list jsmntok_t) (num_tokens : Z) (key : obj) :
  0 <= num_tokens < 2 ^ 32 ->
  json_has_key js ofs json_tokens num_tokens key
  = json_has_key js ofs (take (Z.to_nat num_tokens) json_tokens) num_tokens key.
Proof.
  intros Hnum. unfold json_has_key.
  assert (Hloop : forall (n : nat) (i : Z), 0 <= i -> i + Z.of_nat n = num_tokens ->
            json_has_key_loop n js ofs json_tokens key i
            = json_has_key_loop n js ofs (take (Z.to_nat num_tokens) json_tokens) key i).
  { induction n as [|n IH]; intros i Hi Hn; [done|].
    cbn [json_has_key_loop]. rewrite lookup_take_lt by lia.
    rewrite (uint32_small (i + 1)) by lia. rewrite !IH by lia. done. }
  apply Hloop; lia.
Qed.

Lemma json_has_key_within_count_witness :
  (0 <= 3 < 2 ^ 32)
  /\ json_has_key sample_dup 0 sample_dup_tokens 3 (cstr (chars "b"))
     = json_has_key sample_dup 0 (take (Z.to_nat 3) sample_dup_tokens) 3 (cstr (chars "b")).
Proof.
  assert (H1 : 0 <= 3 < 2 ^ 32) by (vm_compute; split; [discriminate | reflexivity]).
  refine (conj H1 _).
  exact (json_has_key_within_count (H := esp32) sample_dup 0 sample_dup_tokens 3
           (cstr (chars "b")) H1).
Defined.

(** With a count of 3 the key [b], whose token is at index 3, is not found. *)
Example json_has_key_within_count_sample :
  json_has_key sample_dup 0 sample_dup_tokens 3 (cstr (chars "b")) = Ok 0.
Proof. reflexivity. Qed.

(** ** [json_get_key_value] *)

Section KeyValue.
Context `{Platform}.
Variables (js : obj) (ofs : Z) (tokens : list jsmntok_t) (num_tokens : Z) (k : list ascii).
Hypothesis Htokens : tokens_in_text js ofs tokens num_tokens.
Hypothesis Hk : NUL ∉ k.

Lemma json_has_key_absent :
  (forall i : nat, Z.of_nat i < num_tokens -> ~ key_match js ofs tokens k i) ->
  json_has_key js ofs tokens num_tokens (cstr k) = Ok 0.
Proof.
  intros Hnone. unfold json_has_key.
  assert (Hnum : 0 <= num_tokens) by (destruct Htokens as (? & _); lia).
  destruct (json_has_key_loop_spec js ofs tokens num_tokens k Htokens Hk
              (Z.to_nat num_tokens) 0) as (r & Hr & Hcases); [lia..|].
  rewrite Hr. destruct Hcases as [[-> _]|(Hr1 & Hm & _)]; [done|].
  exfalso. apply (Hnone (Z.to_nat r)); [lia | done].
Qed.

Lemma json_has_key_at (i : nat) :
  Z.of_nat i < num_tokens -> key_match js ofs tokens k i ->
  (forall j : nat, (j < i)%nat -> ~ key_match js ofs tokens k j) ->
  json_has_key js ofs tokens num_tokens (cstr k) = Ok (Z.of_nat i).
Proof.
  intros Hi Hmatch Hfirst. unfold json_has_key.
  destruct (json_has_key_loop_spec js ofs tokens num_tokens k Htokens Hk
              (Z.to_nat num_tokens) 0) as (r & Hr & Hcases); [lia..|].
  rewrite Hr. f_equal. destruct Hcases as [[-> Hnone]|(Hr1 & Hm & Hbefore)].
  - exfalso. apply (Hnone i); [lia | done].
  - destruct (decide (Z.to_nat r < i)%nat) as [Hlt|Hge]; [by destruct (Hfirst _ Hlt)|].
    destruct (decide (i < Z.to_nat r)%nat) as [Hlt|Hge']; [|lia].
    exfalso. apply (Hbefore i); [lia | done].
Qed.

End KeyValue.

(** X7.  [json_get_key_value] composes the key search and the copy.  When no
    token below [num_tokens] matches the key it returns [false] and leaves
    the output untouched.  When the first matching token is at index [i >= 1]
    it returns [true] and the output receives the bytes of the token at
    index [i + 1], cut to the capacity and followed by zero bytes up to the
    capacity. *)
Theorem json_get_key_value_composes `{Platform} (js : obj) (ofs : Z)
    (tokens : list jsmntok_t) (num_tokens : Z) (k : list ascii)
    (converted_str : obj) (converted_str_len : Z) :
  tokens_in_text js ofs tokens num_tokens -> NUL ∉ k ->
  0 <= converted_str_len <= Z.of_nat (length converted_str) ->
  ((forall i : nat, Z.of_nat i < num_tokens -> ~ key_match js ofs tokens k i) ->
   json_get_key_value (cstr k) js ofs tokens num_tokens converted_str converted_str_len
   = Ok (false, converted_str))
  /\ (forall (i : nat) (t : jsmntok_t),
        (0 < i)%nat -> Z.of_nat i < num_tokens -> key_match js ofs tokens k i ->
        (forall j : nat, (j < i)%nat -> ~ key_match js ofs tokens k j) ->
        tokens !! S i = Some t -> token_in_text js ofs t ->
        json_get_key_value (cstr k) js ofs tokens num_tokens converted_str converted_str_len
        = Ok (true,
              take (Z.to_nat converted_str_len) (token_bytes js ofs t)
              ++ replicate (Z.to_nat (converted_str_len - (tok_end t - tok_start t))) NUL
              ++ drop (Z.to_nat converted_str_len) converted_str)).
Proof.
  intros Htokens Hk Hcap. split.
  - intros Hnone. unfold json_get_key_value.
    rewrite (json_has_key_absent js ofs tokens num_tokens k Htokens Hk Hnone).
    cbn [mbind result_bind]. by rewrite decide_True by done.
  - intros i t Hpos Hi Hmatch Hfirst Ht Htok. unfold json_get_key_value.
    rewrite (json_has_key_at js ofs tokens num_tokens k Htokens Hk i Hi Hmatch Hfirst).
    cbn [mbind result_bind]. rewrite decide_False by lia.
    pose proof pow2_32_le_size as Hsz.
    assert (Hnum : num_tokens < 2 ^ 32) by (destruct Htokens as (? & _); lia).
    rewrite size_t_small by lia.
    replace (Z.to_nat (Z.of_nat i + 1)) with (S i) by lia. rewrite Ht.
    cbn [of_option mbind result_bind].
    by rewrite json_get_element_string_spec by done.
Qed.

Lemma sample_dup_match_b : key_match sample_dup 0 sample_dup_tokens (chars "b") 3.
Proof. eexists. split; [reflexivity|]. repeat split. Qed.

Lemma sample_dup_first_b (j : nat) :
  (j < 3)%nat -> ~ key_match sample_dup 0 sample_dup_tokens (chars "b") j.
Proof.
  intros Hj (t & Ht & Hty & Hlen & Hbytes).
  do 3 (destruct j as [|j]; [injection Ht as <-; vm_compute in Hty, Hbytes; congruence|]).
  lia.
Qed.

Lemma json_get_key_value_composes_witness :
  tokens_in_text sample_dup 0 sample_dup_tokens 7
  /\ (NUL ∉ chars "b")
  /\ (0 <= 4 <= Z.of_nat (length (chars "??????")))
  /\ (0 < 3)%nat /\ Z.of_nat 3 < 7
  /\ key_match sample_dup 0 sample_dup_tokens (chars "b") 3
  /\ sample_dup_tokens !! 4%nat = Some (mk_tok JSMN_PRIMITIVE 11 12)
  /\ token_in_text sample_dup 0 (mk_tok JSMN_PRIMITIVE 11 12)
  /\ json_get_key_value (cstr (chars "b")) sample_dup 0 sample_dup_tokens 7 (chars "??????") 4
     = Ok (true, chars "2" ++ [NUL; NUL; NUL] ++ chars "??").
Proof.
  assert (H2 : NUL ∉ chars "b") by not_in_chars.
  assert (H3 : 0 <= 4 <= Z.of_nat (length (chars "??????")))
    by (vm_compute; split; discriminate).
  assert (H4 : (0 < 3)%nat) by lia.
  assert (H5 : Z.of_nat 3 < 7) by reflexivity.
  assert (H7 : sample_dup_tokens !! 4%nat = Some (mk_tok JSMN_PRIMITIVE 11 12))
    by reflexivity.
  assert (H8 : token_in_text sample_dup 0 (mk_tok JSMN_PRIMITIVE 11 12)).
  { unfold token_in_text. vm_compute. repeat split; discriminate. }
  refine (conj sample_dup_tokens_in_text (conj H2 (conj H3 (conj H4 (conj H5
           (conj sample_dup_match_b (conj H7 (conj H8 _)))))))).
  exact (proj2 (json_get_key_value_composes (H := esp32) sample_dup 0 sample_dup_tokens 7
                  (chars "b") (chars "??????") 4 sample_dup_tokens_in_text H2 H3)
           3%nat _ H4 H5 sample_dup_match_b sample_dup_first_b H7 H8).
Defined.

(** X8.  [json_get_key_value] reads the token after the matching one without
    comparing its index with [num_tokens]: when the first match is the last
    entry of the token array, the read is past the end of the array. *)
Theorem json_get_key_value_last_token `{Platform} (js : obj) (ofs : Z)
    (tokens : list jsmntok_t) (num_tokens : Z) (k : list ascii)
    (converted_str : obj) (converted_str_len : Z) (i : nat) :
  tokens_in_text js ofs tokens num_tokens -> NUL ∉ k ->
  (0 < i)%nat -> key_match js ofs tokens k i ->
  (forall j : nat, (j < i)%nat -> ~ key_match js ofs tokens k j) ->
  Z.of_nat (S i) = num_tokens -> length tokens = S i ->
  json_get_key_value (cstr k) js ofs tokens num_tokens converted_str converted_str_len
  = Fault.
Proof.
  intros Htokens Hk Hpos Hmatch Hfirst Hnum Hlen. unfold json_get_key_value.
  rewrite (json_has_key_at js ofs tokens num_tokens k Htokens Hk i ltac:(lia) Hmatch Hfirst).
  cbn [mbind result_bind]. rewrite decide_False by lia.
  pose proof pow2_32_le_size as Hsz.
  assert (Hlt : num_tokens < 2 ^ 32) by (destruct Htokens as (? & _); lia).
  rewrite size_t_small by lia.
  replace (Z.to_nat (Z.of_nat i + 1)) with (S i) by lia.
  by rewrite lookup_ge_None_2 by lia.
Qed.

Lemma sample_dup_cut_in_text : tokens_in_text sample_dup 0 (take 4 sample_dup_tokens) 4.
Proof.
  split; [split; [discriminate | reflexivity]|]. split; [vm_compute; discriminate|].
  intros i t Hi Ht.
  do 4 (destruct i as [|i];
        [injection Ht as <-; unfold token_in_text; vm_compute; repeat split; discriminate|]).
  lia.
Qed.

Lemma json_get_key_value_last_token_witness :
  tokens_in_text sample_dup 0 (take 4 sample_dup_tokens) 4
  /\ (NUL ∉ chars "b")
  /\ (0 < 3)%nat
  /\ key_match sample_dup 0 (take 4 sample_dup_tokens) (chars "b") 3
  /\ Z.of_nat 4 = 4
  /\ length (take 4 sample_dup_tokens) = 4%nat
  /\ json_get_key_value (cstr (chars "b")) sample_dup 0 (take 4 sample_dup_tokens) 4
       (chars "??????") 4 = Fault.
Proof.
  assert (H2 : NUL ∉ chars "b") by not_in_chars.
  assert (H3 : (0 < 3)%nat) by lia.
  assert (H4 : key_match sample_dup 0 (take 4 sample_dup_tokens) (chars "b") 3).
  { eexists. split; [reflexivity|]. repeat split. }
  assert (H5 : forall j : nat, (j < 3)%nat ->
                 ~ key_match sample_dup 0 (take 4 sample_dup_tokens) (chars "b") j).
  { intros j Hj (t & Ht & Hty & Hlen & Hbytes).
    do 3 (destruct j as [|j]; [injection Ht as <-; vm_compute in Hty, Hbytes; congruence|]).
    lia. }
  assert (H6 : Z.of_nat 4 = 4) by reflexivity.
  assert (H7 : length (take 4 sample_dup_tokens) = 4%nat) by reflexivity.
  refine (conj sample_dup_cut_in_text (conj H2 (conj H3 (conj H4 (conj H6 (conj H7 _)))))).
  exact (json_get_key_value_last_token (H := esp32) sample_dup 0 (take 4 sample_dup_tokens) 4
           (chars "b") (chars "??????") 4 3 sample_dup_cut_in_text H2 H3 H4 H5 H6 H7).
Defined.

(** ** The unwrapper on any response *)

(** X9.  For a response whose text has the header separator, after it an
    ["ok":] marker followed by [true], and after that a ["result":] marker,
    the statements of [tlg_get] and [tlg_post] after the transport call
    return [true] and leave, at offset 0 of the same buffer and terminated,
    the text that follows the ["result":] marker up to, and without, the
    last character of the response. *)
Theorem tlg_unwrap_payload `{Platform} (text : list ascii) (last : ascii) (pad : list ascii)
    (response_len : Z) (p1 q2 q3 : nat) :
  NUL ∉ text -> last <> NUL ->
  Z.of_nat (length (text ++ last :: NUL :: pad)) < 2 ^ 31 ->
  find_after lit_crlfcrlf text = Some p1 ->
  find_after lit_ok (drop p1 text) = Some q2 ->
  take 4 (drop (p1 + q2) text) = lit_true ->
  find_after lit_result (drop (p1 + q2) text) = Some q3 ->
  unwraps_to (text ++ last :: NUL :: pad) response_len (drop (p1 + q2 + q3) text).
Proof.
  intros Htext Hlast Hsize Hp1 Hq2 Htrue Hq3. unfold unwraps_to.
  rewrite (tlg_unwrap_spec text last pad Htext Hlast Hsize).
  unfold unwrap_spec. rewrite Hp1, Hq2. cbn zeta.
  rewrite bool_decide_eq_true_2 by done. rewrite Hq3.
  set (payload := drop (p1 + q2 + q3) text).
  assert (Hpl : (length payload <= length text)%nat)
    by (unfold payload; rewrite length_drop; lia).
  assert (Hb : length (payload ++ [NUL]) = S (length payload))
    by (rewrite length_app; cbn [length]; lia).
  eexists. split; [done|]. split.
  - rewrite length_overwrite; rewrite !length_app; cbn [length]; lia.
  - unfold overwrite. rewrite take_0. cbn [app].
    rewrite take_app_le by lia. apply take_ge. lia.
Qed.

Lemma tlg_unwrap_payload_witness :
  (NUL ∉ removelast (updates_response update_text))
  /\ "}"%char <> NUL
  /\ Z.of_nat (length (removelast (updates_response update_text) ++ "}"%char :: NUL :: []))
     < 2 ^ 31
  /\ find_after lit_crlfcrlf (removelast (updates_response update_text)) = Some 19%nat
  /\ find_after lit_ok (drop 19 (removelast (updates_response update_text))) = Some 6%nat
  /\ take 4 (drop (19 + 6) (removelast (updates_response update_text))) = lit_true
  /\ find_after lit_result (drop (19 + 6) (removelast (updates_response update_text)))
     = Some 14%nat
  /\ unwraps_to (H := esp32)
       (removelast (updates_response update_text) ++ "}"%char :: NUL :: []) 256
       (drop (19 + 6 + 14) (removelast (updates_response update_text))).
Proof.
  assert (H1 : NUL ∉ removelast (updates_response update_text)) by not_in_chars.
  assert (H2 : "}"%char <> NUL) by discriminate.
  assert (H3 : Z.of_nat (length (removelast (updates_response update_text)
                                   ++ "}"%char :: NUL :: [])) < 2 ^ 31) by reflexivity.
  assert (H4 : find_after lit_crlfcrlf (removelast (updates_response update_text))
               = Some 19%nat) by (vm_compute; reflexivity).
  assert (H5 : find_after lit_ok (drop 19 (removelast (updates_response update_text)))
               = Some 6%nat) by (vm_compute; reflexivity).
  assert (H6 : take 4 (drop (19 + 6) (removelast (updates_response update_text))) = lit_true)
    by (vm_compute; reflexivity).
  assert (H7 : find_after lit_result (drop (19 + 6) (removelast (updates_response update_text)))
               = Some 14%nat) by (vm_compute; reflexivity).
  refine (conj H1 (conj H2 (conj H3 (conj H4 (conj H5 (conj H6 (conj H7 _))))))).
  exact (tlg_unwrap_payload (H := esp32) (removelast (updates_response update_text))
           "}"%char [] 256 19 6 14 H1 H2 H3 H4 H5 H6 H7).
Defined.

(** X10.  For a response without the header separator [\r\n\r\n], the
    statements of [tlg_get] and [tlg_post] after the transport call return
    [false] and clear the first [response_len] bytes of the buffer: here the
    local pointer has not moved, and a buffer of [response_len] bytes is all
    zero bytes afterwards. *)
Theorem tlg_unwrap_no_separator_clears `{Platform} (text : list ascii) (last : ascii)
    (pad : list ascii) (response_len : Z) :
  NUL ∉ text -> last <> NUL ->
  Z.of_nat (length (text ++ last :: NUL :: pad)) < 2 ^ 31 ->
  find_after lit_crlfcrlf text = None ->
  0 <= response_len <= Z.of_nat (length (text ++ last :: NUL :: pad)) ->
  tlg_unwrap (text ++ last :: NUL :: pad) response_len
  = Ok (false, replicate (Z.to_nat response_len) NUL
               ++ drop (Z.to_nat response_len) (text ++ NUL :: NUL :: pad))
  /\ (response_len = Z.of_nat (length (text ++ last :: NUL :: pad)) ->
      tlg_unwrap (text ++ last :: NUL :: pad) response_len
      = Ok (false, replicate (length (text ++ last :: NUL :: pad)) NUL)).
Proof.
  intros Htext Hlast Hsize Hnone Hlen.
  assert (Hrun : tlg_unwrap (text ++ last :: NUL :: pad) response_len
                 = Ok (false, replicate (Z.to_nat response_len) NUL
                              ++ drop (Z.to_nat response_len) (text ++ NUL :: NUL :: pad))).
  { rewrite (tlg_unwrap_spec text last pad Htext Hlast Hsize).
    unfold unwrap_spec. rewrite Hnone.
    rewrite !length_app in *. cbn [length] in *.
    unfold memset. rewrite decide_True by (rewrite length_app; cbn [length]; lia).
    cbn [mbind result_bind]. change (Z.to_nat (Z.of_nat 0)) with 0%nat.
    rewrite take_0. cbn [app]. by rewrite Z.add_0_l. }
  split; [exact Hrun|]. intros Hexact. rewrite Hrun. do 2 f_equal.
  rewrite Hexact, Nat2Z.id.
  rewrite drop_ge by (rewrite !length_app; cbn [length]; lia). by rewrite app_nil_r.
Qed.

Lemma tlg_unwrap_no_separator_clears_witness :
  (NUL ∉ chars "HTTP/1.1 502 Bad Gateway" ++ [CR])
  /\ LF <> NUL
  /\ Z.of_nat (length ((chars "HTTP/1.1 502 Bad Gateway" ++ [CR]) ++ LF :: NUL :: chars "??"))
     < 2 ^ 31
  /\ find_after lit_crlfcrlf (chars "HTTP/1.1 502 Bad Gateway" ++ [CR]) = None
  /\ (0 <= 29
      <= Z.of_nat (length ((chars "HTTP/1.1 502 Bad Gateway" ++ [CR]) ++ LF :: NUL :: chars "??")))
  /\ tlg_unwrap ((chars "HTTP/1.1 502 Bad Gateway" ++ [CR]) ++ LF :: NUL :: chars "??") 29
     = Ok (false, replicate 29 NUL).
Proof.
  assert (H1 : NUL ∉ chars "HTTP/1.1 502 Bad Gateway" ++ [CR]) by not_in_chars.
  assert (H2 : LF <> NUL) by discriminate.
  assert (H3 : Z.of_nat (length ((chars "HTTP/1.1 502 Bad Gateway" ++ [CR])
                                   ++ LF :: NUL :: chars "??")) < 2 ^ 31) by reflexivity.
  assert (H4 : find_after lit_crlfcrlf (chars "HTTP/1.1 502 Bad Gateway" ++ [CR]) = None)
    by (vm_compute; reflexivity).
  assert (H5 : 0 <= 29 <= Z.of_nat (length ((chars "HTTP/1.1 502 Bad Gateway" ++ [CR])
                                             ++ LF :: NUL :: chars "??")))
    by (vm_compute; split; discriminate).
  refine (conj H1 (conj H2 (conj H3 (conj H4 (conj H5 _))))).
  exact (proj2 (tlg_unwrap_no_separator_clears (H := esp32)
                  (chars "HTTP/1.1 502 Bad Gateway" ++ [CR]) LF (chars "??") 29
                  H1 H2 H3 H4 H5) eq_refl).
Defined.

(** X11.  For a response with the header separator but without an ["ok":]
    marker after it, or with ["ok":true] but without a ["result":] marker
    after that, the [memset] that clears the response starts at the local
    pointer, which has moved past the header (and past the ["ok":] marker):
    on a buffer object of exactly [response_len] bytes it runs past the end
    of the object. *)
Theorem tlg_unwrap_missing_marker_overruns `{Platform} (text : list ascii) (last : ascii)
    (pad : list ascii) (response_len : Z) (p1 : nat) :
  NUL ∉ text -> last <> NUL ->
  Z.of_nat (length (text ++ last :: NUL :: pad)) < 2 ^ 31 ->
  find_after lit_crlfcrlf text = Some p1 ->
  (find_after lit_ok (drop p1 text) = None
   \/ exists q2 : nat,
        find_after lit_ok (drop p1 text) = Some q2
        /\ take 4 (drop (p1 + q2) text) = lit_true
        /\ find_after lit_result (drop (p1 + q2) text) = None) ->
  Z.of_nat (length (text ++ last :: NUL :: pad)) = response_len ->
  tlg_unwrap (text ++ last :: NUL :: pad) response_len = Fault.
Proof.
  intros Htext Hlast Hsize Hp1 Hmissing Hexact.
  rewrite (tlg_unwrap_spec text last pad Htext Hlast Hsize).
  unfold unwrap_spec. rewrite Hp1.
  apply find_after_bounds in Hp1. change (length lit_crlfcrlf) with 4%nat in Hp1.
  assert (Hfault : forall p : nat, (0 < p)%nat ->
            (memset (text ++ NUL :: NUL :: pad) (Z.of_nat p) NUL response_len
               ≫= fun cleared => Ok (false, cleared)) = Fault).
  { intros p Hp. unfold memset. rewrite decide_False; [done|].
    rewrite !length_app in *. cbn [length] in *. lia. }
  destruct Hmissing as [Hok|(q2 & Hq2 & Htrue & Hres)].
  - rewrite Hok. apply Hfault. lia.
  - rewrite Hq2. cbn zeta. rewrite bool_decide_eq_true_2 by done. rewrite Hres.
    apply Hfault. lia.
Qed.

Lemma tlg_unwrap_missing_marker_overruns_witness :
  (NUL ∉ status_line ++ [CR; LF] ++ chars "{")
  /\ "}"%char <> NUL
  /\ Z.of_nat (length ((status_line ++ [CR; LF] ++ chars "{") ++ "}"%char :: NUL :: [])) < 2 ^ 31
  /\ find_after lit_crlfcrlf (status_line ++ [CR; LF] ++ chars "{") = Some 19%nat
  /\ find_after lit_ok (drop 19 (status_line ++ [CR; LF] ++ chars "{")) = None
  /\ Z.of_nat (length ((status_line ++ [CR; LF] ++ chars "{") ++ "}"%char :: NUL :: [])) = 22
  /\ tlg_unwrap ((status_line ++ [CR; LF] ++ chars "{") ++ "}"%char :: NUL :: []) 22 = Fault.
Proof.
  assert (H1 : NUL ∉ status_line ++ [CR; LF] ++ chars "{") by not_in_chars.
  assert (H2 : "}"%char <> NUL) by discriminate.
  assert (H3 : Z.of_nat (length ((status_line ++ [CR; LF] ++ chars "{")
                                   ++ "}"%char :: NUL :: [])) < 2 ^ 31) by reflexivity.
  assert (H4 : find_after lit_crlfcrlf (status_line ++ [CR; LF] ++ chars "{") = Some 19%nat)
    by (vm_compute; reflexivity).
  assert (H5 : find_after lit_ok (drop 19 (status_line ++ [CR; LF] ++ chars "{")) = None)
    by (vm_compute; reflexivity).
  assert (H6 : Z.of_nat (length ((status_line ++ [CR; LF] ++ chars "{")
                                   ++ "}"%char :: NUL :: [])) = 22) by reflexivity.
  refine (conj H1 (conj H2 (conj H3 (conj H4 (conj H5 (conj H6 _)))))).
  exact (tlg_unwrap_missing_marker_overruns (H := esp32) (status_line ++ [CR; LF] ++ chars "{")
           "}"%char [] 22 19 H1 H2 H3 H4 (or_introl H5) H6).
Defined.

(** X12.  On an empty response (the transport reports success and the
    buffer starts with a zero byte), the statement
    [response[strlen(response)-1] = 0] writes at index [(size_t) -1]: outside
    the buffer. *)
Theorem tlg_unwrap_empty_response `{Platform} (rest : list ascii) (response_len : Z) :
  Z.of_nat (length (NUL :: rest)) < 2 ^ 32 ->
  tlg_unwrap (NUL :: rest) response_len = Fault.
Proof.
  intros Hsize. unfold tlg_unwrap.
  change (strlen (NUL :: rest) 0) with (Ok 0 : result Z). cbn [mbind result_bind].
  pose proof pow2_32_le_size as Hsz.
  assert (Hidx : size_t (0 - 1) = 2 ^ size_bits - 1).
  { unfold size_t, wrap. change (0 - 1) with (-1).
    assert (0 < 2 ^ size_bits) by lia.
    symmetry. apply (Z.mod_unique_pos _ _ (-1)); lia. }
  rewrite Hidx. unfold store. rewrite decide_False by lia. done.
Qed.

Lemma tlg_unwrap_empty_response_witness :
  Z.of_nat (length (NUL :: replicate 63 NUL)) < 2 ^ 32
  /\ tlg_unwrap (NUL :: replicate 63 NUL) 64 = Fault.
Proof.
  assert (H1 : Z.of_nat (length (NUL :: replicate 63 NUL)) < 2 ^ 32) by reflexivity.
  refine (conj H1 _).
  exact (tlg_unwrap_empty_response (H := esp32) (replicate 63 NUL) 64 H1).
Defined.

(** ** The record between polls *)

Lemma store_empty_string (o o' : obj) : store o 0 NUL = Ok o' -> empty_string o'.
Proof.
  intros Hs. apply store_Ok in Hs as [Hi ->]. unfold empty_string.
  change (Z.to_nat 0) with 0%nat. apply list_lookup_insert_eq. lia.
Qed.

Lemma clear_msg_data_cleared (m m' : tlg_type_message) :
  clear_msg_data m = Ok m' -> cleared_record m'.
Proof.
  unfold clear_msg_data. intros Hrun. inv_ok Hrun. injection Hrun as <-.
  unfold cleared_record. cbn.
  repeat match goal with
         | Hs : store _ 0 NUL = Ok _ |- _ => apply store_empty_string in Hs
         end.
  repeat split; assumption.
Qed.

Section Record.
Context `{Platform} `{Tokenizer} `{Scanf} `{Config} {C : Type} `{HttpsClient C}.
Implicit Types b : @uTLGBot C.

Lemma disconnect_record b : received_msg (disconnect b) = received_msg b.
Proof. unfold disconnect. by destruct (negb (is_connected b)). Qed.

Lemma disconnect_unless_kept_record b :
  received_msg (disconnect_unless_kept b) = received_msg b.
Proof.
  unfold disconnect_unless_kept.
  destruct (_dont_keep_connection b && is_connected b); [apply disconnect_record | done].
Qed.

Lemma connect_record b : received_msg (connect b).2 = received_msg b.
Proof.
  unfold connect. destruct (is_connected b); [done|].
  destruct (client_connect _ _ _) as [conn_res c].
  repeat case_decide; cbn [snd]; rewrite ?disconnect_record; done.
Qed.

Lemma getUpdates_receive_record b b1 ptr_response :
  getUpdates_receive b = Ok (inr (b1, ptr_response)) -> received_msg b1 = received_msg b.
Proof.
  unfold getUpdates_receive. intros Hrun.
  assert (Hconn : exists connected b0,
            (if is_connected b then (true, b) else connect b) = (connected, b0)
            /\ received_msg b0 = received_msg b).
  { destruct (is_connected b); [by exists true, b|].
    exists (connect b).1, (connect b).2. split; [by destruct (connect b)|].
    apply connect_record. }
  destruct Hconn as (connected & b0 & Hpair & <-). rewrite Hpair in Hrun.
  inv_ok Hrun; try discriminate Hrun.
  all: injection Hrun as <- _; done.
Qed.

Lemma getUpdates_tokenize_record b b' ptr_response num_elements :
  getUpdates_tokenize b ptr_response = Ok (num_elements, b') ->
  clear_msg_data (received_msg b) = Ok (received_msg b').
Proof.
  unfold getUpdates_tokenize. intros Hrun.
  apply bind_Ok in Hrun as (msg & Hclear & Hrun). rewrite Hclear. f_equal.
  inv_ok Hrun. by injection Hrun as _ <-.
Qed.

(** A [return 0] of [getUpdates] before the payload is tokenized leaves the
    message record, the poll offset and the polling timeout as they were. *)
Lemma getUpdates_receive_early_keeps b b' :
  getUpdates_receive b = Ok (inl b') ->
  getUpdates b = Ok (0, b')
  /\ received_msg b' = received_msg b
  /\ _last_received_msg b' = _last_received_msg b
  /\ _long_poll_timeout b' = _long_poll_timeout b.
Proof.
  intros Hreceive. split.
  { unfold getUpdates. by rewrite Hreceive. }
  revert Hreceive. unfold getUpdates_receive.
  assert (Hconn : exists connected b0,
            (if is_connected b then (true, b) else connect b) = (connected, b0)
            /\ received_msg b0 = received_msg b
            /\ _last_received_msg b0 = _last_received_msg b
            /\ _long_poll_timeout b0 = _long_poll_timeout b).
  { destruct (is_connected b); [by exists true, b|].
    exists (connect b).1, (connect b).2. split; [by destruct (connect b)|].
    split; [apply connect_record|]. split; [apply connect_last | apply connect_timeout]. }
  destruct Hconn as (connected & b0 & -> & <- & <- & <-). intros Hreceive.
  inv_ok Hreceive; try discriminate Hreceive; injection Hreceive as <-;
    rewrite ?disconnect_record, ?disconnect_unless_kept_record, ?disconnect_last,
      ?disconnect_unless_kept_last, ?disconnect_timeout, ?disconnect_unless_kept_timeout;
    try done.
  case_match; rewrite ?disconnect_record, ?disconnect_last, ?disconnect_timeout; done.
Qed.

(** X14.  When the payload of a poll cycle fails to tokenize, [getUpdates]
    returns 0 with the message record cleared: the record of the previous
    message is gone, since [clear_msg_data] runs before the tokenizer. *)
Theorem getUpdates_unparsable_clears_record b b1 b2 ptr_response :
  getUpdates_receive b = Ok (inr (b1, ptr_response)) ->
  getUpdates_tokenize b1 ptr_response = Ok (0, b2) ->
  exists b',
    getUpdates b = Ok (0, b')
    /\ clear_msg_data (received_msg b) = Ok (received_msg b')
    /\ cleared_record (received_msg b').
Proof.
  intros Hreceive Htokenize.
  eexists. split; [by apply (getUpdates_parse_failure b b1 b2 ptr_response)|].
  rewrite disconnect_unless_kept_record. cbn [received_msg set_last_received_msg].
  apply getUpdates_receive_record in Hreceive.
  apply getUpdates_tokenize_record in Htokenize. rewrite Hreceive in Htokenize.
  split; [done|]. by eapply clear_msg_data_cleared.
Qed.

End Record.

(** ** [strcmp], [strncpy] and [snprintf] on C strings *)

Lemma strncmp_aux_cstrings (n : nat) (pre1 v rest1 pre2 l rest2 : list ascii) :
  NUL ∉ v -> NUL ∉ l -> (length v < n)%nat ->
  exists r,
    strncmp_aux n (pre1 ++ v ++ NUL :: rest1) (Z.of_nat (length pre1))
      (pre2 ++ l ++ NUL :: rest2) (Z.of_nat (length pre2)) = Ok r
    /\ (r = 0 <-> v = l).
Proof.
  revert n pre1 pre2 l. induction v as [|x v IH]; intros n pre1 pre2 l Hv Hl Hn.
  - destruct n as [|n]; [simpl in Hn; lia|]. cbn [strncmp_aux app].
    assert (load (pre1 ++ NUL :: rest1) (Z.of_nat (length pre1)) = Ok NUL) as ->.
    { apply load_nat. by rewrite lookup_app_r, Nat.sub_diag by lia. }
    cbn [mbind result_bind]. destruct l as [|y l].
    + assert (load (pre2 ++ [] ++ NUL :: rest2) (Z.of_nat (length pre2)) = Ok NUL) as ->.
      { apply load_nat. by rewrite lookup_app_r, Nat.sub_diag by lia. }
      cbn [mbind result_bind]. rewrite !decide_True by done. by exists 0.
    + apply not_elem_of_cons in Hl as [Hy Hl].
      assert (load (pre2 ++ (y :: l) ++ NUL :: rest2) (Z.of_nat (length pre2)) = Ok y) as ->.
      { apply load_nat. by rewrite lookup_app_r, Nat.sub_diag by lia. }
      cbn [mbind result_bind]. rewrite decide_False by done.
      eexists. split; [done|]. split; [|done].
      intros Hz. exfalso. apply Hy. symmetry. apply nat_of_ascii_inj. lia.
  - apply not_elem_of_cons in Hv as [Hx Hv].
    destruct n as [|n]; [simpl in Hn; lia|]. cbn [strncmp_aux].
    assert (load (pre1 ++ (x :: v) ++ NUL :: rest1) (Z.of_nat (length pre1)) = Ok x) as ->.
    { apply load_nat. by rewrite lookup_app_r, Nat.sub_diag by lia. }
    cbn [mbind result_bind]. destruct l as [|y l].
    + assert (load (pre2 ++ [] ++ NUL :: rest2) (Z.of_nat (length pre2)) = Ok NUL) as ->.
      { apply load_nat. by rewrite lookup_app_r, Nat.sub_diag by lia. }
      cbn [mbind result_bind]. rewrite decide_False by congruence.
      eexists. split; [done|]. split; [|done].
      intros Hz. exfalso. apply Hx. apply nat_of_ascii_inj. lia.
    + apply not_elem_of_cons in Hl as [Hy Hl].
      assert (load (pre2 ++ (y :: l) ++ NUL :: rest2) (Z.of_nat (length pre2)) = Ok y) as ->.
      { apply load_nat. by rewrite lookup_app_r, Nat.sub_diag by lia. }
      cbn [mbind result_bind].
      destruct (decide (x = y)) as [->|Hne].
      * rewrite decide_False by congruence.
        destruct (IH n (pre1 ++ [y]) (pre2 ++ [y]) l Hv Hl ltac:(simpl in Hn; lia))
          as (r & Hr & Hiff).
        exists r. split.
        -- rewrite <- Hr. rewrite <- !(app_assoc _ [y]). rewrite !length_app. cbn [length app].
           f_equal; lia.
        -- rewrite Hiff. split; [by intros -> | by intros [=]].
      * eexists. split; [done|]. split; [|by intros [=]].
        intros Hz. exfalso. apply Hne, nat_of_ascii_inj. lia.
Qed.

(** [strcmp] of a C string with a literal is 0 exactly when they are equal. *)
Lemma strcmp_cstring (v rest l : list ascii) :
  NUL ∉ v -> NUL ∉ l ->
  exists r, strcmp (v ++ NUL :: rest) 0 (cstr l) 0 = Ok r /\ (r = 0 <-> v = l).
Proof.
  intros Hv Hl. unfold strcmp, cstr.
  apply (strncmp_aux_cstrings _ [] v rest [] l [] Hv Hl).
  rewrite length_app. cbn [length]. lia.
Qed.

Lemma strncpy_aux_short (n : nat) (dst : obj) (dp : nat) (spre v rest : list ascii) :
  NUL ∉ v -> (length v < n)%nat -> (dp + n <= length dst)%nat ->
  strncpy_aux n dst (Z.of_nat dp) (spre ++ v ++ NUL :: rest) (Z.of_nat (length spre))
  = Ok (overwrite dst dp (v ++ replicate (n - length v) NUL)).
Proof.
  revert n dst dp spre. induction v as [|x v IH]; intros n dst dp spre Hv Hn Hdp.
  - destruct n as [|n]; [simpl in Hn; lia|]. cbn [strncpy_aux app length].
    assert (load (spre ++ NUL :: rest) (Z.of_nat (length spre)) = Ok NUL) as ->.
    { apply load_nat. by rewrite lookup_app_r, Nat.sub_diag by lia. }
    cbn [mbind result_bind]. rewrite store_nat by lia. cbn [mbind result_bind].
    rewrite decide_True by done. unfold memset.
    rewrite decide_True by (rewrite length_insert; lia). f_equal.
    unfold overwrite. rewrite length_replicate.
    replace (Z.to_nat (Z.of_nat dp + 1)) with (S dp) by lia.
    destruct (lookup_lt_is_Some_2 dst dp ltac:(lia)) as [y Hy].
    rewrite (take_S_r _ dp NUL) by (by apply list_lookup_insert_eq; lia).
    rewrite take_insert_ge by lia. rewrite <- app_assoc. f_equal.
    rewrite Nat.sub_0_r, Nat2Z.id. cbn [replicate app]. do 2 f_equal.
    rewrite drop_insert_lt by lia. f_equal. lia.
  - apply not_elem_of_cons in Hv as [Hx Hv].
    destruct n as [|n]; [simpl in Hn; lia|]. cbn [strncpy_aux].
    assert (load (spre ++ (x :: v) ++ NUL :: rest) (Z.of_nat (length spre)) = Ok x) as ->.
    { apply load_nat. by rewrite lookup_app_r, Nat.sub_diag by lia. }
    cbn [mbind result_bind]. rewrite store_nat by lia. cbn [mbind result_bind].
    rewrite decide_False by congruence.
    replace (Z.of_nat dp + 1) with (Z.of_nat (S dp)) by lia.
    replace (Z.of_nat (length spre) + 1) with (Z.of_nat (length (spre ++ [x])))
      by (rewrite length_app; cbn [length]; lia).
    replace (spre ++ (x :: v) ++ NUL :: rest) with ((spre ++ [x]) ++ v ++ NUL :: rest)
      by (by rewrite <- app_assoc).
    rewrite IH by (rewrite ?length_insert; simpl in Hn; (done || lia)).
    rewrite overwrite_insert_cons by lia. done.
Qed.

(** [strncpy] of a string shorter than [n]: the string and zero bytes up to
    [n]. *)
Lemma strncpy_short (dst : obj) (v rest : list ascii) (n : Z) :
  NUL ∉ v -> Z.of_nat (length v) < n <= Z.of_nat (length dst) ->
  strncpy dst (v ++ NUL :: rest) n
  = Ok (v ++ replicate (Z.to_nat n - length v) NUL ++ drop (Z.to_nat n) dst).
Proof.
  intros Hv Hn. unfold strncpy.
  pose proof (strncpy_aux_short (Z.to_nat n) dst 0 [] v rest Hv ltac:(lia) ltac:(lia)) as Hcopy.
  cbn [app length] in Hcopy. change (Z.of_nat 0) with 0 in Hcopy. rewrite Hcopy. f_equal.
  unfold overwrite. rewrite take_0. cbn [app]. rewrite <- app_assoc. do 2 f_equal.
  rewrite length_app, length_replicate. f_equal. lia.
Qed.

(** [snprintf] into a buffer of at least [n >= 1] bytes: the first [n - 1]
    characters of the output and a terminator. *)
Lemma snprintf_spec (dst : obj) (n : Z) (out : list ascii) :
  0 < n <= Z.of_nat (length dst) ->
  snprintf dst n out
  = Ok (take (Z.to_nat (n - 1)) out
        ++ NUL :: drop (S (length (take (Z.to_nat (n - 1)) out))) dst).
Proof.
  intros Hn. unfold snprintf. rewrite decide_False by lia.
  set (k := Z.to_nat (Z.min (Z.of_nat (length out)) (n - 1))).
  replace (Z.min (Z.of_nat (length out)) (n - 1)) with (Z.of_nat k) by lia.
  assert (Hk : take (Z.to_nat (n - 1)) out = take k out).
  { destruct (decide (Z.of_nat (length out) <= n - 1)) as [Hle|Hgt].
    - rewrite !take_ge by lia. done.
    - f_equal. lia. }
  rewrite Hk. assert (Hlk : length (take k out) = k) by (rewrite length_take; lia).
  rewrite Hlk.
  unfold memcpy. rewrite decide_True by lia. cbn [mbind result_bind].
  change (Z.to_nat 0) with 0%nat. rewrite take_0, drop_0. cbn [app].
  rewrite Z.add_0_l, Nat2Z.id.
  rewrite store_nat by (rewrite length_app, length_drop, Hlk; lia). f_equal.
  replace k with (length (take k out) + 0)%nat at 1 by lia.
  rewrite insert_app_r.
  destruct (drop k dst) as [|x tail] eqn:Hd.
  - apply drop_nil_inv in Hd. lia.
  - cbn. do 2 f_equal.
    replace (S k) with (k + 1)%nat by lia.
    by rewrite <- drop_drop, Hd.
Qed.

Lemma string_at_0 (s rest : list ascii) :
  NUL ∉ s -> string_at (s ++ NUL :: rest) 0 = Ok s.
Proof.
  intros Hs. unfold string_at. rewrite strlen_0 by done. cbn [mbind result_bind].
  change (Z.to_nat 0) with 0%nat. rewrite drop_0, Nat2Z.id. by rewrite take_app_length.
Qed.

Lemma NUL_not_in_take (s : list ascii) (n : nat) : NUL ∉ s -> NUL ∉ take n s.
Proof. intros Hs Hin. apply Hs. by apply (subseteq_take n s). Qed.

(** ** The sub-keys of [from] and [chat] *)

Section SubFields.
Context `{Platform} `{Tokenizer} `{Scanf} `{Config} {C : Type} `{HttpsClient C}.
Implicit Types b : @uTLGBot C.

(** X15.  A string sub-key whose value is shorter than the capacity of its
    field is copied whole: the field holds the value, then zero bytes up to
    the capacity, so it is terminated. *)
Theorem copy_subvalue_short_padded b b1 (num_subelements : Z) (key : list ascii)
    (field : uTLGBot -> obj) (cap : Z) (save : uTLGBot -> obj -> uTLGBot)
    (v rest : list ascii) :
  get_subvalue b num_subelements key = Ok (true, b1) ->
  _json_subvalue_str b1 = v ++ NUL :: rest -> NUL ∉ v ->
  Z.of_nat (length v) < cap <= Z.of_nat (length (field b1)) ->
  copy_subvalue b num_subelements key field cap save
  = Ok (save b1 (v ++ replicate (Z.to_nat cap - length v) NUL
                   ++ drop (Z.to_nat cap) (field b1)))
  /\ string_at (v ++ replicate (Z.to_nat cap - length v) NUL
                  ++ drop (Z.to_nat cap) (field b1)) 0 = Ok v.
Proof.
  intros Hget Hvalue Hv Hcap. split.
  - unfold copy_subvalue. rewrite Hget. cbn [mbind result_bind].
    rewrite Hvalue. by rewrite strncpy_short by done.
  - replace (Z.to_nat cap - length v)%nat with (S (Z.to_nat cap - length v - 1)) by lia.
    cbn [replicate app]. by apply string_at_0.
Qed.

(** X16.  A boolean sub-key ([is_bot], [all_members_are_administrators]) is
    saved as [true] exactly when its value is the literal [true], and as
    [false] for any other value. *)
Theorem flag_subvalue_exact_true b b1 (num_subelements : Z) (key : list ascii)
    (save : uTLGBot -> bool -> uTLGBot) (v rest : list ascii) :
  get_subvalue b num_subelements key = Ok (true, b1) ->
  _json_subvalue_str b1 = v ++ NUL :: rest -> NUL ∉ v ->
  flag_subvalue b num_subelements key save = Ok (save b1 (bool_decide (v = chars "true"))).
Proof.
  intros Hget Hvalue Hv. unfold flag_subvalue. rewrite Hget. cbn [mbind result_bind].
  rewrite Hvalue.
  destruct (strcmp_cstring v rest lit_true Hv lit_true_no_NUL) as (r & -> & Hiff).
  cbn [mbind result_bind]. do 2 f_equal.
  apply bool_decide_ext. exact Hiff.
Qed.

End SubFields.

(** ** The constructor *)

Lemma store_first (o : obj) :
  0 < Z.of_nat (length o) -> store o 0 NUL = Ok (<[0%nat := NUL]> o).
Proof. intros Hlen. apply (store_nat o 0 NUL). lia. Qed.

Lemma memset_whole (o : obj) (n : Z) :
  Z.of_nat (length o) = n -> memset o 0 NUL n = Ok (replicate (Z.to_nat n) NUL).
Proof.
  intros Hlen. unfold memset. rewrite decide_True by lia. f_equal.
  change (Z.to_nat 0) with 0%nat. rewrite take_0, Z.add_0_l. cbn [app].
  rewrite drop_ge by lia. apply app_nil_r.
Qed.

Lemma memset_tokens_whole (tokens : list jsmntok_t) (n : Z) :
  Z.of_nat (length tokens) = n -> memset_tokens tokens n = Ok (replicate (Z.to_nat n) zero_tok).
Proof.
  intros Hlen. unfold memset_tokens. rewrite decide_True by lia. f_equal.
  rewrite drop_ge by lia. apply app_nil_r.
Qed.

Lemma clear_msg_data_sized `{Config} (m : tlg_type_message) :
  record_sized m ->
  exists m', clear_msg_data m = Ok m' /\ cleared_record m' /\ record_sized m'.
Proof.
  intros Hm.
  destruct Hm as ([? ?] & [? ?] & [? ?] & ? & [? ?] & [? ?] & ? & [? ?] & [? ?] & ? & ? & ?).
  unfold clear_msg_data.
  rewrite !store_first by lia. cbn [mbind result_bind].
  eexists. split; [reflexivity|]. split.
  - unfold cleared_record, empty_string. cbn.
    repeat split; apply list_lookup_insert_eq; lia.
  - unfold record_sized. cbn. rewrite !length_insert. repeat split; assumption.
Qed.

(** [snprintf] of an output without zero byte leaves the C string of its
    first [n - 1] characters. *)
Lemma snprintf_string (dst : obj) (n : Z) (out : list ascii) :
  0 < n <= Z.of_nat (length dst) -> NUL ∉ out ->
  exists o,
    snprintf dst n out = Ok o /\ length o = length dst
    /\ string_at o 0 = Ok (take (Z.to_nat (n - 1)) out).
Proof.
  intros Hn Hout. rewrite snprintf_spec by done.
  assert (Hl : (length (take (Z.to_nat (n - 1)) out) <= Z.to_nat (n - 1))%nat)
    by (rewrite length_take; lia).
  eexists. split; [reflexivity|]. split.
  - rewrite length_app. cbn [length]. rewrite length_drop. lia.
  - apply string_at_0. by apply NUL_not_in_take.
Qed.

Lemma bot_prefix_no_NUL (s : list ascii) : NUL ∉ s -> NUL ∉ chars "/bot" ++ s.
Proof.
  intros Hs. rewrite elem_of_app. intros [Hin|Hin]; [|done]. revert Hin. not_in_chars.
Qed.

Section Constructor.
Context `{Platform} `{Tokenizer} `{Scanf} `{Config} {C : Type} `{HttpsClient C}.
Implicit Types b : @uTLGBot C.

(** X17.  On storage of the declared sizes and a token that is a C string,
    the constructor returns a bot whose token is the given one cut to
    [TOKEN_LENGTH - 1] characters, whose API path is [/bot<token>] cut to
    [TELEGRAM_API_LENGTH - 1] characters, whose buffers and token arrays are
    all zero, whose record is cleared, whose polling timeout is the default
    and whose poll offset is [UINT64_MAX]; the transport client is not
    touched. *)
Theorem uTLGBot_new_initial_state (raw : @uTLGBot C) (t trest : list ascii)
    (dont_keep_connection : bool) :
  storage_sized raw -> NUL ∉ t ->
  exists bot : @uTLGBot C,
    uTLGBot_new raw (t ++ NUL :: trest) dont_keep_connection = Ok bot
    /\ string_at (_token bot) 0 = Ok (take (Z.to_nat (TOKEN_LENGTH - 1)) t)
    /\ string_at (_tlg_api bot) 0
       = Ok (take (Z.to_nat (TELEGRAM_API_LENGTH - 1))
               (chars "/bot" ++ take (Z.to_nat (TOKEN_LENGTH - 1)) t))
    /\ _buffer bot = replicate (Z.to_nat HTTP_MAX_RES_LENGTH) NUL
    /\ _json_value_str bot = replicate (Z.to_nat MAX_JSON_STR_LEN) NUL
    /\ _json_subvalue_str bot = replicate (Z.to_nat MAX_JSON_SUBVAL_STR_LEN) NUL
    /\ _json_elements bot = replicate (Z.to_nat MAX_JSON_ELEMENTS) zero_tok
    /\ _json_subelements bot = replicate (Z.to_nat MAX_JSON_SUBELEMENTS) zero_tok
    /\ _long_poll_timeout bot = DEFAULT_TELEGRAM_LONG_POLL_S
    /\ _last_received_msg bot = UINT64_MAX
    /\ _dont_keep_connection bot = dont_keep_connection
    /\ cleared_record (received_msg bot)
    /\ _client bot = _client raw
    /\ storage_sized bot.
Proof.
  intros Hraw Ht.
  destruct Hraw as ([Htok0 Htok] & [Hapi0 Hapi] & Hbuf & Hval & Hsub & Hel & Hsel & Hrec).
  assert (Htok1 : 0 < TOKEN_LENGTH <= Z.of_nat (length (_token raw))) by lia.
  assert (Hapi1 : 0 < TELEGRAM_API_LENGTH <= Z.of_nat (length (_tlg_api raw))) by lia.
  destruct (snprintf_string (_token raw) TOKEN_LENGTH t Htok1 Ht)
    as (tok & Hsn1 & Hltok & Hstok).
  destruct (snprintf_string (_tlg_api raw) TELEGRAM_API_LENGTH
              (chars "/bot" ++ take (Z.to_nat (TOKEN_LENGTH - 1)) t) Hapi1
              (bot_prefix_no_NUL _ (NUL_not_in_take _ _ Ht)))
    as (api & Hsn2 & Hlapi & Hsapi).
  destruct (clear_msg_data_sized _ Hrec) as (msg & Hclear & Hcleared & Hsized).
  unfold uTLGBot_new.
  rewrite string_at_0 by done. cbn [mbind result_bind].
  rewrite Hsn1. cbn [mbind result_bind]. rewrite Hstok. cbn [mbind result_bind].
  rewrite Hsn2. cbn [mbind result_bind].
  rewrite !memset_whole by done. cbn [mbind result_bind].
  rewrite !memset_tokens_whole by done. cbn [mbind result_bind].
  rewrite Hclear. cbn [mbind result_bind].
  eexists. split; [reflexivity|]. cbn.
  split_and!; try done.
  unfold storage_sized. cbn. rewrite !length_replicate.
  split_and!; try done; lia.
Qed.

End Constructor.

(** The bot that has read the example's update polls again and the list of
    updates is empty: the poll returns 0 and the record still holds message
    9 with its text. *)
Example getUpdates_quiet_sample :
  exists b,
    getUpdates quiet_bot = Ok (0, b)
    /\ msg_message_id (received_msg b) = 9
    /\ take 3 (msg_text (received_msg b)) = chars "hi" ++ [NUL]
    /\ _last_received_msg b = 6.
Proof.
  destruct (getUpdates quiet_bot) as [[r b]| |] eqn:Hrun;
    [|vm_compute in Hrun; discriminate Hrun..].
  vm_compute in Hrun. injection Hrun as <- <-.
  eexists. split; [reflexivity|]. repeat split.
Qed.

Lemma getUpdates_unparsable_clears_record_witness :
  exists b1 b2,
    getUpdates_receive garbled_bot = Ok (inr (b1, 1))
    /\ getUpdates_tokenize b1 1 = Ok (0, b2)
    /\ exists b',
         getUpdates garbled_bot = Ok (0, b')
         /\ clear_msg_data (received_msg garbled_bot) = Ok (received_msg b')
         /\ cleared_record (received_msg b').
Proof.
  destruct (getUpdates_receive garbled_bot) as [[b'|[b1 p]]| |] eqn:Hreceive;
    [vm_compute in Hreceive; discriminate Hreceive| |vm_compute in Hreceive; discriminate Hreceive..].
  assert (p = 1) as -> by (vm_compute in Hreceive; by injection Hreceive as _ <-).
  destruct (getUpdates_tokenize b1 1) as [[n b2]| |] eqn:Htokenize;
    [|vm_compute in Hreceive; injection Hreceive as <-;
      vm_compute in Htokenize; discriminate Htokenize..].
  assert (n = 0) as ->.
  { vm_compute in Hreceive. injection Hreceive as <-.
    vm_compute in Htokenize. by injection Htokenize as <- _. }
  exists b1, b2. split; [reflexivity|]. split; [exact Htokenize|].
  exact (getUpdates_unparsable_clears_record (H := esp32) garbled_bot b1 b2 1
           Hreceive Htokenize).
Defined.

(** The bot that has read the example's update polls an update that the
    tokenizer rejects: the poll returns 0, message 9 is gone from the record
    and the poll offset goes from 6 to 7. *)
Example getUpdates_garbled_sample :
  msg_message_id (received_msg garbled_bot) = 9
  /\ exists b,
       getUpdates garbled_bot = Ok (0, b)
       /\ msg_message_id (received_msg b) = 0
       /\ take 1 (msg_text (received_msg b)) = [NUL]
       /\ _last_received_msg b = 7.
Proof.
  split; [reflexivity|].
  destruct (getUpdates garbled_bot) as [[r b]| |] eqn:Hrun;
    [|vm_compute in Hrun; discriminate Hrun..].
  vm_compute in Hrun. injection Hrun as <- <-.
  eexists. split; [reflexivity|]. repeat split.
Qed.

Lemma copy_subvalue_short_padded_witness :
  exists b1,
    get_subvalue from_bot 5 (chars "id") = Ok (true, b1)
    /\ _json_subvalue_str b1 = chars "7" ++ NUL :: replicate 62 NUL
    /\ (NUL ∉ chars "7")
    /\ (Z.of_nat (length (chars "7")) < 8
        <= Z.of_nat (length (user_id (msg_from (received_msg b1)))))
    /\ copy_subvalue from_bot 5 (chars "id")
         (fun b => user_id (msg_from (received_msg b))) 8
         (fun b v => upd_from b (fun u => set_user_id u v))
       = Ok (upd_from b1 (fun u => set_user_id u (chars "7" ++ replicate 7 NUL)))
    /\ string_at (chars "7" ++ replicate 7 NUL) 0 = Ok (chars "7").
Proof.
  destruct (get_subvalue from_bot 5 (chars "id")) as [[found b1]| |] eqn:Hget;
    [|vm_compute in Hget; discriminate Hget..].
  exists b1.
  assert (Hb1 : found = true
                /\ _json_subvalue_str b1 = chars "7" ++ NUL :: replicate 62 NUL
                /\ user_id (msg_from (received_msg b1)) = NUL :: replicate 7 "?"%char).
  { vm_compute in Hget. injection Hget as <- <-. repeat split. }
  destruct Hb1 as (-> & H2 & Hfield).
  assert (H3 : NUL ∉ chars "7") by not_in_chars.
  assert (H4 : Z.of_nat (length (chars "7")) < 8
               <= Z.of_nat (length (user_id (msg_from (received_msg b1))))).
  { rewrite Hfield. vm_compute. split; [reflexivity | discriminate]. }
  refine (conj eq_refl (conj H2 (conj H3 (conj H4 _)))).
  pose proof (copy_subvalue_short_padded (H := esp32) from_bot b1 5 (chars "id")
                (fun b => user_id (msg_from (received_msg b))) 8
                (fun b v => upd_from b (fun u => set_user_id u v))
                (chars "7") (replicate 62 NUL) Hget H2 H3 H4) as Hcopy.
  cbn beta in Hcopy. rewrite Hfield in Hcopy. exact Hcopy.
Defined.

Lemma flag_subvalue_exact_true_witness :
  exists b1,
    get_subvalue flag_bot 5 (chars "is_bot") = Ok (true, b1)
    /\ _json_subvalue_str b1 = chars "false" ++ NUL :: replicate 58 NUL
    /\ (NUL ∉ chars "false")
    /\ flag_subvalue flag_bot 5 (chars "is_bot")
         (fun b v => upd_from b (fun u => set_user_is_bot u v))
       = Ok (upd_from b1 (fun u => set_user_is_bot u false)).
Proof.
  destruct (get_subvalue flag_bot 5 (chars "is_bot")) as [[found b1]| |] eqn:Hget;
    [|vm_compute in Hget; discriminate Hget..].
  exists b1.
  assert (Hb1 : found = true
                /\ _json_subvalue_str b1 = chars "false" ++ NUL :: replicate 58 NUL).
  { vm_compute in Hget. injection Hget as <- <-. repeat split. }
  destruct Hb1 as (-> & H2).
  assert (H3 : NUL ∉ chars "false") by not_in_chars.
  refine (conj eq_refl (conj H2 (conj H3 _))).
  exact (flag_subvalue_exact_true (H := esp32) flag_bot b1 5 (chars "is_bot")
           (fun b v => upd_from b (fun u => set_user_is_bot u v))
           (chars "false") (replicate 58 NUL) Hget H2 H3).
Defined.

Lemma raw_storage_sized (responses : list (list ascii)) :
  storage_sized (raw_storage responses).
Proof.
  unfold storage_sized, record_sized. cbn. repeat split; reflexivity.
Qed.

Lemma uTLGBot_new_initial_state_witness :
  storage_sized (raw_storage [])
  /\ (NUL ∉ chars "123:ABC")
  /\ exists bot : @uTLGBot sample_client,
       uTLGBot_new (raw_storage []) (chars "123:ABC" ++ NUL :: []) false = Ok bot
       /\ string_at (_token bot) 0 = Ok (chars "123:ABC")
       /\ string_at (_tlg_api bot) 0 = Ok (chars "/bot123:ABC")
       /\ _buffer bot = replicate 256 NUL
       /\ _last_received_msg bot = 18446744073709551615
       /\ cleared_record (received_msg bot).
Proof.
  assert (H2 : NUL ∉ chars "123:ABC") by not_in_chars.
  refine (conj (raw_storage_sized []) (conj H2 _)).
  destruct (uTLGBot_new_initial_state (raw_storage []) (chars "123:ABC") []
              false (raw_storage_sized []) H2)
    as (bot & Hnew & Htok & Hapi & Hbuf & _ & _ & _ & _ & _ & Hlast & _ & Hrec & _).
  exists bot. exact (conj Hnew (conj Htok (conj Hapi (conj Hbuf (conj Hlast Hrec))))).
Defined.

(** A token longer than [TOKEN_LENGTH - 1] characters is cut without any
    report, and the API path with it. *)
Example uTLGBot_new_long_token_sample :
  exists bot : @uTLGBot sample_client,
    uTLGBot_new (raw_storage []) (cstr (chars "0123456789:ABCDEFGHIJKLMNOP")) false = Ok bot
    /\ string_at (_token bot) 0 = Ok (chars "0123456789:ABCD")
    /\ string_at (_tlg_api bot) 0 = Ok (chars "/bot0123456789:ABCD").
Proof.
  destruct (uTLGBot_new (raw_storage []) (cstr (chars "0123456789:ABCDEFGHIJKLMNOP")) false)
    as [bot| |] eqn:Hnew; [|vm_compute in Hnew; discriminate Hnew..].
  vm_compute in Hnew. injection Hnew as <-.
  eexists. split; [reflexivity|]. split; reflexivity.
Qed.

(** ** [sendMessage]: the request body *)


Lemma NUL_not_in_removelast (s : list ascii) : NUL ∉ s -> NUL ∉ removelast s.
Proof.
  intros Hs. destruct (decide (s = [])) as [->|Hne]; [done|].
  destruct (exists_last Hne) as (s' & x & ->). rewrite removelast_last.
  intros Hin. apply Hs. apply elem_of_app. by left.
Qed.

Lemma NUL_not_in_replace_brace (body field : list ascii) :
  NUL ∉ body -> NUL ∉ field -> NUL ∉ replace_brace body field.
Proof.
  intros Hb Hf. unfold replace_brace. rewrite elem_of_app.
  intros [Hin|Hin]; [by apply (NUL_not_in_removelast body)|done].
Qed.

(** Decimal digits are not zero bytes. *)
Lemma NUL_not_in_digits (u : Decimal.uint) : NUL ∉ chars (NilEmpty.string_of_uint u).
Proof.
  induction u; unfold chars in *; cbn [NilEmpty.string_of_uint list_ascii_of_string];
    [apply not_elem_of_nil | apply not_elem_of_cons; split; [discriminate | assumption] ..].
Qed.

Lemma NUL_not_in_string_of_uint (u : Decimal.uint) :
  NUL ∉ chars (NilZero.string_of_uint u).
Proof.
  destruct u; try apply NUL_not_in_digits. unfold chars. cbn.
  apply not_elem_of_cons. split; [discriminate | apply not_elem_of_nil].
Qed.

Lemma NUL_not_in_dec (z : Z) : NUL ∉ dec z.
Proof. apply NUL_not_in_string_of_uint. Qed.

Section AppendField.
Context `{Platform}.
Variables (cap : Z) (s rest : list ascii) (f frest : list ascii).
Hypothesis Hcap : 1 <= cap < 2 ^ 32.
Hypothesis Hlen : cap <= Z.of_nat (length (s ++ NUL :: rest)).
Hypothesis Hs : NUL ∉ s.
Hypothesis Hne : s <> [].
Hypothesis Hf : NUL ∉ f.
Hypothesis Hfit : Z.of_nat (length (replace_brace s f)) < cap.


End AppendField.

Lemma holds_string_at (o : obj) (s : list ascii) :
  holds_string o s -> string_at o 0 = Ok s.
Proof. intros (Hs & rest & ->). by apply string_at_0. Qed.


Section SendBody.
Context `{Platform} `{Tokenizer} `{Scanf} `{Config} `{SendConfig} {C : Type} `{HttpsClient C}.
Implicit Types b : @uTLGBot C.
Hypothesis Hcap : 1 <= HTTP_MAX_RES_LENGTH < 2 ^ 32.
Hypothesis Htmp_cap : 2 <= MAX_TMP_BUFFER_LENGTH.










End SendBody.

Section SendMessage.
Context `{Platform} `{Tokenizer} `{Scanf} `{Config} `{SendConfig} {C : Type} `{HttpsClient C}.
Implicit Types b : @uTLGBot C.


End SendMessage.




Section SendRequests.
Context `{Platform} `{Tokenizer} `{Scanf} `{Config} `{SendConfig} {C : Type} `{HttpsClient C}.
Implicit Types b : @uTLGBot C.




End SendRequests.

(** ** [sendMessage]: a field that does not fit *)

Section AppendOverflow.
Context `{Platform}.
Variables (cap : Z) (s rest : list ascii) (f frest : list ascii).
Hypothesis Hcap : 1 <= cap < 2 ^ 32.
Hypothesis Hlen : cap <= Z.of_nat (length (s ++ NUL :: rest)).
Hypothesis Hs : NUL ∉ s.
Hypothesis Hne : s <> [].
Hypothesis Hf : NUL ∉ f.
Hypothesis Hbase : Z.of_nat (length s) < cap.
Hypothesis Hfsize : Z.of_nat (length f) < 2 ^ 32.
Hypothesis Hover : cap < Z.of_nat (length (replace_brace s f)).

(** The field is cut and the flag is false when the result is longer than
    the capacity. *)
Lemma replace_last_and_append_overflow :
  exists rest',
    (len ← strlen (s ++ NUL :: rest) 0;
     buffer ← store (s ++ NUL :: rest) (size_t (len - 1)) NUL;
     src_len ← strlen (f ++ NUL :: frest) 0;
     cstr_strncat buffer cap (f ++ NUL :: frest) src_len)
    = Ok (false, take (Z.to_nat (cap - 1)) (replace_brace s f) ++ NUL :: rest')
    /\ length (take (Z.to_nat (cap - 1)) (replace_brace s f) ++ NUL :: rest')
       = length (s ++ NUL :: rest).
Proof.
  pose proof pow2_32_le_size as Hsz.
  destruct (exists_last Hne) as (s' & x & Hs').
  assert (Hs'nul : NUL ∉ s').
  { intros Hin. apply Hs. rewrite Hs'. apply elem_of_app. by left. }
  assert (Hrb : replace_brace s f = s' ++ f).
  { unfold replace_brace. by rewrite Hs', removelast_last. }
  assert (Hls : length s = S (length s')).
  { rewrite Hs', length_app. cbn [length]. lia. }
  rewrite Hrb in *. rewrite length_app in Hover.
  set (m := Z.to_nat (cap - 1 - Z.of_nat (length s'))).
  assert (Htake : take (Z.to_nat (cap - 1)) (s' ++ f) = s' ++ take m f).
  { rewrite take_app_ge by lia. do 2 f_equal. lia. }
  rewrite Htake.
  exists (drop m (NUL :: rest)). split.
  - rewrite (strlen_0 s rest) by done. cbn [mbind result_bind].
    rewrite size_t_small by lia.
    replace (Z.of_nat (length s) - 1) with (Z.of_nat (length s')) by lia.
    rewrite store_nat by (rewrite length_app; cbn [length]; lia).
    cbn [mbind result_bind].
    assert (<[length s' := NUL]> (s ++ NUL :: rest) = s' ++ NUL :: NUL :: rest) as ->.
    { rewrite Hs', <- app_assoc. cbn [app].
      replace (length s') with (length s' + 0)%nat at 1 by lia.
      by rewrite insert_app_r. }
    rewrite (strlen_0 f frest) by done. cbn [mbind result_bind].
    assert (Hlen' : cap <= Z.of_nat (length (s' ++ NUL :: NUL :: rest))).
    { rewrite length_app in *. cbn [length] in *. lia. }
    assert (Hcap' : 1 <= cap < 2 ^ size_bits) by lia.
    assert (Hdl : 0 <= Z.of_nat (length s')) by lia.
    assert (Hsrc : 0 <= Z.of_nat (length f) <= Z.of_nat (length (f ++ NUL :: frest)))
      by (rewrite length_app; cbn [length]; lia).
    assert (Hsrc_size : Z.of_nat (length f) < 2 ^ size_bits) by lia.
    assert (Hlt : Z.of_nat (length s') < cap) by lia.
    rewrite (cstr_strncat_spec cap (Z.of_nat (length s')) (Z.of_nat (length f))
               (f ++ NUL :: frest) Hcap' Hdl Hsrc Hsrc_size
               s' (NUL :: rest) Hs'nul eq_refl Hlt Hlen').
    rewrite bool_decide_eq_false_2 by lia.
    replace (Z.to_nat (Z.min (Z.of_nat (length f)) (cap - 1 - Z.of_nat (length s'))))
      with m by lia.
    rewrite take_app_le by lia.
    assert (Hm : length (take m f) = m) by (rewrite length_take; lia).
    unfold overwrite. rewrite take_app_length. do 2 f_equal.
    rewrite <- !app_assoc. cbn [app]. do 3 f_equal.
    rewrite length_app, Hm. cbn [length].
    rewrite drop_app_add. replace (m + 1)%nat with (S m) by lia. done.
  - assert (Hm : length (take m f) = m) by (rewrite length_take; lia).
    rewrite !length_app in *. cbn [length] in *. rewrite length_drop, Hm. cbn [length]. lia.
Qed.

End AppendOverflow.

Section SendOverflow.
Context `{Platform} `{Tokenizer} `{Scanf} `{Config} `{SendConfig} {C : Type} `{HttpsClient C}.
Implicit Types b : @uTLGBot C.

(** X21.  On a connected bot, when the body without optional field fits the
    buffer and the body with the field for [disable_web_page_preview] is
    longer than [HTTP_MAX_RES_LENGTH], [sendMessage] returns [false] without
    sending a request: the buffer is left with the body cut to
    [HTTP_MAX_RES_LENGTH - 1] characters, and [cant_create_send_msg] closes
    the connection when the transport still reports it open. *)
Theorem sendMessage_field_does_not_fit b (tmp : obj) (chat_id crest text trest : list ascii)
    (disable_notification : bool) (reply_to_message_id : Z) (reply_markup : obj) :
  is_connected b = true ->
  1 <= HTTP_MAX_RES_LENGTH < 2 ^ 32 ->
  HTTP_MAX_RES_LENGTH <= Z.of_nat (length (_buffer b)) ->
  NUL ∉ chat_id -> NUL ∉ text ->
  Z.of_nat (length (sendMessage_body chat_id text [] false false 0 [])) < HTTP_MAX_RES_LENGTH ->
  HTTP_MAX_RES_LENGTH < Z.of_nat (length (sendMessage_body chat_id text [] true false 0 [])) ->
  exists buffer,
    sendMessage b tmp (chat_id ++ NUL :: crest) (text ++ NUL :: trest) (cstr []) true
      disable_notification reply_to_message_id reply_markup
    = Ok (false, cant_create_send_msg (set_buffer b buffer))
    /\ string_at buffer 0
       = Ok (take (Z.to_nat (HTTP_MAX_RES_LENGTH - 1))
               (sendMessage_body chat_id text [] true false 0 []))
    /\ length buffer = length (_buffer b).
Proof.
  intros Hconn Hcap Hlen Hcid Htxt Hbase Hover.
  unfold sendMessage_body in *. cbn zeta in *.
  rewrite (bool_decide_eq_false_2 (@nil ascii = chars "Markdown" \/ @nil ascii = chars "HTML"))
    in * by (intros [?|?]; discriminate).
  rewrite (bool_decide_eq_false_2 (uint64 0 <> 0)) in * by (intros Hnz; by apply Hnz).
  rewrite (bool_decide_eq_false_2 (@nil ascii <> [])) in * by (intros Hnz; by apply Hnz).
  set (body0 := chars "{" ++ quoted "chat_id" ++ chars ":" ++ chat_id ++ chars ", "
                ++ quoted "text" ++ chars ":" ++ [DQ] ++ text ++ [DQ] ++ chars "}") in *.
  set (lit := chars "," ++ quoted "disable_web_page_preview" ++ chars ":true}") in *.
  assert (Hne0 : body0 <> []) by done.
  assert (Hnul0 : NUL ∉ body0).
  { unfold body0. rewrite !elem_of_app.
    intros [Hin|[Hin|[Hin|[Hin|[Hin|[Hin|[Hin|[Hin|[Hin|[Hin|Hin]]]]]]]]]]; try done;
      revert Hin; not_in_chars. }
  assert (Hlit : NUL ∉ lit) by not_in_chars.
  unfold sendMessage. rewrite Hconn. cbn [negb].
  unfold sendMessage_build.
  rewrite (string_at_0 chat_id crest) by done. cbn [mbind result_bind].
  rewrite (string_at_0 text trest) by done. cbn [mbind result_bind].
  rewrite snprintf_spec by lia. cbn [mbind result_bind].
  fold body0. rewrite (take_ge body0) by lia.
  set (rest0 := drop (S (length body0)) (_buffer b)).
  assert (Hlen0 : length (body0 ++ NUL :: rest0) = length (_buffer b)).
  { unfold rest0. rewrite length_app. cbn [length]. rewrite length_drop. lia. }
  (* parse_mode is empty *)
  change (load (cstr []) 0) with (Ok NUL : result ascii). cbn [mbind result_bind].
  rewrite decide_False by (intros Hnz; by apply Hnz).
  unfold and_then at 1. cbn [mbind result_bind].
  (* disable_web_page_preview does not fit *)
  fold lit.
  destruct (replace_last_and_append_overflow HTTP_MAX_RES_LENGTH body0 rest0 lit [] Hcap
              ltac:(lia) Hnul0 Hne0 Hlit Hbase ltac:(reflexivity) Hover)
    as (rest' & Hrun & Hlen').
  apply bind_Ok in Hrun as (len & Hlen1 & Hrun).
  apply bind_Ok in Hrun as (buffer1 & Hstore & Hrun).
  apply bind_Ok in Hrun as (src_len & Hlen2 & Hrun).
  unfold append_literal, cstr. cbn [_buffer set_buffer].
  rewrite Hlen1. cbn [mbind result_bind]. rewrite Hstore. cbn [mbind result_bind].
  rewrite Hlen2. cbn [mbind result_bind]. rewrite Hrun. cbn [mbind result_bind negb].
  unfold and_then. cbn [mbind result_bind].
  eexists. split; [reflexivity|]. split; [|lia].
  apply string_at_0. apply NUL_not_in_take. by apply NUL_not_in_replace_brace.
Qed.

End SendOverflow.

(** ** Requests on a bot that cannot connect *)

Section NoConnection.
Context `{Platform} `{Tokenizer} `{Scanf} `{Config} `{SendConfig} {C : Type} `{HttpsClient C}.
Implicit Types b : @uTLGBot C.

(** X22.  On a bot that is not connected and whose transport does not
    connect (its result is not 1), [getMe] and [sendMessage] return [false]
    and [getUpdates] returns 0, with no request made and no member of the bot
    changed except the transport client, which is closed again when the
    result is -1. *)
Theorem request_without_connection b (conn_res : Z) (c : C) :
  is_connected b = false ->
  client_connect (_client b) TELEGRAM_HOST HTTPS_PORT = (conn_res, c) ->
  conn_res <> 1 ->
  exists b' : @uTLGBot C,
    b' = (if decide (conn_res = -1) then disconnect (set_client b c) else set_client b c)
    /\ b' = set_client b (_client b')
    /\ getMe b = Ok (false, b')
    /\ getUpdates b = Ok (0, b')
    /\ forall (tmp chat_id text parse_mode : obj) (preview notification : bool)
         (reply_to_message_id : Z) (reply_markup : obj),
         sendMessage b tmp chat_id text parse_mode preview notification reply_to_message_id
           reply_markup = Ok (false, b').
Proof.
  intros Hconn Hclient Hres.
  assert (Hconnect : connect b
            = (false, if decide (conn_res = -1) then disconnect (set_client b c)
                      else set_client b c)).
  { unfold connect. rewrite Hconn, Hclient. by rewrite (decide_True (P := conn_res <> 1)). }
  eexists. split; [reflexivity|]. split; [|split; [|split]].
  - destruct (decide (conn_res = -1)); [|done].
    unfold disconnect. by destruct (negb (is_connected (set_client b c))).
  - unfold getMe. by rewrite Hconn, Hconnect.
  - unfold getUpdates, getUpdates_receive. by rewrite Hconn, Hconnect.
  - intros. unfold sendMessage. by rewrite Hconn, Hconnect.
Qed.

End NoConnection.

(** ** [getMe] and [set_token] *)

Section GetMe.
Context `{Platform} `{Tokenizer} `{Scanf} `{Config} `{SendConfig} {C : Type} `{HttpsClient C}.
Implicit Types b : @uTLGBot C.

(** X23.  [getMe] on a connected bot asks the transport for the path
    [<_tlg_api>/<API_CMD_GET_ME>], cut to [HTTP_MAX_URI_LENGTH - 1]
    characters.  When the transport reports a status above 0, [getMe]
    returns [false], closes the connection and leaves in [_buffer] what the
    transport left there.  When the transport reports success and the
    response has the header separator, ["ok":true] and a ["result":] marker,
    [getMe] returns [true] and leaves in [_buffer] the text after the marker,
    without the last character of the response, terminated. *)
Theorem getMe_outcomes b (api : list ascii) (status : Z) (response : obj) (c : C) :
  is_connected b = true ->
  holds_string (_tlg_api b) api ->
  client_get (_client b)
    (take (Z.to_nat (HTTP_MAX_URI_LENGTH - 1)) (api ++ chars "/" ++ API_CMD_GET_ME))
    TELEGRAM_HOST (_buffer b) HTTP_MAX_RES_LENGTH DEFAULT_RESPONSE_TIMEOUT
  = (status, response, c) ->
  (status > 0 ->
   getMe b = Ok (false, if is_connected (set_client (set_buffer b response) c)
                        then disconnect (set_client (set_buffer b response) c)
                        else set_client (set_buffer b response) c))
  /\ (forall (text : list ascii) (last : ascii) (pad : list ascii) (p1 q2 q3 : nat),
        status <= 0 ->
        response = text ++ last :: NUL :: pad ->
        NUL ∉ text -> last <> NUL -> Z.of_nat (length response) < 2 ^ 31 ->
        find_after lit_crlfcrlf text = Some p1 ->
        find_after lit_ok (drop p1 text) = Some q2 ->
        take 4 (drop (p1 + q2) text) = lit_true ->
        find_after lit_result (drop (p1 + q2) text) = Some q3 ->
        exists buffer,
          getMe b = Ok (true, disconnect_unless_kept (set_client (set_buffer b buffer) c))
          /\ length buffer = length response
          /\ take (length (drop (p1 + q2 + q3) text) + 1) buffer
             = drop (p1 + q2 + q3) text ++ [NUL]).
Proof.
  intros Hconn Hapi Hclient.
  assert (Hget : tlg_get b API_CMD_GET_ME (_buffer b) HTTP_MAX_RES_LENGTH
                   DEFAULT_RESPONSE_TIMEOUT
                 = if decide (status > 0) then Ok (false, response, c)
                   else '(rc, response) ← tlg_unwrap response HTTP_MAX_RES_LENGTH;
                        Ok (rc, response, c)).
  { unfold tlg_get, make_uri. rewrite (holds_string_at _ _ Hapi). cbn [mbind result_bind].
    by rewrite Hclient. }
  split.
  - intros Hfail. unfold getMe. rewrite Hconn. cbn [negb]. rewrite Hget.
    rewrite decide_True by done. done.
  - intros text last pad p1 q2 q3 Hok -> Htext Hlast Hsize Hp1 Hq2 Htrue Hq3.
    pose proof (tlg_unwrap_spec text last pad Htext Hlast Hsize HTTP_MAX_RES_LENGTH) as Hrun.
    unfold unwrap_spec in Hrun. rewrite Hp1, Hq2 in Hrun. cbn zeta in Hrun.
    rewrite bool_decide_eq_true_2 in Hrun by done. rewrite Hq3 in Hrun.
    set (payload := drop (p1 + q2 + q3) text) in *.
    assert (Hpl : (length payload <= length text)%nat)
      by (unfold payload; rewrite length_drop; lia).
    assert (Hb : length (payload ++ [NUL]) = S (length payload))
      by (rewrite length_app; cbn [length]; lia).
    eexists. split; [|split].
    + unfold getMe. rewrite Hconn. cbn [negb]. rewrite Hget.
      rewrite decide_False by lia. rewrite Hrun. done.
    + rewrite length_overwrite; rewrite !length_app; cbn [length]; lia.
    + unfold overwrite. rewrite take_0. cbn [app].
      rewrite take_app_le by lia. apply take_ge. lia.
Qed.

(** X24.  [set_token] stores the token cut to [TOKEN_LENGTH - 1] characters
    ([get_token] gives it back whole when it is shorter than [TOKEN_LENGTH])
    and the path [/bot<token>] cut to [TELEGRAM_API_LENGTH - 1] characters,
    which starts the path of every later request; the transport client, the
    buffer, the message record, the poll offset and the polling timeout are
    as they were. *)
Theorem set_token_round_trip b (t trest command : list ascii) :
  0 < TOKEN_LENGTH <= Z.of_nat (length (_token b)) ->
  0 < TELEGRAM_API_LENGTH <= Z.of_nat (length (_tlg_api b)) ->
  NUL ∉ t ->
  exists b' : @uTLGBot C,
    set_token b (t ++ NUL :: trest) = Ok b'
    /\ string_at (get_token b') 0 = Ok (take (Z.to_nat (TOKEN_LENGTH - 1)) t)
    /\ (Z.of_nat (length t) < TOKEN_LENGTH -> string_at (get_token b') 0 = Ok t)
    /\ make_uri (_tlg_api b') command
       = Ok (take (Z.to_nat (HTTP_MAX_URI_LENGTH - 1))
               (take (Z.to_nat (TELEGRAM_API_LENGTH - 1))
                  (chars "/bot" ++ take (Z.to_nat (TOKEN_LENGTH - 1)) t)
                ++ chars "/" ++ command))
    /\ _client b' = _client b /\ _buffer b' = _buffer b
    /\ received_msg b' = received_msg b
    /\ _last_received_msg b' = _last_received_msg b
    /\ _long_poll_timeout b' = _long_poll_timeout b.
Proof.
  intros Htok Hapi Ht.
  destruct (snprintf_string (_token b) TOKEN_LENGTH t Htok Ht)
    as (tok & Hsn1 & Hltok & Hstok).
  destruct (snprintf_string (_tlg_api b) TELEGRAM_API_LENGTH
              (chars "/bot" ++ take (Z.to_nat (TOKEN_LENGTH - 1)) t) Hapi
              (bot_prefix_no_NUL _ (NUL_not_in_take _ _ Ht)))
    as (api & Hsn2 & Hlapi & Hsapi).
  unfold set_token.
  rewrite string_at_0 by done. cbn [mbind result_bind].
  rewrite Hsn1. cbn [mbind result_bind]. rewrite Hstok. cbn [mbind result_bind].
  rewrite Hsn2. cbn [mbind result_bind].
  eexists. split; [reflexivity|]. unfold get_token, make_uri. cbn [_token _tlg_api].
  split; [done|]. split.
  { intros Hshort. rewrite Hstok. by rewrite take_ge by lia. }
  split; [by rewrite Hsapi|]. done.
Qed.

End GetMe.

(** ** The requests in the sample world *)


(** The body of that message, with every optional field. *)
Example sendMessage_body_sample :
  sendMessage_body (chars "42") (chars "hi") (chars "HTML") true true 7 (chars "{}")
  = chars "{" ++ quoted "chat_id" ++ chars ":42, " ++ quoted "text" ++ chars ":"
    ++ quoted "hi" ++ chars "," ++ quoted "parse_mode" ++ chars ":HTML" ++ [DQ]
    ++ chars "," ++ quoted "disable_web_page_preview" ++ chars ":true,"
    ++ quoted "disable_notification" ++ chars ":true,"
    ++ quoted "reply_to_message_id" ++ chars ":7," ++ quoted "reply_markup" ++ chars ":{}}".
Proof. reflexivity. Qed.

(** The message is sent and accepted: the transport was given the body, and
    the buffer holds the result of the response. *)
Example sendMessage_sample :
  exists b,
    sendMessage (online_bot [envelope_response []]) sample_tmp (cstr (chars "42"))
      (cstr (chars "hi")) (cstr []) false false 0 (cstr []) = Ok (true, b)
    /\ sent (_client b)
       = [chars "{" ++ quoted "chat_id" ++ chars ":42, " ++ quoted "text" ++ chars ":"
          ++ quoted "hi" ++ chars "}"]
    /\ string_at (_buffer b) 0 = Ok envelope_payload.
Proof.
  destruct (sendMessage (online_bot [envelope_response []]) sample_tmp (cstr (chars "42"))
              (cstr (chars "hi")) (cstr []) false false 0 (cstr [])) as [[r b]| |] eqn:Hrun;
    [|vm_compute in Hrun; discriminate Hrun..].
  vm_compute in Hrun. injection Hrun as <- <-.
  eexists. split; [reflexivity|]. split; reflexivity.
Qed.



Lemma sendMessage_field_does_not_fit_witness :
  is_connected (online_bot []) = true
  /\ (1 <= 256 < 2 ^ 32)
  /\ 256 <= Z.of_nat (length (_buffer (online_bot [])))
  /\ (NUL ∉ chars "42") /\ (NUL ∉ replicate 220 "x"%char)
  /\ Z.of_nat (length (sendMessage_body (chars "42") (replicate 220 "x"%char) [] false false 0
                         [])) < 256
  /\ 256 < Z.of_nat (length (sendMessage_body (chars "42") (replicate 220 "x"%char) [] true
                               false 0 []))
  /\ exists buffer,
       sendMessage (online_bot []) sample_tmp (chars "42" ++ NUL :: [])
         (replicate 220 "x"%char ++ NUL :: []) (cstr []) true false 0 (cstr [])
       = Ok (false, cant_create_send_msg (set_buffer (online_bot []) buffer))
       /\ string_at buffer 0
          = Ok (take (Z.to_nat (256 - 1))
                  (sendMessage_body (chars "42") (replicate 220 "x"%char) [] true false 0 []))
       /\ length buffer = length (_buffer (online_bot [])).
Proof.
  assert (H1 : is_connected (online_bot []) = true) by reflexivity.
  assert (H2 : 1 <= 256 < 2 ^ 32) by (vm_compute; split; [discriminate | reflexivity]).
  assert (H3 : 256 <= Z.of_nat (length (_buffer (online_bot []))))
    by (vm_compute; discriminate).
  assert (H4 : NUL ∉ chars "42") by not_in_chars.
  assert (H5 : NUL ∉ replicate 220 "x"%char).
  { intros Hin. apply elem_of_replicate in Hin as [Hin _]. discriminate Hin. }
  assert (H6 : Z.of_nat (length (sendMessage_body (chars "42") (replicate 220 "x"%char) []
                                   false false 0 [])) < 256) by reflexivity.
  assert (H7 : 256 < Z.of_nat (length (sendMessage_body (chars "42") (replicate 220 "x"%char) []
                                         true false 0 []))) by reflexivity.
  refine (conj H1 (conj H2 (conj H3 (conj H4 (conj H5 (conj H6 (conj H7 _))))))).
  exact (sendMessage_field_does_not_fit (H := esp32) (online_bot []) sample_tmp (chars "42") []
           (replicate 220 "x"%char) [] false 0 (cstr []) H1 H2 H3 H4 H5 H6 H7).
Defined.

Lemma request_without_connection_witness :
  is_connected unplugged_bot = false
  /\ client_connect (_client unplugged_bot) TELEGRAM_HOST HTTPS_PORT = (0, tt)
  /\ 0 <> 1
  /\ exists b' : @uTLGBot unit,
       b' = (if decide (0 = -1) then disconnect (set_client unplugged_bot tt)
             else set_client unplugged_bot tt)
       /\ b' = set_client unplugged_bot (_client b')
       /\ getMe unplugged_bot = Ok (false, b')
       /\ getUpdates unplugged_bot = Ok (0, b')
       /\ forall (tmp chat_id text parse_mode : obj) (preview notification : bool)
            (reply_to_message_id : Z) (reply_markup : obj),
            sendMessage unplugged_bot tmp chat_id text parse_mode preview notification
              reply_to_message_id reply_markup = Ok (false, b').
Proof.
  assert (H1 : is_connected unplugged_bot = false) by reflexivity.
  assert (H2 : client_connect (_client unplugged_bot) TELEGRAM_HOST HTTPS_PORT = (0, tt))
    by reflexivity.
  assert (H3 : 0 <> 1) by discriminate.
  refine (conj H1 (conj H2 (conj H3 _))).
  exact (request_without_connection (H := esp32) unplugged_bot 0 tt H1 H2 H3).
Defined.

Lemma getMe_outcomes_witness :
  is_connected (online_bot [envelope_response []]) = true
  /\ holds_string (_tlg_api (online_bot [envelope_response []])) (chars "/bot123:ABC")
  /\ client_get (_client (online_bot [envelope_response []]))
       (take (Z.to_nat (64 - 1)) (chars "/bot123:ABC" ++ chars "/" ++ chars "getMe"))
       (chars "api.telegram.org") (_buffer (online_bot [envelope_response []])) 256 3000
     = (0, removelast (envelope_response []) ++ "}"%char :: NUL :: replicate 188 NUL,
        mk_client true [] [[]])
  /\ exists buffer,
       getMe (online_bot [envelope_response []])
       = Ok (true, disconnect_unless_kept
                     (set_client (set_buffer (online_bot [envelope_response []]) buffer)
                        (mk_client true [] [[]])))
       /\ length buffer = 256%nat
       /\ take 26 buffer = envelope_payload ++ [NUL].
Proof.
  assert (H1 : is_connected (online_bot [envelope_response []]) = true) by reflexivity.
  assert (H2 : holds_string (_tlg_api (online_bot [envelope_response []]))
                 (chars "/bot123:ABC")).
  { split; [not_in_chars|]. eexists. reflexivity. }
  assert (H3 : client_get (_client (online_bot [envelope_response []]))
                 (take (Z.to_nat (64 - 1)) (chars "/bot123:ABC" ++ chars "/" ++ chars "getMe"))
                 (chars "api.telegram.org") (_buffer (online_bot [envelope_response []]))
                 256 3000
               = (0, removelast (envelope_response []) ++ "}"%char :: NUL :: replicate 188 NUL,
                  mk_client true [] [[]])) by reflexivity.
  refine (conj H1 (conj H2 (conj H3 _))).
  assert (H4 : NUL ∉ removelast (envelope_response [])) by not_in_chars.
  exact (proj2 (getMe_outcomes (H := esp32) (online_bot [envelope_response []])
                  (chars "/bot123:ABC") 0 _ _ H1 H2 H3)
           (removelast (envelope_response [])) "}"%char (replicate 188 NUL) 19%nat 8%nat 14%nat
           ltac:(discriminate) eq_refl H4 ltac:(discriminate) eq_refl eq_refl eq_refl
           eq_refl eq_refl).
Defined.

Lemma set_token_round_trip_witness :
  (0 < 16 <= Z.of_nat (length (_token fresh_bot)))
  /\ (0 < 24 <= Z.of_nat (length (_tlg_api fresh_bot)))
  /\ (NUL ∉ chars "999:XYZ")
  /\ exists b' : @uTLGBot sample_client,
       set_token fresh_bot (chars "999:XYZ" ++ NUL :: []) = Ok b'
       /\ string_at (get_token b') 0 = Ok (chars "999:XYZ")
       /\ make_uri (_tlg_api b') (chars "getMe") = Ok (chars "/bot999:XYZ/getMe")
       /\ _last_received_msg b' = _last_received_msg fresh_bot.
Proof.
  assert (H1 : 0 < 16 <= Z.of_nat (length (_token fresh_bot)))
    by (vm_compute; split; [reflexivity | discriminate]).
  assert (H2 : 0 < 24 <= Z.of_nat (length (_tlg_api fresh_bot)))
    by (vm_compute; split; [reflexivity | discriminate]).
  assert (H3 : NUL ∉ chars "999:XYZ") by not_in_chars.
  refine (conj H1 (conj H2 (conj H3 _))).
  destruct (set_token_round_trip (H2 := sample_config) fresh_bot (chars "999:XYZ") []
              (chars "getMe") H1 H2 H3)
    as (b' & Hset & Htok & _ & Huri & _ & _ & _ & Hlast & _).
  exists b'. exact (conj Hset (conj Htok (conj Huri Hlast))).
Defined.

(** ** The request of [getUpdates] and the answer of the transport *)

(** [cstr_rm_char] on the C string at the start of an object. *)
Lemma cstr_rm_char_string `{Platform} (s rest : list ascii) (c_remove : ascii) :
  Z.of_nat (length s) < 2 ^ size_bits ->
  cstr_rm_char (s ++ NUL :: rest) 0 (Z.of_nat (length s)) c_remove
  = Ok (filter (fun c => c <> c_remove) s
        ++ NUL :: drop (S (length (filter (fun c => c <> c_remove) s))) (s ++ NUL :: rest)).
Proof.
  intros Hsize. set (k := filter (fun c => c <> c_remove) s).
  assert (Hk : (length k <= length s)%nat) by apply length_filter.
  unfold cstr_rm_char.
  pose proof (cstr_rm_char_loop_all [] s (NUL :: rest) c_remove Hsize) as Hloop.
  cbn [app length] in Hloop. change (Z.of_nat 0) with 0 in Hloop. rewrite Hloop.
  clear Hloop. cbn [mbind result_bind]. fold k.
  change (0 + Z.of_nat (length k)) with (Z.of_nat 0 + Z.of_nat (length k)).
  rewrite <- Nat2Z.inj_add.
  assert (Hlen : length (s ++ NUL :: rest) = (length s + S (length rest))%nat)
    by (rewrite length_app; cbn [length]; lia).
  assert (Hin : (0 + length k < length (overwrite (s ++ NUL :: rest) 0 k))%nat)
    by (rewrite length_overwrite; lia).
  rewrite (store_nat _ _ _ Hin).
  rewrite overwrite_snoc by lia.
  unfold overwrite. rewrite take_0. cbn [app Nat.add]. rewrite <- app_assoc. cbn [app].
  rewrite length_app. cbn [length]. by rewrite Nat.add_1_r.
Qed.

Section PollRequest.
Context `{Platform} `{Tokenizer} `{Scanf} `{Config} {C : Type} `{HttpsClient C}.
Implicit Types b : @uTLGBot C.

Lemma getUpdates_body_no_NUL b : NUL ∉ getUpdates_body b.
Proof.
  unfold getUpdates_body.
  repeat (apply not_elem_of_app; split); try apply NUL_not_in_dec; not_in_chars.
Qed.

(** [connect] changes the transport client only. *)
Lemma connect_client b (connected : bool) (b0 : @uTLGBot C) :
  connect b = (connected, b0) -> b0 = set_client b (_client b0).
Proof.
  unfold connect. destruct (is_connected b).
  { intros [= _ <-]. by destruct b. }
  destruct (client_connect _ _ _) as [conn_res c].
  assert (Hd : disconnect (set_client b c) = set_client b (_client (disconnect (set_client b c)))).
  { unfold disconnect. by destruct (negb _). }
  repeat case_decide; intros [= _ <-]; done.
Qed.

Lemma connect_when_connected b :
  (if is_connected b then (true, b) else connect b) = connect b.
Proof. unfold connect. by destruct (is_connected b). Qed.

(** The request buffer is a C string: the body cut to
    [HTTP_MAX_RES_LENGTH - 1] characters. *)
Lemma poll_request_string b (buffer : obj) :
  string_at (poll_request (getUpdates_body b) buffer) 0
  = Ok (take (Z.to_nat (HTTP_MAX_RES_LENGTH - 1)) (getUpdates_body b)).
Proof.
  unfold poll_request. apply string_at_0. apply NUL_not_in_take, getUpdates_body_no_NUL.
Qed.

(** The outcomes of the first part of [getUpdates], by the answer of the
    transport to the request. *)
Lemma getUpdates_receive_cases b (b0 : @uTLGBot C) (uri : list ascii) (status : Z)
    (response : obj) (c : C) :
  connect b = (true, b0) ->
  make_uri (_tlg_api b) API_CMD_GET_UPDATES = Ok uri ->
  0 < HTTP_MAX_RES_LENGTH <= Z.of_nat (length (_buffer b)) ->
  client_post (_client b0) uri TELEGRAM_HOST (poll_request (getUpdates_body b) (_buffer b))
    (Z.of_nat (length (take (Z.to_nat (HTTP_MAX_RES_LENGTH - 1)) (getUpdates_body b))))
    HTTP_MAX_RES_LENGTH (_long_poll_timeout b * 1000 + HTTP_WAIT_RESPONSE_TIMEOUT)
  = (status, response, c) ->
  (status > 0 ->
   getUpdates_receive b
   = Ok (inl (if is_connected (set_client (set_buffer b0 response) c)
              then disconnect (set_client (set_buffer b0 response) c)
              else set_client (set_buffer b0 response) c)))
  /\ (forall buffer : obj,
        status <= 0 -> tlg_unwrap response HTTP_MAX_RES_LENGTH = Ok (false, buffer) ->
        getUpdates_receive b
        = Ok (inl (if is_connected (set_client (set_buffer b0 buffer) c)
                   then disconnect (set_client (set_buffer b0 buffer) c)
                   else set_client (set_buffer b0 buffer) c)))
  /\ (status <= 0 -> tlg_unwrap response HTTP_MAX_RES_LENGTH = Fault ->
      getUpdates_receive b = Fault)
  /\ (forall s rest : list ascii,
        status <= 0 ->
        tlg_unwrap response HTTP_MAX_RES_LENGTH = Ok (true, s ++ NUL :: rest) ->
        NUL ∉ s -> Z.of_nat (length s) < 2 ^ 32 ->
        filter (fun x => x <> LF) (filter (fun x => x <> CR) s) = chars "[]" ->
        exists buffer : obj,
          getUpdates_receive b
          = Ok (inl (disconnect_unless_kept (set_buffer (set_client (set_buffer b0
                       (s ++ NUL :: rest)) c) buffer)))
          /\ take 3 buffer = [NUL; NUL; NUL])
  /\ (forall (b1 : @uTLGBot C) (ptr_response : Z),
        getUpdates_receive b = Ok (inr (b1, ptr_response)) ->
        status <= 0 /\ _client b1 = c
        /\ exists buffer, tlg_unwrap response HTTP_MAX_RES_LENGTH = Ok (true, buffer)).
Proof.
  intros Hconnect Huri Hcap Hpost.
  pose proof (connect_client _ _ _ Hconnect) as Hb0.
  assert (Hfields : _buffer b0 = _buffer b /\ _tlg_api b0 = _tlg_api b
                    /\ _long_poll_timeout b0 = _long_poll_timeout b
                    /\ getUpdates_body b0 = getUpdates_body b).
  { rewrite Hb0. done. }
  destruct Hfields as (Hbuf & Hapi & Htimeout & Hbody).
  unfold getUpdates_receive. rewrite connect_when_connected, Hconnect. cbn [negb].
  rewrite Hbuf, Hbody, Htimeout.
  rewrite snprintf_spec by done. cbn [mbind result_bind].
  fold (poll_request (getUpdates_body b) (_buffer b)).
  assert (Hlen : strlen (poll_request (getUpdates_body b) (_buffer b)) 0
                 = Ok (Z.of_nat (length (take (Z.to_nat (HTTP_MAX_RES_LENGTH - 1))
                                           (getUpdates_body b))))).
  { unfold poll_request. apply strlen_0. apply NUL_not_in_take, getUpdates_body_no_NUL. }
  rewrite Hlen. cbn [mbind result_bind].
  unfold tlg_post. rewrite Hapi, Huri. cbn [mbind result_bind]. rewrite Hpost.
  split; [|split; [|split; [|split]]].
  - intros Hfail. rewrite decide_True by done. done.
  - intros buffer Hok Hunwrap. rewrite decide_False by lia. rewrite Hunwrap. done.
  - intros Hok Hunwrap. rewrite decide_False by lia. rewrite Hunwrap. done.
  - intros s rest Hok Hunwrap Hs Hsize Hlist. rewrite decide_False by lia.
    rewrite Hunwrap. cbn [mbind result_bind negb].
    pose proof pow2_32_le_size as Hsz.
    set (k1 := filter (fun x => x <> CR) s) in *.
    assert (Hk1 : (length k1 <= length s)%nat) by apply length_filter.
    assert (Hk1nul : NUL ∉ k1).
    { unfold k1. intros Hin. apply list_elem_of_filter in Hin as [_ Hin]. done. }
    rewrite (strlen_0 s rest) by done. cbn [mbind result_bind].
    rewrite cstr_rm_char_string by lia. fold k1. cbn [mbind result_bind].
    set (rest1 := drop (S (length k1)) (s ++ NUL :: rest)).
    rewrite (strlen_0 k1 rest1) by done. cbn [mbind result_bind].
    rewrite cstr_rm_char_string by lia. rewrite Hlist. cbn [mbind result_bind].
    set (rest2 := drop (S (length (chars "[]"))) (k1 ++ NUL :: rest1)).
    rewrite (strlen_0 (chars "[]") rest2) by not_in_chars.
    cbn [mbind result_bind].
    change (Z.of_nat (length (chars "[]"))) with 2.
    rewrite (decide_True (P := 2 >= 2)) by lia.
    change (2 - 1) with 1. rewrite size_t_small by lia.
    change (0 + 1) with (Z.of_nat 1). change (0 + 0) with (Z.of_nat 0).
    change (chars "[]" ++ NUL :: rest2) with ("["%char :: "]"%char :: NUL :: rest2).
    rewrite (load_nat _ 1 "]"%char) by done. cbn [mbind result_bind].
    rewrite (decide_True (P := "]"%char = "]"%char)) by done.
    rewrite store_nat by (rewrite ?length_insert; cbn [length]; lia). cbn [mbind result_bind].
    rewrite (load_nat _ 0 "["%char) by done. cbn [mbind result_bind].
    rewrite (decide_True (P := "["%char = "["%char)) by done.
    rewrite store_nat by (rewrite ?length_insert; cbn [length]; lia). cbn [mbind result_bind].
    change (Z.of_nat 1 + 0) with (Z.of_nat 1).
    rewrite (load_nat _ 1 NUL) by done. cbn [mbind result_bind].
    rewrite (decide_True (P := NUL = NUL)) by done.
    eexists. split; [reflexivity|]. done.
  - intros b1 ptr_response Hrun.
    destruct (decide (status > 0)) as [Hfail|Hok]; [discriminate Hrun|].
    destruct (tlg_unwrap response HTTP_MAX_RES_LENGTH) as [[rc buffer]| |] eqn:Hunwrap;
      [|discriminate Hrun..].
    cbn [mbind result_bind] in Hrun. destruct rc; [|discriminate Hrun].
    split; [lia|]. split; [|by exists buffer].
    cbn [negb] in Hrun. inv_ok Hrun; try discriminate Hrun.
    all: injection Hrun as <- _; done.
Qed.

End PollRequest.

Section PollAnswer.
Context `{Platform} `{Tokenizer} `{Scanf} `{Config} {C : Type} `{HttpsClient C}.
Implicit Types b : @uTLGBot C.

Lemma getUpdates_body_offset b :
  getUpdates_body b = offset_body (dec (_last_received_msg b)) (_long_poll_timeout b).
Proof. reflexivity. Qed.

Lemma disconnect_buffer b : _buffer (disconnect b) = _buffer b.
Proof. unfold disconnect. by destruct (negb (is_connected b)). Qed.

Lemma disconnect_unless_kept_buffer b : _buffer (disconnect_unless_kept b) = _buffer b.
Proof.
  unfold disconnect_unless_kept.
  destruct (_dont_keep_connection b && is_connected b); [apply disconnect_buffer | done].
Qed.

Lemma closed_client b (c : C) :
  _client b = c ->
  _client (if is_connected b then disconnect b else b) = c
  \/ _client (if is_connected b then disconnect b else b) = client_disconnect c.
Proof.
  intros <-. unfold disconnect. destruct (is_connected b); cbn [negb]; [by right | by left].
Qed.

(** [getUpdates] hands the transport the body with its poll offset and its
    polling timeout. *)
Lemma getUpdates_posts_body b : getUpdates_posts b (getUpdates_body b).
Proof.
  intros b0 uri status response c Hconnect Huri Hcap Hpost.
  destruct (getUpdates_receive_cases b b0 uri status response c Hconnect Huri Hcap Hpost)
    as (Hfail & _ & Hfault & _ & Hparse).
  pose proof (connect_client _ _ _ Hconnect) as Hb0.
  split; [|split].
  - intros Hstatus. eexists. split.
    { unfold getUpdates. by rewrite (Hfail Hstatus). }
    split; [|split].
    + by destruct (is_connected _); rewrite ?disconnect_buffer.
    + by apply closed_client.
    + assert (Hlast : _last_received_msg b0 = _last_received_msg b) by (by rewrite Hb0).
      by destruct (is_connected _); rewrite ?disconnect_last.
  - intros Hok Hunwrap. unfold getUpdates. by rewrite (Hfault Hok Hunwrap).
  - exact Hparse.
Qed.

End PollAnswer.

Section PollCounter.
Context `{Platform} `{Tokenizer} `{Scanf} `{Config} {C : Type} `{HttpsClient C}.
Implicit Types b : @uTLGBot C.

(** C10.  The constructor sets the poll offset to [UINT64_MAX], that is
    18446744073709551615, and leaves [_buffer] with its
    [HTTP_MAX_RES_LENGTH] bytes.  The first [getUpdates] hands the transport
    the request body with the offset 18446744073709551615 (as a C string in
    [_buffer], cut to [HTTP_MAX_RES_LENGTH - 1] characters, so whole when it
    is shorter than [HTTP_MAX_RES_LENGTH]), and what it returns is decided
    by the answer of the transport to that request.  When
    the payload of that answer cannot be tokenized, [getUpdates] returns 0,
    the offset has wrapped around to 0, and the next [getUpdates] hands the
    transport the body with the offset 0.  Every change of the offset by
    [getUpdates] is an advance by one modulo 2^64. *)
Theorem poll_offset_counter (raw : @uTLGBot C) (token : obj) (dont_keep_connection : bool)
    (bot : @uTLGBot C) :
  uTLGBot_new raw token dont_keep_connection = Ok bot ->
  _last_received_msg bot = UINT64_MAX
  /\ UINT64_MAX = 18446744073709551615
  /\ HTTP_MAX_RES_LENGTH <= Z.of_nat (length (_buffer bot))
  /\ string_at (poll_request (offset_body (chars "18446744073709551615")
                                DEFAULT_TELEGRAM_LONG_POLL_S) (_buffer bot)) 0
     = Ok (take (Z.to_nat (HTTP_MAX_RES_LENGTH - 1))
             (offset_body (chars "18446744073709551615") DEFAULT_TELEGRAM_LONG_POLL_S))
  /\ (Z.of_nat (length (offset_body (chars "18446744073709551615")
                          DEFAULT_TELEGRAM_LONG_POLL_S)) < HTTP_MAX_RES_LENGTH ->
      string_at (poll_request (offset_body (chars "18446744073709551615")
                                 DEFAULT_TELEGRAM_LONG_POLL_S) (_buffer bot)) 0
      = Ok (offset_body (chars "18446744073709551615") DEFAULT_TELEGRAM_LONG_POLL_S))
  /\ getUpdates_posts bot
       (offset_body (chars "18446744073709551615") DEFAULT_TELEGRAM_LONG_POLL_S)
  /\ (forall (b1 b2 : @uTLGBot C) (ptr_response : Z),
        getUpdates_receive bot = Ok (inr (b1, ptr_response)) ->
        getUpdates_tokenize b1 ptr_response = Ok (0, b2) ->
        exists bot' : @uTLGBot C,
          getUpdates bot = Ok (0, bot')
          /\ _last_received_msg bot' = 0
          /\ getUpdates_posts bot' (offset_body (chars "0") DEFAULT_TELEGRAM_LONG_POLL_S))
  /\ (forall (b : @uTLGBot C) (r : Z) (b' : @uTLGBot C),
        getUpdates b = Ok (r, b') ->
        _last_received_msg b' = _last_received_msg b
        \/ exists v, (v = _last_received_msg b
                      \/ exists s x, sscanf_u64 s = Some x /\ v = uint64 x)
                     /\ _last_received_msg b' = (v + 1) mod 2 ^ 64).
Proof.
  intros Hnew.
  assert (Hfields : _last_received_msg bot = UINT64_MAX
                    /\ _long_poll_timeout bot = DEFAULT_TELEGRAM_LONG_POLL_S
                    /\ HTTP_MAX_RES_LENGTH <= Z.of_nat (length (_buffer bot))).
  { unfold uTLGBot_new in Hnew.
    apply bind_Ok in Hnew as (s1 & _ & Hnew). apply bind_Ok in Hnew as (tok & _ & Hnew).
    apply bind_Ok in Hnew as (s2 & _ & Hnew). apply bind_Ok in Hnew as (api & _ & Hnew).
    apply bind_Ok in Hnew as (buffer & Hbuffer & Hnew).
    inv_ok Hnew. injection Hnew as <-. cbn. split; [done|]. split; [done|].
    unfold memset in Hbuffer. case_decide as Hrange; [|discriminate Hbuffer].
    injection Hbuffer as <-.
    rewrite ?length_app, ?length_take, ?length_replicate, ?length_drop. lia. }
  destruct Hfields as (Hlast & Htimeout & Hsize).
  assert (Hbody : getUpdates_body bot
                  = offset_body (chars "18446744073709551615")
                      DEFAULT_TELEGRAM_LONG_POLL_S).
  { rewrite getUpdates_body_offset. by rewrite Hlast, Htimeout. }
  split; [done|]. split; [reflexivity|]. split; [done|].
  split; [|split; [|split; [|split]]].
  - rewrite <- Hbody. apply poll_request_string.
  - intros Hfits. rewrite <- Hbody in *. rewrite poll_request_string.
    by rewrite take_ge by lia.
  - rewrite <- Hbody. apply getUpdates_posts_body.
  - intros b1 b2 ptr_response Hreceive Htokenize.
    pose proof (getUpdates_parse_failure _ _ _ _ Hreceive Htokenize) as Hrun.
    rewrite Hlast in Hrun. change (uint64 (UINT64_MAX + 1)) with 0 in Hrun.
    eexists. split; [exact Hrun|].
    rewrite disconnect_unless_kept_last. split; [done|].
    match goal with |- getUpdates_posts ?b _ => set (bot' := b) end.
    assert (Hbody' : getUpdates_body bot'
                     = offset_body (chars "0") DEFAULT_TELEGRAM_LONG_POLL_S).
    { rewrite getUpdates_body_offset. unfold bot'.
      rewrite disconnect_unless_kept_last, disconnect_unless_kept_timeout.
      cbn [_last_received_msg _long_poll_timeout set_last_received_msg].
      destruct (getUpdates_receive_last _ _ _ Hreceive) as [_ Ht1].
      destruct (getUpdates_tokenize_last _ _ _ _ Htokenize) as [_ Ht2].
      by rewrite Ht2, Ht1, Htimeout. }
    rewrite <- Hbody'. apply getUpdates_posts_body.
  - intros b r b'. apply getUpdates_last.
Qed.

(** X13.  The returns of [getUpdates] between the request and the tokenizer.
    On a bot whose connection is open or opens and whose [_buffer] has its
    [HTTP_MAX_RES_LENGTH] bytes, when the transport answers the request with
    a status above 0, or with a response that has no header separator, or
    with a well-formed response whose payload is the empty list [[]] (once
    its end-of-line characters are removed), [getUpdates] returns 0 and
    leaves the message record, the poll offset and the polling timeout as
    they were; the transport client is the one the transport left, closed or
    not.  A response that the unwrapping rejects after the header is none of
    these returns: when the unwrapping runs out of the buffer, so does
    [getUpdates]. *)
Theorem getUpdates_early_return_keeps b (b0 : @uTLGBot C) (uri : list ascii) (status : Z)
    (response : obj) (c : C) :
  connect b = (true, b0) ->
  make_uri (_tlg_api b) API_CMD_GET_UPDATES = Ok uri ->
  0 < HTTP_MAX_RES_LENGTH <= Z.of_nat (length (_buffer b)) ->
  client_post (_client b0) uri TELEGRAM_HOST (poll_request (getUpdates_body b) (_buffer b))
    (Z.of_nat (length (take (Z.to_nat (HTTP_MAX_RES_LENGTH - 1)) (getUpdates_body b))))
    HTTP_MAX_RES_LENGTH (_long_poll_timeout b * 1000 + HTTP_WAIT_RESPONSE_TIMEOUT)
  = (status, response, c) ->
  ((status > 0
    \/ (status <= 0
        /\ exists (text : list ascii) (last : ascii) (pad : list ascii),
             response = text ++ last :: NUL :: pad
             /\ (NUL ∉ text) /\ last <> NUL
             /\ HTTP_MAX_RES_LENGTH <= Z.of_nat (length response) < 2 ^ 31
             /\ find_after lit_crlfcrlf text = None)
    \/ (status <= 0
        /\ exists (text : list ascii) (last : ascii) (pad : list ascii) (p1 q2 q3 : nat),
             response = text ++ last :: NUL :: pad
             /\ (NUL ∉ text) /\ last <> NUL
             /\ Z.of_nat (length response) < 2 ^ 31
             /\ find_after lit_crlfcrlf text = Some p1
             /\ find_after lit_ok (drop p1 text) = Some q2
             /\ take 4 (drop (p1 + q2) text) = lit_true
             /\ find_after lit_result (drop (p1 + q2) text) = Some q3
             /\ filter (fun x => x <> LF)
                  (filter (fun x => x <> CR) (drop (p1 + q2 + q3) text)) = chars "[]")) ->
   exists b' : @uTLGBot C,
     getUpdates b = Ok (0, b')
     /\ received_msg b' = received_msg b
     /\ _last_received_msg b' = _last_received_msg b
     /\ _long_poll_timeout b' = _long_poll_timeout b
     /\ (_client b' = c \/ _client b' = client_disconnect c))
  /\ (status <= 0 -> tlg_unwrap response HTTP_MAX_RES_LENGTH = Fault ->
      getUpdates b = Fault).
Proof.
  intros Hconnect Huri Hcap Hpost.
  destruct (getUpdates_receive_cases b b0 uri status response c Hconnect Huri Hcap Hpost)
    as (Hfail & Hrejected & Hfault & Hempty & _).
  split; [|intros Hok Hunwrap; unfold getUpdates; by rewrite (Hfault Hok Hunwrap)].
  intros Hcases.
  assert (Hreceive : exists b' : @uTLGBot C,
            getUpdates_receive b = Ok (inl b')
            /\ (_client b' = c \/ _client b' = client_disconnect c)).
  { destruct Hcases as [Hstatus|[(Hok & text & last & pad & -> & Htext & Hlast & Hsize & Hsep)
      |(Hok & text & last & pad & p1 & q2 & q3 & -> & Htext & Hlast & Hsize & Hp1 & Hq2
        & Htrue & Hq3 & Hlist)]].
    - eexists. split; [exact (Hfail Hstatus)|]. by apply closed_client.
    - pose proof (tlg_unwrap_spec text last pad Htext Hlast ltac:(lia) HTTP_MAX_RES_LENGTH)
        as Hrun.
      unfold unwrap_spec in Hrun. rewrite Hsep in Hrun.
      unfold memset in Hrun. rewrite decide_True in Hrun.
      2:{ rewrite !length_app in *. cbn [length] in *. lia. }
      cbn [mbind result_bind] in Hrun.
      eexists. split; [exact (Hrejected _ Hok Hrun)|]. by apply closed_client.
    - pose proof (tlg_unwrap_spec text last pad Htext Hlast Hsize HTTP_MAX_RES_LENGTH)
        as Hrun.
      unfold unwrap_spec in Hrun. rewrite Hp1, Hq2 in Hrun. cbn zeta in Hrun.
      rewrite bool_decide_eq_true_2 in Hrun by done. rewrite Hq3 in Hrun.
      set (payload := drop (p1 + q2 + q3) text) in *.
      assert (Hform : overwrite (text ++ NUL :: NUL :: pad) 0 (payload ++ [NUL])
                      = payload ++ NUL :: drop (S (length payload))
                                             (text ++ NUL :: NUL :: pad)).
      { unfold overwrite. rewrite take_0. cbn [app Nat.add]. rewrite <- app_assoc.
        cbn [app]. rewrite length_app. cbn [length]. by rewrite Nat.add_1_r. }
      rewrite Hform in Hrun.
      assert (Hpl : (length payload <= length text)%nat)
        by (unfold payload; rewrite length_drop; lia).
      destruct (Hempty payload _ Hok Hrun) as (buffer & Hreceive & _).
      + unfold payload. by apply NUL_not_in_drop.
      + rewrite !length_app in Hsize. cbn [length] in Hsize. lia.
      + done.
      + eexists. split; [exact Hreceive|].
        unfold disconnect_unless_kept.
        match goal with
        | |- context [if ?t then disconnect ?x else ?x] =>
          assert (Hx : _client x = c) by done; destruct t
        end; [|by left].
        unfold disconnect. destruct (negb _); [by left | by right]. }
  destruct Hreceive as (b' & Hreceive & Hclient).
  exists b'. destruct (getUpdates_receive_early_keeps b b' Hreceive) as (Hrun & Hkept).
  split; [done|]. destruct Hkept as (Hrec & Hlast & Htimeout). done.
Qed.

End PollCounter.

Lemma poll_offset_counter_witness :
  sample_bot [unparsable_response; unparsable_response] = Ok fresh_bot
  /\ _last_received_msg fresh_bot = 18446744073709551615
  /\ string_at (poll_request (offset_body (chars "18446744073709551615") 10)
                  (_buffer fresh_bot)) 0
     = Ok (chars "{" ++ quoted "offset" ++ chars ":18446744073709551615, "
           ++ quoted "limit" ++ chars ":1, " ++ quoted "timeout" ++ chars ":10, "
           ++ quoted "allowed_updates" ++ chars ":[" ++ quoted "message" ++ chars "]}")
  /\ connect fresh_bot
     = (true, set_client fresh_bot (mk_client true (inbox (_client fresh_bot)) []))
  /\ client_post (mk_client true (inbox (_client fresh_bot)) [])
       (chars "/bot123:ABC/getUpdates") TELEGRAM_HOST
       (poll_request (offset_body (chars "18446744073709551615") 10) (_buffer fresh_bot))
       (Z.of_nat (length (take (Z.to_nat (HTTP_MAX_RES_LENGTH - 1))
                            (offset_body (chars "18446744073709551615") 10))))
       HTTP_MAX_RES_LENGTH (_long_poll_timeout fresh_bot * 1000 + HTTP_WAIT_RESPONSE_TIMEOUT)
     = (0, take 256 (unparsable_response ++ replicate 256 NUL),
        mk_client true [unparsable_response]
          [offset_body (chars "18446744073709551615") 10])
  /\ getUpdates_receive fresh_bot = Ok (inr (received_bot, 1))
  /\ _client received_bot
     = mk_client true [unparsable_response] [offset_body (chars "18446744073709551615") 10]
  /\ getUpdates_tokenize received_bot 1 = Ok (0, tokenized_bot)
  /\ exists bot' : @uTLGBot sample_client,
       getUpdates fresh_bot = Ok (0, bot')
       /\ _last_received_msg bot' = 0
       /\ getUpdates_posts bot' (offset_body (chars "0") 10).
Proof.
  assert (H1 : sample_bot [unparsable_response; unparsable_response] = Ok fresh_bot)
    by (vm_compute; reflexivity).
  assert (H2 : getUpdates_receive fresh_bot = Ok (inr (received_bot, 1)))
    by (vm_compute; reflexivity).
  assert (H3 : getUpdates_tokenize received_bot 1 = Ok (0, tokenized_bot))
    by (vm_compute; reflexivity).
  assert (H4 : connect fresh_bot
               = (true, set_client fresh_bot (mk_client true (inbox (_client fresh_bot)) [])))
    by reflexivity.
  assert (H5 : make_uri (_tlg_api fresh_bot) API_CMD_GET_UPDATES
               = Ok (chars "/bot123:ABC/getUpdates")) by reflexivity.
  assert (H6 : 0 < HTTP_MAX_RES_LENGTH <= Z.of_nat (length (_buffer fresh_bot)))
    by (vm_compute; split; [reflexivity | discriminate]).
  assert (H7 : client_post (mk_client true (inbox (_client fresh_bot)) [])
                 (chars "/bot123:ABC/getUpdates") TELEGRAM_HOST
                 (poll_request (offset_body (chars "18446744073709551615") 10)
                    (_buffer fresh_bot))
                 (Z.of_nat (length (take (Z.to_nat (HTTP_MAX_RES_LENGTH - 1))
                                      (offset_body (chars "18446744073709551615") 10))))
                 HTTP_MAX_RES_LENGTH
                 (_long_poll_timeout fresh_bot * 1000 + HTTP_WAIT_RESPONSE_TIMEOUT)
               = (0, take 256 (unparsable_response ++ replicate 256 NUL),
                  mk_client true [unparsable_response]
                    [offset_body (chars "18446744073709551615") 10]))
    by (vm_compute; reflexivity).
  destruct (poll_offset_counter (H := esp32) _ _ _ _ H1)
    as (Hlast & _ & _ & _ & Hrequest & Hposts & Hwrap & _).
  destruct (Hposts _ _ _ _ _ H4 H5 H6 H7) as (_ & _ & Hparse).
  destruct (Hparse received_bot 1 H2) as (_ & Hclient & _).
  exact (conj H1 (conj Hlast (conj (Hrequest eq_refl) (conj H4 (conj H7 (conj H2
           (conj Hclient (conj H3 (Hwrap received_bot tokenized_bot 1 H2 H3))))))))).
Defined.

Lemma getUpdates_early_return_keeps_witness :
  connect quiet_bot = (true, quiet_bot)
  /\ make_uri (_tlg_api quiet_bot) API_CMD_GET_UPDATES = Ok (chars "/bot123:ABC/getUpdates")
  /\ 0 < HTTP_MAX_RES_LENGTH <= Z.of_nat (length (_buffer quiet_bot))
  /\ client_post (_client quiet_bot) (chars "/bot123:ABC/getUpdates") TELEGRAM_HOST
       (poll_request (getUpdates_body quiet_bot) (_buffer quiet_bot))
       (Z.of_nat (length (take (Z.to_nat (HTTP_MAX_RES_LENGTH - 1))
                            (getUpdates_body quiet_bot))))
       HTTP_MAX_RES_LENGTH
       (_long_poll_timeout quiet_bot * 1000 + HTTP_WAIT_RESPONSE_TIMEOUT)
     = (0, quiet_response, quiet_client)
  /\ filter (fun x => x <> LF)
       (filter (fun x => x <> CR) (drop (19 + 6 + 14) (removelast (updates_response []))))
     = chars "[]"
  /\ exists b' : @uTLGBot sample_client,
       getUpdates quiet_bot = Ok (0, b')
       /\ received_msg b' = received_msg quiet_bot
       /\ _last_received_msg b' = _last_received_msg quiet_bot
       /\ _long_poll_timeout b' = _long_poll_timeout quiet_bot
       /\ (_client b' = quiet_client \/ _client b' = client_disconnect quiet_client).
Proof.
  assert (H1 : connect quiet_bot = (true, quiet_bot)) by reflexivity.
  assert (H2 : make_uri (_tlg_api quiet_bot) API_CMD_GET_UPDATES
               = Ok (chars "/bot123:ABC/getUpdates")) by reflexivity.
  assert (H3 : 0 < HTTP_MAX_RES_LENGTH <= Z.of_nat (length (_buffer quiet_bot)))
    by (vm_compute; split; [reflexivity | discriminate]).
  assert (H4 : client_post (_client quiet_bot) (chars "/bot123:ABC/getUpdates") TELEGRAM_HOST
                 (poll_request (getUpdates_body quiet_bot) (_buffer quiet_bot))
                 (Z.of_nat (length (take (Z.to_nat (HTTP_MAX_RES_LENGTH - 1))
                                      (getUpdates_body quiet_bot))))
                 HTTP_MAX_RES_LENGTH
                 (_long_poll_timeout quiet_bot * 1000 + HTTP_WAIT_RESPONSE_TIMEOUT)
               = (0, quiet_response, quiet_client)) by (vm_compute; reflexivity).
  assert (H5 : filter (fun x => x <> LF)
                 (filter (fun x => x <> CR)
                    (drop (19 + 6 + 14) (removelast (updates_response []))))
               = chars "[]") by reflexivity.
  assert (H6 : NUL ∉ removelast (updates_response [])) by not_in_chars.
  refine (conj H1 (conj H2 (conj H3 (conj H4 (conj H5 _))))).
  refine (proj1 (getUpdates_early_return_keeps (H := esp32) quiet_bot quiet_bot
                   (chars "/bot123:ABC/getUpdates") 0 quiet_response quiet_client
                   H1 H2 H3 H4) _).
  right. right. split; [discriminate|].
  exists (removelast (updates_response [])), "}"%char, (replicate 213 NUL),
    19%nat, 6%nat, 14%nat.
  refine (conj eq_refl (conj H6 (conj _ (conj _ (conj eq_refl (conj eq_refl
           (conj eq_refl (conj eq_refl H5)))))))); [discriminate | reflexivity].
Defined.

(** The sample transport with an empty inbox reports the status 1: the poll
    returns 0 and the record and the offset are those of the last message. *)
Example getUpdates_failed_request_sample :
  exists b : @uTLGBot sample_client,
    getUpdates (set_client quiet_bot (mk_client true [] [])) = Ok (0, b)
    /\ received_msg b = received_msg quiet_bot
    /\ _last_received_msg b = 6
    /\ is_connected b = false.
Proof. eexists. split; [vm_compute; reflexivity|]. repeat split. Qed.

(** A response without header separator: the poll returns 0 with the buffer
    cleared and the connection closed. *)
Example getUpdates_no_separator_sample :
  exists b : @uTLGBot sample_client,
    getUpdates (set_client quiet_bot (mk_client true [chars "Bad Gateway"] [])) = Ok (0, b)
    /\ _buffer b = replicate 256 NUL
    /\ received_msg b = received_msg quiet_bot
    /\ _last_received_msg b = 6
    /\ is_connected b = false.
Proof. eexists. split; [vm_compute; reflexivity|]. repeat split. Qed.

(** A rejected request: the unwrapping runs past the end of the buffer. *)
Example getUpdates_rejected_sample :
  getUpdates (set_client quiet_bot (mk_client true [rejected_response] [])) = Fault.
Proof. vm_compute. reflexivity. Qed.

(** The conversions of the sample world: a sign is read, a value that does
    not fit gives the nearest bound, and text without digits converts
    nothing. *)
Example sample_scanf_conversions :
  sscanf_d64 (chars "-9") = Some (-9)
  /\ sscanf_d64 (chars "9223372036854775808") = Some (2 ^ 63 - 1)
  /\ sscanf_u64 (chars "18446744073709551616") = Some (2 ^ 64 - 1)
  /\ sscanf_u64 (chars " 42,") = Some 42
  /\ sscanf_u32 (chars "4294967296") = Some (2 ^ 32 - 1)
  /\ sscanf_u64 (chars "true") = None.
Proof. repeat split. Qed.

(** ** The top-level keys of an update *)

Lemma tokens_in_text_fewer (js : obj) (ofs : Z) (tokens : list jsmntok_t) (n m : Z) :
  tokens_in_text js ofs tokens m -> 0 <= n <= m -> tokens_in_text js ofs tokens n.
Proof.
  intros (Hm & Hlen & Hwf) Hn. split; [lia|]. split; [lia|].
  intros i t Hi Ht. apply (Hwf i t); [lia | done].
Qed.

(** [snprintf] with ["%s"] of a C string is [snprintf] of its characters. *)
Lemma snprintf_s_string (dst : obj) (n : Z) (v rest : list ascii) :
  NUL ∉ v -> snprintf_s dst n (v ++ NUL :: rest) = snprintf dst n v.
Proof.
  intros Hv. unfold snprintf_s, snprintf. rewrite (strlen_0 v rest) by done.
  cbn [mbind result_bind]. destruct (decide (n <= 0)) as [|Hn]; [done|].
  set (k := Z.min (Z.of_nat (length v)) (n - 1)).
  assert (Hk : 0 <= k <= Z.of_nat (length v)) by lia.
  unfold memcpy. rewrite length_app. cbn [length].
  destruct (decide (0 + k <= Z.of_nat (length dst))) as [Hfit|Hover].
  - rewrite !decide_True by lia. change (Z.to_nat 0) with 0%nat. rewrite !drop_0.
    by rewrite take_app_le by lia.
  - by rewrite !decide_False by lia.
Qed.

Section TopLevel.
Context `{Platform} `{Tokenizer} `{Scanf} `{Config} {C : Type} `{HttpsClient C}.
Implicit Types b : @uTLGBot C.

Lemma keeps_payload_refl b : keeps_payload b b.
Proof. done. Qed.

(** The value that [json_get_element_string] leaves in [_json_value_str] for
    a token shorter than [MAX_JSON_STR_LEN] is a C string. *)
Lemma value_is_string (js : obj) (ofs : Z) (t : jsmntok_t) (old : obj) :
  token_in_text js ofs t ->
  tok_end t - tok_start t < MAX_JSON_STR_LEN ->
  exists s : list ascii,
    string_at (take (Z.to_nat MAX_JSON_STR_LEN) (token_bytes js ofs t)
               ++ replicate (Z.to_nat (MAX_JSON_STR_LEN - (tok_end t - tok_start t))) NUL
               ++ drop (Z.to_nat MAX_JSON_STR_LEN) old) 0 = Ok s.
Proof.
  intros Htok Hshort.
  pose proof (length_token_bytes _ _ _ Htok) as Hbytes.
  set (bytes := token_bytes js ofs t) in *.
  set (o := take _ bytes ++ _).
  assert (Hnul : o !! length bytes = Some NUL).
  { unfold o. rewrite take_ge by lia. rewrite lookup_app_r by lia.
    rewrite Nat.sub_diag.
    replace (Z.to_nat (MAX_JSON_STR_LEN - (tok_end t - tok_start t)))
      with (S (Z.to_nat (MAX_JSON_STR_LEN - (tok_end t - tok_start t) - 1))) by lia.
    done. }
  destruct (first_terminator o _ Hnul) as (d & r & -> & Hd & _).
  exists d. by apply string_at_0.
Qed.

(** On the tokens of the text and the entry after them, [get_value] returns:
    the key is absent, or [_json_value_str] holds the value token. *)
Lemma get_value_outcome b (ptr_response num_elements : Z) (key : list ascii) :
  tokens_in_text (_buffer b) ptr_response (_json_elements b) (num_elements + 1) ->
  0 <= num_elements -> NUL ∉ key ->
  0 <= MAX_JSON_STR_LEN <= Z.of_nat (length (_json_value_str b)) ->
  ((forall i : nat, (0 < i)%nat -> Z.of_nat i < num_elements ->
      key_match (_buffer b) ptr_response (_json_elements b) key i ->
      exists j : nat, (j < i)%nat
                      /\ key_match (_buffer b) ptr_response (_json_elements b) key j)
   /\ get_value b ptr_response num_elements key = Ok (false, b))
  \/ exists t : jsmntok_t,
       value_token (_buffer b) ptr_response (_json_elements b) num_elements key t
       /\ token_in_text (_buffer b) ptr_response t
       /\ get_value b ptr_response num_elements key
          = Ok (true, set_json_value_str b
                        (take (Z.to_nat MAX_JSON_STR_LEN)
                           (token_bytes (_buffer b) ptr_response t)
                         ++ replicate
                              (Z.to_nat (MAX_JSON_STR_LEN - (tok_end t - tok_start t))) NUL
                         ++ drop (Z.to_nat MAX_JSON_STR_LEN) (_json_value_str b))).
Proof.
  intros Hall Hnum Hkey Hcap.
  pose proof (tokens_in_text_fewer _ _ _ num_elements _ Hall ltac:(lia)) as Htokens.
  destruct Hall as (Hn1 & Hlen1 & Hwf1).
  unfold get_value, json_has_key.
  destruct (json_has_key_loop_spec (_buffer b) ptr_response (_json_elements b) num_elements key
              Htokens Hkey (Z.to_nat num_elements) 0) as (r & Hr & Hcases); [lia..|].
  rewrite Hr. cbn [mbind result_bind].
  destruct (decide (r <> 0)) as [Hnz|Hz].
  - right. destruct Hcases as [[-> _]|(Hr1 & Hmatch & Hfirst)]; [done|].
    rewrite uint32_small by lia.
    assert (Hin : (Z.to_nat (r + 1) < length (_json_elements b))%nat) by lia.
    destruct (lookup_lt_is_Some_2 _ _ Hin) as [t Ht].
    rewrite Ht. cbn [of_option mbind result_bind].
    assert (Hbelow : Z.of_nat (Z.to_nat (r + 1)) < num_elements + 1) by lia.
    pose proof (Hwf1 _ t Hbelow Ht) as Htok.
    rewrite json_get_element_string_spec by done. cbn [mbind result_bind].
    exists t. split; [|done].
    exists (Z.to_nat r). split; [lia|]. split; [lia|]. split; [done|].
    split; [intros j Hj; apply Hfirst; lia|].
    by replace (S (Z.to_nat r)) with (Z.to_nat (r + 1)) by lia.
  - left. split; [|done]. assert (r = 0) as -> by lia.
    intros i Hpos Hi Hmatch.
    destruct Hcases as [[_ Hnone]|(Hr1 & Hm0 & _)].
    + destruct (Hnone i ltac:(lia) Hmatch).
    + exists 0%nat. split; [lia | exact Hm0].
Qed.

Lemma value_token_keeps b b' (ptr_response num_elements : Z) (key : list ascii)
    (t : jsmntok_t) :
  keeps_payload b b' ->
  value_token (_buffer b') ptr_response (_json_elements b') num_elements key t ->
  value_token (_buffer b) ptr_response (_json_elements b) num_elements key t.
Proof. intros (-> & -> & _). done. Qed.

(** The condition under which the steps for the top-level keys return: the
    tokens and the entry after them lie in the payload, and
    [_json_value_str] has its [MAX_JSON_STR_LEN] bytes. *)
Section Steps.
Variables (b0 : @uTLGBot C) (ptr_response num_elements : Z).
Hypothesis Hall :
  tokens_in_text (_buffer b0) ptr_response (_json_elements b0) (num_elements + 1).
Hypothesis Hnum : 0 <= num_elements.
Hypothesis Hcap : 0 <= MAX_JSON_STR_LEN <= Z.of_nat (length (_json_value_str b0)).

Lemma keeps_tokens b : 
  keeps_payload b0 b ->
  tokens_in_text (_buffer b) ptr_response (_json_elements b) (num_elements + 1)
  /\ 0 <= MAX_JSON_STR_LEN <= Z.of_nat (length (_json_value_str b)).
Proof. intros (-> & -> & -> & _). done. Qed.

Lemma length_value (b : @uTLGBot C) (t : jsmntok_t) :
  token_in_text (_buffer b) ptr_response t ->
  0 <= MAX_JSON_STR_LEN <= Z.of_nat (length (_json_value_str b)) ->
  length (take (Z.to_nat MAX_JSON_STR_LEN) (token_bytes (_buffer b) ptr_response t)
          ++ replicate (Z.to_nat (MAX_JSON_STR_LEN - (tok_end t - tok_start t))) NUL
          ++ drop (Z.to_nat MAX_JSON_STR_LEN) (_json_value_str b))
  = length (_json_value_str b).
Proof.
  intros Htok Hc. pose proof (length_token_bytes _ _ _ Htok) as Hbytes.
  destruct Htok as (_ & Hse & _).
  rewrite !length_app, length_take, length_replicate, length_drop. lia.
Qed.

Ltac scanned_key key :=
  let Hno := fresh "Hno" in let t := fresh "t" in let Hval := fresh "Hval" in
  let Htok := fresh "Htok" in let Hget := fresh "Hget" in
  let s := fresh "s" in let Hs := fresh "Hs" in
  match goal with
  | Hkeep : keeps_payload b0 ?b, Hshort : forall t, value_token _ _ _ _ _ t -> _ |- _ =>
    destruct (keeps_tokens b Hkeep) as [Hall' Hcap'];
    destruct (get_value_outcome b ptr_response num_elements (chars key) Hall' Hnum
                ltac:(not_in_chars) Hcap') as [[_ Hget]|(t & Hval & Htok & Hget)];
    rewrite Hget; cbn [mbind result_bind];
    [ by exists b
    | destruct (value_is_string (_buffer b) ptr_response t (_json_value_str b) Htok
                  (Hshort t (value_token_keeps _ _ _ _ _ _ Hkeep Hval))) as (s & Hs);
      cbn [_json_value_str set_json_value_str]; rewrite Hs; cbn [mbind result_bind];
      pose proof (length_value b t Htok Hcap') as Hlen;
      destruct Hkeep as (Hk1 & Hk2 & Hk3 & Hk4) ]
  end.

Lemma getUpdates_update_id_returns b :
  keeps_payload b0 b ->
  (forall t, value_token (_buffer b0) ptr_response (_json_elements b0) num_elements
               (chars "update_id") t ->
             tok_end t - tok_start t < MAX_JSON_STR_LEN) ->
  exists b' : @uTLGBot C,
    getUpdates_update_id b ptr_response num_elements = Ok b' /\ keeps_payload b0 b'.
Proof.
  intros Hkeep Hshort. unfold getUpdates_update_id. scanned_key "update_id".
  eexists. split; [reflexivity|]. split_and!; cbn; congruence.
Qed.

Lemma getUpdates_message_id_returns b :
  keeps_payload b0 b ->
  (forall t, value_token (_buffer b0) ptr_response (_json_elements b0) num_elements
               (chars "message_id") t ->
             tok_end t - tok_start t < MAX_JSON_STR_LEN) ->
  exists b' : @uTLGBot C,
    getUpdates_message_id b ptr_response num_elements = Ok b' /\ keeps_payload b0 b'.
Proof.
  intros Hkeep Hshort. unfold getUpdates_message_id. scanned_key "message_id".
  destruct (sscanf_d64 s); eexists; (split; [reflexivity|]); split_and!; cbn; congruence.
Qed.

Lemma getUpdates_date_returns b :
  keeps_payload b0 b ->
  (forall t, value_token (_buffer b0) ptr_response (_json_elements b0) num_elements
               (chars "date") t ->
             tok_end t - tok_start t < MAX_JSON_STR_LEN) ->
  exists b' : @uTLGBot C,
    getUpdates_date b ptr_response num_elements = Ok b' /\ keeps_payload b0 b'.
Proof.
  intros Hkeep Hshort. unfold getUpdates_date. scanned_key "date".
  destruct (sscanf_u32 s); eexists; (split; [reflexivity|]); split_and!; cbn; congruence.
Qed.

(** The steps before the [text] key return and keep the payload, its tokens
    and the [text] field, when the values of the three numbers are shorter
    than [MAX_JSON_STR_LEN]. *)
Lemma before_text_key :
  (forall key t, key ∈ [chars "update_id"; chars "message_id"; chars "date"] ->
     value_token (_buffer b0) ptr_response (_json_elements b0) num_elements key t ->
     tok_end t - tok_start t < MAX_JSON_STR_LEN) ->
  exists b3 : @uTLGBot C,
    keeps_payload b0 b3
    /\ getUpdates_scalars b0 ptr_response num_elements
       = getUpdates_text b3 ptr_response num_elements.
Proof.
  intros Hshort. unfold getUpdates_scalars.
  destruct (getUpdates_update_id_returns b0 (keeps_payload_refl b0)) as (b1 & -> & Hk1).
  { intros t. apply Hshort. repeat constructor. }
  cbn [mbind result_bind].
  destruct (getUpdates_message_id_returns b1 Hk1) as (b2 & -> & Hk2).
  { intros t. apply Hshort. repeat constructor. }
  cbn [mbind result_bind].
  destruct (getUpdates_date_returns b2 Hk2) as (b3 & -> & Hk3).
  { intros t. apply Hshort. repeat constructor. }
  cbn [mbind result_bind]. by exists b3.
Qed.

End Steps.

(** X25.  The top-level keys of an update, when the tokens of the payload and
    the entry after them lie in the payload and the values read for
    [update_id], [message_id] and [date] are shorter than
    [MAX_JSON_STR_LEN].  If the value read for [text] is shorter than
    [MAX_JSON_STR_LEN] too, the steps return and the [text] field of the
    record holds the first [MAX_TEXT_LENGTH - 1] bytes of that value,
    terminated: a longer text is cut, a shorter one is stored whole. *)
Theorem getUpdates_scalars_text_cut b (ptr_response num_elements : Z) (t : jsmntok_t) :
  tokens_in_text (_buffer b) ptr_response (_json_elements b) (num_elements + 1) ->
  0 <= num_elements ->
  0 <= MAX_JSON_STR_LEN <= Z.of_nat (length (_json_value_str b)) ->
  0 < MAX_TEXT_LENGTH <= Z.of_nat (length (msg_text (received_msg b))) ->
  (forall key t', key ∈ [chars "update_id"; chars "message_id"; chars "date"] ->
     value_token (_buffer b) ptr_response (_json_elements b) num_elements key t' ->
     tok_end t' - tok_start t' < MAX_JSON_STR_LEN) ->
  value_token (_buffer b) ptr_response (_json_elements b) num_elements (chars "text") t ->
  tok_end t - tok_start t < MAX_JSON_STR_LEN ->
  NUL ∉ token_bytes (_buffer b) ptr_response t ->
  exists b' : @uTLGBot C,
    getUpdates_scalars b ptr_response num_elements = Ok b'
    /\ string_at (msg_text (received_msg b')) 0
       = Ok (take (Z.to_nat (MAX_TEXT_LENGTH - 1)) (token_bytes (_buffer b) ptr_response t)).
Proof.
  intros Hall Hnum Hcap Htext Hshort Hvalue Hfits Hbytes.
  destruct (before_text_key b ptr_response num_elements Hall Hnum Hcap Hshort)
    as (b3 & Hkeep & ->).
  destruct (keeps_tokens b ptr_response num_elements Hall Hcap b3 Hkeep) as [Hall3 Hcap3].
  destruct Hkeep as (Hbuf & Hel & Hlen & Htxt).
  rewrite <- Htxt in Htext.
  revert Hvalue Hbytes. rewrite <- Hbuf, <- Hel. intros Hvalue Hbytes.
  pose proof (tokens_in_text_fewer _ _ _ num_elements _ Hall3 ltac:(lia)) as Htokens.
  destruct Hvalue as (i & Hpos & Hi & Hmatch & Hfirst & Ht).
  assert (Htok : token_in_text (_buffer b3) ptr_response t).
  { destruct Hall3 as (_ & _ & Hwf). apply (Hwf (S i)); [lia | done]. }
  assert (Hkey : NUL ∉ chars "text") by not_in_chars.
  unfold getUpdates_text, get_value.
  rewrite (json_has_key_at _ _ _ _ _ Htokens Hkey i Hi Hmatch Hfirst).
  cbn [mbind result_bind]. rewrite decide_True by lia.
  assert (Hn32 : num_elements + 1 < 2 ^ 32) by (destruct Hall3 as (? & _); lia).
  rewrite uint32_small by lia.
  replace (Z.to_nat (Z.of_nat i + 1)) with (S i) by lia. rewrite Ht.
  cbn [of_option mbind result_bind].
  rewrite json_get_element_string_spec by done.
  cbn [mbind result_bind set_json_value_str _json_value_str received_msg].
  set (bytes := token_bytes (_buffer b3) ptr_response t) in *.
  assert (Hlb : Z.of_nat (length bytes) = tok_end t - tok_start t)
    by (unfold bytes; apply length_token_bytes; done).
  rewrite take_ge by lia.
  replace (Z.to_nat (MAX_JSON_STR_LEN - (tok_end t - tok_start t)))
    with (S (Z.to_nat (MAX_JSON_STR_LEN - (tok_end t - tok_start t) - 1))) by lia.
  cbn [replicate app]. rewrite snprintf_s_string by done.
  rewrite snprintf_spec by done. cbn [mbind result_bind].
  eexists. split; [reflexivity|].
  cbn [received_msg set_received_msg msg_text set_msg_text].
  apply string_at_0. by apply NUL_not_in_take.
Qed.

(** X26.  Under the same conditions on the tokens and on the three numbers,
    when no token below [num_elements] equals [text], the steps return and
    leave the [text] field as it was: a message without text keeps the empty
    text that [clear_msg_data] gave the field. *)
Theorem getUpdates_scalars_no_text b (ptr_response num_elements : Z) :
  tokens_in_text (_buffer b) ptr_response (_json_elements b) (num_elements + 1) ->
  0 <= num_elements ->
  0 <= MAX_JSON_STR_LEN <= Z.of_nat (length (_json_value_str b)) ->
  (forall key t, key ∈ [chars "update_id"; chars "message_id"; chars "date"] ->
     value_token (_buffer b) ptr_response (_json_elements b) num_elements key t ->
     tok_end t - tok_start t < MAX_JSON_STR_LEN) ->
  (forall i : nat, Z.of_nat i < num_elements ->
     ~ key_match (_buffer b) ptr_response (_json_elements b) (chars "text") i) ->
  exists b' : @uTLGBot C,
    getUpdates_scalars b ptr_response num_elements = Ok b'
    /\ msg_text (received_msg b') = msg_text (received_msg b).
Proof.
  intros Hall Hnum Hcap Hshort Hnone.
  destruct (before_text_key b ptr_response num_elements Hall Hnum Hcap Hshort)
    as (b3 & Hkeep & ->).
  destruct (keeps_tokens b ptr_response num_elements Hall Hcap b3 Hkeep) as [Hall3 Hcap3].
  destruct Hkeep as (Hbuf & Hel & Hlen & Htxt).
  revert Hnone. rewrite <- Hbuf, <- Hel. intros Hnone.
  pose proof (tokens_in_text_fewer _ _ _ num_elements _ Hall3 ltac:(lia)) as Htokens.
  assert (Hkey : NUL ∉ chars "text") by not_in_chars.
  unfold getUpdates_text, get_value.
  rewrite (json_has_key_absent _ _ _ _ _ Htokens Hkey Hnone).
  cbn [mbind result_bind]. rewrite decide_False by (intros Hnz; by apply Hnz).
  by exists b3.
Qed.

End TopLevel.

Lemma long_polled_tokens_in_text :
  tokens_in_text (_buffer long_polled_bot) 1 (_json_elements long_polled_bot) (13 + 1).
Proof.
  split; [split; [discriminate | reflexivity]|]. split; [vm_compute; discriminate|].
  intros i t Hi Ht.
  do 14 (destruct i as [|i];
         [injection Ht as <-; unfold token_in_text; vm_compute; repeat split; discriminate|]).
  lia.
Qed.

Lemma long_polled_short_values (key : list ascii) (t : jsmntok_t) :
  key ∈ [chars "update_id"; chars "message_id"; chars "date"] ->
  value_token (_buffer long_polled_bot) 1 (_json_elements long_polled_bot) 13 key t ->
  tok_end t - tok_start t < MAX_JSON_STR_LEN.
Proof.
  intros _ (i & _ & Hi & _ & _ & Ht).
  do 13 (destruct i as [|i]; [injection Ht as <-; reflexivity|]).
  lia.
Qed.

Lemma long_polled_text_value :
  value_token (_buffer long_polled_bot) 1 (_json_elements long_polled_bot) 13 (chars "text")
    (mk_tok JSMN_STRING 34 59).
Proof.
  exists 5%nat. split; [lia|]. split; [reflexivity|]. split; [|split; [|reflexivity]].
  - eexists. split; [reflexivity|]. repeat split.
  - intros j Hj (t & Ht & Hty & Hlen & Hbytes).
    do 5 (destruct j as [|j]; [injection Ht as <-; vm_compute in Hty, Hlen; congruence|]).
    lia.
Qed.

Lemma getUpdates_scalars_text_cut_witness :
  tokens_in_text (_buffer long_polled_bot) 1 (_json_elements long_polled_bot) (13 + 1)
  /\ 0 <= 13
  /\ 0 <= MAX_JSON_STR_LEN <= Z.of_nat (length (_json_value_str long_polled_bot))
  /\ 0 < MAX_TEXT_LENGTH <= Z.of_nat (length (msg_text (received_msg long_polled_bot)))
  /\ (forall key t', key ∈ [chars "update_id"; chars "message_id"; chars "date"] ->
        value_token (_buffer long_polled_bot) 1 (_json_elements long_polled_bot) 13 key t' ->
        tok_end t' - tok_start t' < MAX_JSON_STR_LEN)
  /\ value_token (_buffer long_polled_bot) 1 (_json_elements long_polled_bot) 13
       (chars "text") (mk_tok JSMN_STRING 34 59)
  /\ tok_end (mk_tok JSMN_STRING 34 59) - tok_start (mk_tok JSMN_STRING 34 59)
     < MAX_JSON_STR_LEN
  /\ (NUL ∉ token_bytes (_buffer long_polled_bot) 1 (mk_tok JSMN_STRING 34 59))
  /\ token_bytes (_buffer long_polled_bot) 1 (mk_tok JSMN_STRING 34 59)
     = chars "hello world, this is long"
  /\ exists b' : @uTLGBot sample_client,
       getUpdates_scalars long_polled_bot 1 13 = Ok b'
       /\ string_at (msg_text (received_msg b')) 0 = Ok (chars "hello world, th").
Proof.
  assert (H2 : 0 <= 13) by lia.
  assert (H3 : 0 <= MAX_JSON_STR_LEN
               <= Z.of_nat (length (_json_value_str long_polled_bot)))
    by (vm_compute; split; discriminate).
  assert (H4 : 0 < MAX_TEXT_LENGTH
               <= Z.of_nat (length (msg_text (received_msg long_polled_bot))))
    by (vm_compute; split; [reflexivity | discriminate]).
  assert (H7 : tok_end (mk_tok JSMN_STRING 34 59) - tok_start (mk_tok JSMN_STRING 34 59)
               < MAX_JSON_STR_LEN) by reflexivity.
  assert (H8 : NUL ∉ token_bytes (_buffer long_polled_bot) 1 (mk_tok JSMN_STRING 34 59))
    by not_in_chars.
  refine (conj long_polled_tokens_in_text (conj H2 (conj H3 (conj H4
           (conj long_polled_short_values (conj long_polled_text_value (conj H7
           (conj H8 (conj eq_refl _))))))))).
  exact (getUpdates_scalars_text_cut (H := esp32) long_polled_bot 1 13
           (mk_tok JSMN_STRING 34 59) long_polled_tokens_in_text H2 H3 H4
           long_polled_short_values long_polled_text_value H7 H8).
Defined.

Lemma textless_tokens_in_text :
  tokens_in_text (_buffer textless_bot) 1 (_json_elements textless_bot) (3 + 1).
Proof.
  split; [split; [discriminate | reflexivity]|]. split; [vm_compute; discriminate|].
  intros i t Hi Ht.
  do 4 (destruct i as [|i];
        [injection Ht as <-; unfold token_in_text; vm_compute; repeat split; discriminate|]).
  lia.
Qed.

Lemma textless_update_id_value :
  value_token (_buffer textless_bot) 1 (_json_elements textless_bot) 3 (chars "update_id")
    (mk_tok JSMN_PRIMITIVE 13 14).
Proof.
  exists 1%nat. split; [lia|]. split; [reflexivity|]. split; [|split; [|reflexivity]].
  - eexists. split; [reflexivity|]. repeat split.
  - intros j Hj (t & Ht & Hty & _).
    destruct j as [|j]; [injection Ht as <-; discriminate Hty | lia].
Qed.

Lemma textless_short_values (key : list ascii) (t : jsmntok_t) :
  key ∈ [chars "update_id"; chars "message_id"; chars "date"] ->
  value_token (_buffer textless_bot) 1 (_json_elements textless_bot) 3 key t ->
  tok_end t - tok_start t < MAX_JSON_STR_LEN.
Proof.
  intros _ (i & _ & Hi & _ & _ & Ht).
  do 3 (destruct i as [|i]; [injection Ht as <-; reflexivity|]).
  lia.
Qed.

Lemma textless_no_text (i : nat) :
  Z.of_nat i < 3 ->
  ~ key_match (_buffer textless_bot) 1 (_json_elements textless_bot) (chars "text") i.
Proof.
  intros Hi (t & Ht & Hty & Hlen & _).
  do 3 (destruct i as [|i]; [injection Ht as <-; vm_compute in Hty, Hlen; congruence|]).
  lia.
Qed.

Lemma getUpdates_scalars_no_text_witness :
  tokens_in_text (_buffer textless_bot) 1 (_json_elements textless_bot) (3 + 1)
  /\ 0 <= 3
  /\ 0 <= MAX_JSON_STR_LEN <= Z.of_nat (length (_json_value_str textless_bot))
  /\ (forall key t, key ∈ [chars "update_id"; chars "message_id"; chars "date"] ->
        value_token (_buffer textless_bot) 1 (_json_elements textless_bot) 3 key t ->
        tok_end t - tok_start t < MAX_JSON_STR_LEN)
  /\ value_token (_buffer textless_bot) 1 (_json_elements textless_bot) 3
       (chars "update_id") (mk_tok JSMN_PRIMITIVE 13 14)
  /\ (forall i : nat, Z.of_nat i < 3 ->
        ~ key_match (_buffer textless_bot) 1 (_json_elements textless_bot) (chars "text") i)
  /\ exists b' : @uTLGBot sample_client,
       getUpdates_scalars textless_bot 1 3 = Ok b'
       /\ msg_text (received_msg b') = msg_text (received_msg textless_bot).
Proof.
  assert (H2 : 0 <= 3) by lia.
  assert (H3 : 0 <= MAX_JSON_STR_LEN
               <= Z.of_nat (length (_json_value_str textless_bot)))
    by (vm_compute; split; discriminate).
  refine (conj textless_tokens_in_text (conj H2 (conj H3 (conj textless_short_values
           (conj textless_update_id_value (conj textless_no_text _)))))).
  exact (getUpdates_scalars_no_text (H := esp32) textless_bot 1 3
           textless_tokens_in_text H2 H3 textless_short_values textless_no_text).
Defined.

(** The update without text, read: the poll offset is one more than its
    [update_id] and the text of the record is still empty. *)
Example getUpdates_scalars_textless_sample :
  exists b : @uTLGBot sample_client,
    getUpdates_scalars textless_bot 1 3 = Ok b
    /\ _last_received_msg b = 6
    /\ msg_text (received_msg b) !! 0%nat = Some NUL.
Proof. eexists. split; [vm_compute; reflexivity|]. split; reflexivity. Qed.

(** A value of [MAX_JSON_STR_LEN] bytes for [update_id] leaves
    [_json_value_str] without terminator, and [sscanf] reads past the
    array. *)
Example getUpdates_scalars_long_number_sample :
  getUpdates_scalars
    (set_json_elements
       (set_buffer fresh_bot
          (NUL :: chars "{" ++ quoted "update_id" ++ chars ":" ++ replicate 128 "7"%char
           ++ chars "}" ++ replicate 100 NUL))
       ([mk_tok JSMN_OBJECT 0 142; mk_tok JSMN_STRING 2 11; mk_tok JSMN_PRIMITIVE 13 141]
        ++ replicate 29 zero_tok))
    1 3 = Fault.
Proof. vm_compute. reflexivity. Qed.
